(** * Import pipeline of the API Manager command-line tool

    A shallow embedding of the import pipeline of
    [import-export-cli/impl/importAPI.go], [importAPIProduct.go] and of the
    application import command: the parameter merge ([mergeAPI] and the
    security handlers), the pre-processing of legacy endpoints, the defaults
    stage, the validator, the create-versus-update dispatch and the mapping
    of the upload's HTTP status.

    Go strings are byte strings: they are modelled by Rocq's [string]
    (a list of 8-bit characters).  The functions of Go's standard library
    and of the gabs library that the pipeline calls are modelled in the
    modules [Utf8], [Unicode], [Strings], [Path], [Filepath], [Strconv],
    [Url], [Regexp] and [Gabs]; the code of the repository itself is at top
    level and keeps its Go names. *)

From Stdlib Require Import ZArith QArith_base Ascii String List Bool Lia.
From stdpp Require Import base tactics option list gmap strings fin_maps.

Set Default Proof Using "Type".

(** ** Bytes *)

Abbreviation bytes := (list ascii).

Definition b2z (c : ascii) : Z := Z.of_N (N_of_ascii c).

Definition to_bytes (s : string) : bytes := list_ascii_of_string s.
Definition of_bytes (l : bytes) : string := string_of_list_ascii l.

Definition byte_eqb (a b : ascii) : bool := Ascii.eqb a b.

(** The double quote character, U+0022. *)
Definition dquote : ascii := ascii_of_nat 34.

(** [prefixb p s]: the byte sequence [p] is a prefix of [s]. *)
Fixpoint prefixb (p s : bytes) : bool :=
  match p, s with
  | [], _ => true
  | a :: p', b :: s' => byte_eqb a b && prefixb p' s'
  | _ :: _, [] => false
  end.

(** ** Go errors

    An [error] value is either built by [errors.New] / [fmt.Errorf] in the
    pipeline itself, or comes from a library or from the operating
    system. *)

Inductive error : Type :=
  | errors_New (msg : string)
  | NumError (func num : string)          (* strconv: invalid syntax *)
  | ErrPathCollision                      (* gabs: a path element is not a map *)
  | ErrNotObj                             (* gabs: no such entry to delete *)
  | RuntimePanic (msg : string)           (* a run-time panic, never recovered *)
  | ErrExternal (msg : string).           (* collaborators: OS, codecs, HTTP *)

Inductive result (A : Type) : Type :=
  | Ok (a : A)
  | Err (e : error).
Arguments Ok {A} a.
Arguments Err {A} e.

(** ** unicode/utf8 *)

Module Utf8.

Local Open Scope Z_scope.

Definition RuneError : Z := 0xFFFD.
Definition RuneSelf : Z := 0x80.
Definition UTFMax : Z := 4.

Definition locb : Z := 0x80.
Definition hicb : Z := 0xBF.

(** The table [first] of the Go package with the accept range of the
    second byte inlined: [AS] for ASCII, [XX] for a byte that cannot
    start a sequence, [Multi sz lo hi] for the lead byte of a sequence
    of [sz] bytes whose second byte lies in [lo..hi]. *)
Inductive firstInfo : Type :=
  | AS
  | XX
  | Multi (sz : nat) (lo hi : Z).

Definition first (b : Z) : firstInfo :=
  if b <? 0x80 then AS
  else if b <? 0xC2 then XX
  else if b <? 0xE0 then Multi 2%nat locb hicb
  else if b =? 0xE0 then Multi 3%nat 0xA0 hicb
  else if b <? 0xED then Multi 3%nat locb hicb
  else if b =? 0xED then Multi 3%nat locb 0x9F
  else if b <? 0xF0 then Multi 3%nat locb hicb
  else if b =? 0xF0 then Multi 4%nat 0x90 hicb
  else if b <? 0xF4 then Multi 4%nat locb hicb
  else if b =? 0xF4 then Multi 4%nat locb 0x8F
  else XX.

Definition outside (lo hi b : Z) : bool := (b <? lo) || (hi <? b).

(** [DecodeRuneInString]: the first rune of [s] and its width in bytes;
    [(RuneError, 0%nat)] on the empty string and [(RuneError, 1%nat)] on an
    invalid encoding. *)
Definition DecodeRune (s : bytes) : Z * nat :=
  match s with
  | [] => (RuneError, 0%nat)
  | c0 :: t =>
    let s0 := b2z c0 in
    match first s0 with
    | AS => (s0, 1%nat)
    | XX => (RuneError, 1%nat)
    | Multi sz lo hi =>
      if (length s <? sz)%nat then (RuneError, 1%nat)
      else
        match t with
        | [] => (RuneError, 1%nat)
        | c1 :: t1 =>
          let s1 := b2z c1 in
          if outside lo hi s1 then (RuneError, 1%nat)
          else if (sz <=? 2)%nat
          then (Z.lor (Z.shiftl (Z.land s0 0x1F) 6) (Z.land s1 0x3F), 2%nat)
          else
            match t1 with
            | [] => (RuneError, 1%nat)
            | c2 :: t2 =>
              let s2 := b2z c2 in
              if outside locb hicb s2 then (RuneError, 1%nat)
              else if (sz <=? 3)%nat
              then (Z.lor (Z.shiftl (Z.land s0 0x0F) 12)
                      (Z.lor (Z.shiftl (Z.land s1 0x3F) 6)
                             (Z.land s2 0x3F)), 3%nat)
              else
                match t2 with
                | [] => (RuneError, 1%nat)
                | c3 :: _ =>
                  let s3 := b2z c3 in
                  if outside locb hicb s3 then (RuneError, 1%nat)
                  else (Z.lor (Z.shiftl (Z.land s0 0x07) 18)
                         (Z.lor (Z.shiftl (Z.land s1 0x3F) 12)
                           (Z.lor (Z.shiftl (Z.land s2 0x3F) 6)
                                  (Z.land s3 0x3F))), 4%nat)
                end
            end
        end
    end
  end.

(** [RuneStart b]: [b] is not a continuation byte. *)
Definition RuneStart (b : Z) : bool := negb (Z.land b 0xC0 =? 0x80).

(** The backward scan of [DecodeLastRuneInString]:
    [for start--; start >= lim; start-- { if RuneStart(s[start]) break }].
    [start] begins at [end-2] and [lim] is at least [end-4], so the loop
    body runs at most three times. *)
Fixpoint scanStart (n : nat) (s : bytes) (start lim : Z) : Z :=
  match n with
  | O => start
  | S n' =>
    if start <? lim then start
    else
      match s !! Z.to_nat start with
      | Some c => if RuneStart (b2z c) then start
                  else scanStart n' s (start - 1) lim
      | None => start
      end
  end.

(** [DecodeLastRuneInString]. *)
Definition DecodeLastRune (s : bytes) : Z * nat :=
  let end_ := Z.of_nat (length s) in
  match last s with
  | None => (RuneError, 0%nat)
  | Some c =>
    let r := b2z c in
    if r <? RuneSelf then (r, 1%nat)
    else
      let lim := Z.max 0 (end_ - UTFMax) in
      let start := Z.max 0 (scanStart 3%nat s (end_ - 2) lim) in
      let '(r, size) := DecodeRune (drop (Z.to_nat start) s) in
      if negb (start + Z.of_nat size =? end_) then (RuneError, 1%nat)
      else (r, size)
  end.

End Utf8.

(** ** unicode *)

Module Unicode.

Local Open Scope Z_scope.

Definition MaxLatin1 : Z := 0xFF.

(** [unicode.IsSpace]: the Latin-1 spaces, then the table [White_Space]
    above Latin-1. *)
Definition IsSpace (r : Z) : bool :=
  if r <=? MaxLatin1 then
    (r =? 0x09) || (r =? 0x0A) || (r =? 0x0B) || (r =? 0x0C) ||
    (r =? 0x0D) || (r =? 0x20) || (r =? 0x85) || (r =? 0xA0)
  else
    (r =? 0x1680) || ((0x2000 <=? r) && (r <=? 0x200A)) ||
    (r =? 0x2028) || (r =? 0x2029) || (r =? 0x202F) ||
    (r =? 0x205F) || (r =? 0x3000).

End Unicode.

(** ** strings *)

Module Strings.

(** [strings.HasPrefix]. *)
Definition HasPrefix (s prefix : string) : bool :=
  prefixb (to_bytes prefix) (to_bytes s).

(** [strings.Contains s substr]: [substr] occurs at some offset of [s]
    ([strings.Index(s, substr) >= 0]). *)
Fixpoint containsb (s substr : bytes) : bool :=
  prefixb substr s ||
  match s with
  | [] => false
  | _ :: t => containsb t substr
  end.

Definition Contains (s substr : string) : bool :=
  containsb (to_bytes s) (to_bytes substr).

(** The replacement loop of [strings.Replace] for a non-empty [old]:
    the leftmost occurrence is replaced and the scan resumes after it.
    Every step consumes at least one byte, so [length s] steps are
    enough. *)
Fixpoint replaceLoop (fuel : nat) (s old new : bytes) : bytes :=
  match fuel with
  | O => s
  | S fuel' =>
    match s with
    | [] => []
    | c :: t =>
      if prefixb old s
      then new ++ replaceLoop fuel' (drop (length old) s) old new
      else c :: replaceLoop fuel' t old new
    end
  end.

(** [strings.Replace] for an empty [old]: [new] is inserted before every
    rune and at the end of the string. *)
Fixpoint interleave (fuel : nat) (s new : bytes) : bytes :=
  match fuel with
  | O => s
  | S fuel' =>
    match s with
    | [] => []
    | _ :: _ =>
      let size := snd (Utf8.DecodeRune s) in
      take size s ++ new ++ interleave fuel' (drop size s) new
    end
  end.

Definition replaceAll (s old new : bytes) : bytes :=
  if bool_decide (old = new) then s
  else
    match old with
    | [] => new ++ interleave (length s) s new
    | _ :: _ => replaceLoop (length s) s old new
    end.

(** [strings.ReplaceAll]. *)
Definition ReplaceAll (s old new : string) : string :=
  of_bytes (replaceAll (to_bytes s) (to_bytes old) (to_bytes new)).

(** [indexFunc s f truth]: the byte offset of the first rune [r] of [s]
    with [f r = truth]; [None] stands for [-1]. [i] is the offset of
    [s] in the whole string. *)
Fixpoint indexFuncFrom (fuel : nat) (f : Z -> bool) (truth : bool)
    (s : bytes) (i : nat) : option nat :=
  match fuel with
  | O => None
  | S fuel' =>
    match s with
    | [] => None
    | _ :: _ =>
      let '(r, size) := Utf8.DecodeRune s in
      if Bool.eqb (f r) truth then Some i
      else indexFuncFrom fuel' f truth (drop size s) (i + size)
    end
  end.

Definition indexFunc (s : bytes) (f : Z -> bool) (truth : bool)
    : option nat :=
  indexFuncFrom (length s) f truth s 0.

(** [lastIndexFunc s f truth]: the byte offset of the last rune [r] of
    [s] with [f r = truth], decoding backwards from the end. *)
Fixpoint lastIndexFuncFrom (fuel : nat) (f : Z -> bool) (truth : bool)
    (s : bytes) : option nat :=
  match fuel with
  | O => None
  | S fuel' =>
    match s with
    | [] => None
    | _ :: _ =>
      let '(r, size) := Utf8.DecodeLastRune s in
      let i := length s - size in
      if Bool.eqb (f r) truth then Some i
      else lastIndexFuncFrom fuel' f truth (take i s)
    end
  end.

Definition lastIndexFunc (s : bytes) (f : Z -> bool) (truth : bool)
    : option nat :=
  lastIndexFuncFrom (length s) f truth s.

(** [strings.TrimLeftFunc]. *)
Definition TrimLeftFunc (s : bytes) (f : Z -> bool) : bytes :=
  match indexFunc s f false with
  | None => []
  | Some i => drop i s
  end.

(** [strings.TrimRightFunc]. *)
Definition TrimRightFunc (s : bytes) (f : Z -> bool) : bytes :=
  match lastIndexFunc s f false with
  | None => []
  | Some i =>
    match s !! i with
    | Some c =>
      if (Utf8.RuneSelf <=? b2z c)%Z
      then take (i + snd (Utf8.DecodeRune (drop i s))) s
      else take (i + 1) s
    | None => take (i + 1) s
    end
  end.

(** [strings.TrimFunc]. *)
Definition TrimFunc (s : bytes) (f : Z -> bool) : bytes :=
  TrimRightFunc (TrimLeftFunc s f) f.

(** [strings.TrimSpace]: leading and trailing white space, as defined by
    Unicode, removed.  (The library's fast path for ASCII bytes computes
    the same string.) *)
Definition TrimSpace (s : string) : string :=
  of_bytes (TrimFunc (to_bytes s) Unicode.IsSpace).

(** [strings.Join]. *)
Fixpoint Join (elems : list string) (sep : string) : string :=
  match elems with
  | [] => ""
  | [e] => e
  | e :: rest => e +:+ sep +:+ Join rest sep
  end.

(** The loop of [strings.Split] for a non-empty separator: [cur] is the
    current piece, reversed. *)
Fixpoint splitLoop (fuel : nat) (s sep cur : bytes) : list bytes :=
  match fuel with
  | O => [rev cur]
  | S fuel' =>
    match s with
    | [] => [rev cur]
    | c :: t =>
      if prefixb sep s
      then rev cur :: splitLoop fuel' (drop (length sep) s) sep []
      else splitLoop fuel' t sep (c :: cur)
    end
  end.

(** The runes of [s], for [strings.Split] with an empty separator. *)
Fixpoint explode (fuel : nat) (s : bytes) : list bytes :=
  match fuel with
  | O => []
  | S fuel' =>
    match s with
    | [] => []
    | _ :: _ =>
      let size := snd (Utf8.DecodeRune s) in
      take size s :: explode fuel' (drop size s)
    end
  end.

(** [strings.Split]. *)
Definition Split (s sep : string) : list string :=
  match to_bytes sep with
  | [] => of_bytes <$> explode (String.length s) (to_bytes s)
  | _ :: _ =>
    of_bytes <$> splitLoop (S (String.length s)) (to_bytes s) (to_bytes sep) []
  end.

End Strings.

(** ** path and path/filepath (Unix) *)

Module Path.

Definition slash : ascii := "/"%char.
Definition dot : ascii := "."%char.

Definition is_slash (c : ascii) : bool := byte_eqb c slash.
Definition is_dot (c : ascii) : bool := byte_eqb c dot.

(** [r == n || path[r] == '/'] for the rest [p] of the path at [r]. *)
Definition at_end_or_slash (p : bytes) : bool :=
  match p with
  | [] => true
  | c :: _ => is_slash c
  end.

(** The inner loop of the [..] case:
    [for out.w > dotdot && out.index(out.w) != '/' { out.w-- }]. *)
Fixpoint backtrack (out : bytes) (dotdot w : nat) : nat :=
  match w with
  | O => O
  | S w' =>
    if (dotdot <? w) &&
       negb (match out !! w with Some c => is_slash c | None => false end)
    then backtrack out dotdot w'
    else w
  end.

(** The loop [for ; r < n && path[r] != '/'; r++] that copies one
    element: the element and what follows it. *)
Fixpoint element (p : bytes) : bytes * bytes :=
  match p with
  | [] => ([], [])
  | c :: t =>
    if is_slash c then ([], p)
    else let '(e, rest) := element t in (c :: e, rest)
  end.

(** The main loop of [path.Clean].  [p] is the unread part of the path
    ([path[r:]]), [out] the bytes written so far (the [lazybuf], whose
    [w] is [length out]), [dotdot] the index in [out] where [..] must
    stop.  Every iteration reads at least one byte. *)
Fixpoint cleanLoop (fuel : nat) (rooted : bool) (p out : bytes)
    (dotdot : nat) : bytes :=
  match fuel with
  | O => out
  | S fuel' =>
    match p with
    | [] => out
    | c :: rest =>
      if is_slash c then
        (* empty path element *)
        cleanLoop fuel' rooted rest out dotdot
      else if is_dot c && at_end_or_slash rest then
        (* . element *)
        cleanLoop fuel' rooted rest out dotdot
      else if is_dot c &&
              match rest with
              | c1 :: rest2 => is_dot c1 && at_end_or_slash rest2
              | [] => false
              end then
        (* .. element: remove to last / *)
        let rest2 := drop 1 rest in
        if dotdot <? length out then
          (* can backtrack *)
          let w := backtrack out dotdot (length out - 1) in
          cleanLoop fuel' rooted rest2 (take w out) dotdot
        else if negb rooted then
          (* cannot backtrack, but not rooted, so append .. element *)
          let out1 := if 0 <? length out then out ++ [slash] else out in
          let out2 := out1 ++ [dot; dot] in
          cleanLoop fuel' rooted rest2 out2 (length out2)
        else
          cleanLoop fuel' rooted rest2 out dotdot
      else
        (* real path element: add slash if needed, copy element *)
        let out1 :=
          if (rooted && negb (length out =? 1)) ||
             (negb rooted && negb (length out =? 0))
          then out ++ [slash] else out in
        let '(e, rest') := element p in
        cleanLoop fuel' rooted rest' (out1 ++ e) dotdot
    end
  end.

Definition clean (p : bytes) : bytes :=
  match p with
  | [] => [dot]
  | c :: rest =>
    let rooted := is_slash c in
    let out :=
      if rooted then cleanLoop (length p) rooted rest [slash] 1
      else cleanLoop (length p) rooted p [] 0 in
    (* Turn empty string into "." *)
    if length out =? 0 then [dot] else out
  end.

(** [path.Clean]. *)
Definition Clean (p : string) : string := of_bytes (clean (to_bytes p)).

End Path.

Module Filepath.

(** [filepath.Join] on Unix: the elements from the first non-empty one
    on are joined with [/] and the result is cleaned; [""] when every
    element is empty. *)
Fixpoint Join (elem : list string) : string :=
  match elem with
  | [] => ""
  | e :: rest =>
    if bool_decide (e = "") then Join rest
    else Path.Clean (Strings.Join elem "/")
  end.

End Filepath.

(** ** strconv *)

Module Strconv.

(** [strconv.ParseBool]. *)
Definition ParseBool (str : string) : result bool :=
  if bool_decide (str ∈ ["1"; "t"; "T"; "TRUE"; "true"; "True"])
  then Ok true
  else if bool_decide (str ∈ ["0"; "f"; "F"; "FALSE"; "false"; "False"])
  then Ok false
  else Err (NumError "ParseBool" str).

(** [strconv.FormatBool]. *)
Definition FormatBool (b : bool) : string :=
  if b then "true" else "false".

End Strconv.

(** ** net/url *)

Module Url.

Definition in_range (lo hi : ascii) (c : ascii) : bool :=
  (b2z lo <=? b2z c)%Z && (b2z c <=? b2z hi)%Z.

(** [shouldEscape c encodeQueryComponent]: only the unreserved
    characters are left as they are. *)
Definition shouldEscape (c : ascii) : bool :=
  negb (in_range "a" "z" c || in_range "A" "Z" c || in_range "0" "9" c ||
        byte_eqb c "-" || byte_eqb c "_" || byte_eqb c "." ||
        byte_eqb c "~").

Definition upperhex (n : Z) : ascii :=
  nth (Z.to_nat n) (to_bytes "0123456789ABCDEF") "0"%char.

Fixpoint escape (s : bytes) : bytes :=
  match s with
  | [] => []
  | c :: t =>
    if byte_eqb c " " then "+"%char :: escape t
    else if shouldEscape c
    then "%"%char :: upperhex (Z.shiftr (b2z c) 4)
           :: upperhex (Z.land (b2z c) 15) :: escape t
    else c :: escape t
  end.

(** [url.QueryEscape]. *)
Definition QueryEscape (s : string) : string :=
  of_bytes (escape (to_bytes s)).

End Url.

(** ** regexp

    The only regular expression of the pipeline is a single character
    class of ASCII characters, used with [MatchString]: the string matches
    when one of its runes is in the class.  An ASCII byte of a Go string is
    always decoded as a rune of its own (the continuation bytes of a
    multi-byte rune are all above 0x7F), so the runes in the class are
    exactly the bytes in the class. *)

Module Regexp.

Definition MatchClass (class : bytes) (s : string) : bool :=
  existsb (fun c => existsb (byte_eqb c) class) (to_bytes s).

End Regexp.

(** ** gabs: dynamic JSON containers

    A [gabs.Container] wraps the value that [encoding/json] decodes into
    [interface{}]: [nil], [bool], [float64], [string], [[]interface{}] or
    [map[string]interface{}].  The numbers of a JSON text are finite, so
    a rational stands for the [float64].  The functions follow release
    1.4.0 of the library, the last one under the import path
    [github.com/Jeffail/gabs]. *)

Module Gabs.

#[warnings="-register-all"] Inductive JSON : Type :=
  | JNull
  | JBool (b : bool)
  | JNumber (x : Q)
  | JString (s : string)
  | JArray (l : list JSON)
  | JObject (m : gmap string JSON).

(** [Search hierarchy...]: [None] is the nil container.  In an array the
    search is continued in every element and the results found are
    collected. *)
Fixpoint Search (hierarchy : list string) : JSON -> option JSON :=
  match hierarchy with
  | [] => fun object => Some object
  | k :: rest =>
    fix descend (object : JSON) : option JSON :=
      match object with
      | JObject m =>
        match m !! k with
        | Some v => Search rest v
        | None => None
        end
      | JArray l =>
        let found :=
          (fix each (l : list JSON) : list JSON :=
             match l with
             | [] => []
             | v :: l' =>
               match descend v with
               | Some r => r :: each l'
               | None => each l'
               end
             end) l in
        match found with
        | [] => None
        | _ :: _ => Some (JArray found)
        end
      | _ => None
      end
  end.

(** [Path path]: [Search] along the dot-separated [path]. *)
Definition Path (path : string) (object : JSON) : option JSON :=
  Search (Strings.Split path ".") object.

(** [Data()] of a possibly nil container. *)
Definition Data (c : option JSON) : JSON := default JNull c.

(** [Exists hierarchy...]: [Search(hierarchy...) != nil]; an entry whose
    value is nil exists. *)
Definition Exists (hierarchy : list string) (object : JSON) : bool :=
  match Search hierarchy object with
  | Some _ => true
  | None => false
  end.

(** The value as a map, a nil value standing for the empty map that
    [Set_] creates in its place. *)
Definition as_map (object : JSON) : option (gmap string JSON) :=
  match object with
  | JNull => Some ∅
  | JObject m => Some m
  | _ => None
  end.

(** [Set(value, path...)] (named [Set_] here): the container after the update, or
    [ErrPathCollision] when an element of the path leads through a value
    that is not a map; the container is unchanged in that case (maps are
    only created below a missing or nil entry, where no collision can
    follow). *)
Fixpoint Set_ (value : JSON) (path : list string) (object : JSON)
    : result JSON :=
  match path with
  | [] => Ok value
  | k :: rest =>
    match as_map object with
    | None => Err ErrPathCollision
    | Some m =>
      match rest with
      | [] => Ok (JObject (<[k := value]> m))
      | _ :: _ =>
        match Set_ value rest (default JNull (m !! k)) with
        | Ok child => Ok (JObject (<[k := child]> m))
        | Err e => Err e
        end
      end
    end
  end.

(** [SetP value path]. *)
Definition SetP (value : JSON) (path : string) (object : JSON)
    : result JSON :=
  Set_ value (Strings.Split path ".") object.

(** [Delete path...]: the container without the entry, or an error
    (which the pipeline ignores) when there is no such entry. *)
Fixpoint Delete (path : list string) (object : JSON) : result JSON :=
  match path with
  | [] => match object with JNull => Err ErrNotObj | _ => Ok object end
  | k :: rest =>
    match object with
    | JObject m =>
      match rest with
      | [] =>
        match m !! k with
        | Some _ => Ok (JObject (delete k m))
        | None => Err ErrNotObj
        end
      | _ :: _ =>
        match Delete rest (default JNull (m !! k)) with
        | Ok child => Ok (JObject (<[k := child]> m))
        | Err e => Err e
        end
      end
    | _ => Err ErrNotObj
    end
  end.

End Gabs.

Export Gabs (JSON(..)).

(** ** State and error passing

    A Go function that works on a mutable object (the gabs container, the
    file system) and returns an [error] is a function from the state to
    the new state and the result. *)

Definition M (St A : Type) : Type := St -> St * result A.

Definition ret {St A} (a : A) : M St A := fun s => (s, Ok a).

Definition fail {St A} (e : error) : M St A := fun s => (s, Err e).

Definition bind {St A B} (m : M St A) (k : A -> M St B) : M St B :=
  fun s =>
    match m s with
    | (s', Ok a) => k a s'
    | (s', Err e) => (s', Err e)
    end.

(** A step that only computes, and may fail. *)
Definition lift {St A} (r : result A) : M St A := fun s => (s, r).

Declare Scope go_scope.
Delimit Scope go_scope with go.
Notation "x <- m ;; k" := (bind m (fun x => k))
  (at level 100, m at next level, right associativity) : go_scope.
Notation "m ;;; k" := (bind m (fun _ => k))
  (at level 100, right associativity) : go_scope.

(** [api.SetP(value, path)] on the container held in the state: on an
    error the container is as it was. *)
Definition SetP (value : JSON) (path : string) : M JSON unit :=
  fun api =>
    match Gabs.SetP value path api with
    | Ok api' => (api', Ok tt)
    | Err e => (api, Err e)
    end.

(** ** specs/params

    Modelled from the spec: the declarations of [params.SecurityData] and
    [params.Environment] are not among the sources.  The override
    parameters of an environment hold an optional endpoint block, an
    optional security block (enabled flag, username, password, auth type),
    an optional list of gateway environments and certificate references.
    [enabled] is a string, so that an absent field ([""]) differs from
    [false]; pointers and slices that may be nil are options. *)

Module Params.

Record SecurityData : Type := {
  Enabled : string;
  Username : string;
  Password : string;
  Type_ : string
}.

Record Cert : Type := {
  HostName : string;
  Alias : string;
  Path : string;
  Certificate : string
}.

Record Environment (EndpointData : Type) : Type := {
  Name : string;
  Endpoints : option EndpointData;
  Security : option SecurityData;
  GatewayEnvironments : option (list string);
  Certs : list Cert
}.
Arguments Name {EndpointData} _.
Arguments Endpoints {EndpointData} _.
Arguments Security {EndpointData} _.
Arguments GatewayEnvironments {EndpointData} _.
Arguments Certs {EndpointData} _.

End Params.

(** ** Security parameters (importAPI.go) *)

Local Open Scope go_scope.

Definition errInvalidSecurityType : error :=
  errors_New "Invalid endpoint security type found in the api_params.yaml. Should be either basic or digest".

Definition errUsernameNotFound : error :=
  errors_New "You have enabled endpoint security but the username is not found in the api_params.yaml".

Definition errPasswordNotFound : error :=
  errors_New "You have enabled endpoint security but the password is not found in the api_params.yaml".

Definition errTypeNotFound : error :=
  errors_New "You have enabled endpoint security but the type is not found in the api_params.yaml".

(** Set the fields in api.yaml according to the type field in
    api_params.yaml. *)
Definition setEndpointSecurityType (envSecurityEndpointParams : Params.SecurityData)
    : M JSON unit :=
  if bool_decide (Params.Type_ envSecurityEndpointParams = "digest") then
    SetP (JBool true) "endpointAuthDigest"
  else if bool_decide (Params.Type_ envSecurityEndpointParams = "basic") then
    SetP (JBool false) "endpointAuthDigest"
  else
    fail errInvalidSecurityType.

(** Set the security endpoint parameters when the enabled field is set to
    true. *)
Definition setSecurityEndpointsParams (envSecurityEndpointParams : Params.SecurityData)
    : M JSON unit :=
  if bool_decide (Params.Username envSecurityEndpointParams = "") then
    fail errUsernameNotFound
  else if bool_decide (Params.Password envSecurityEndpointParams = "") then
    fail errPasswordNotFound
  else if bool_decide (Params.Type_ envSecurityEndpointParams = "") then
    fail errTypeNotFound
  else
    SetP (JString (Params.Username envSecurityEndpointParams)) "endpointUTUsername" ;;;
    SetP (JString (Params.Password envSecurityEndpointParams)) "endpointUTPassword" ;;;
    setEndpointSecurityType envSecurityEndpointParams.

(** Handle security parameters in api_params.yaml. *)
Definition handleSecurityEndpointsParams
    (envSecurityEndpointParams : option Params.SecurityData) : M JSON unit :=
  match envSecurityEndpointParams with
  | Some p =>
    if negb (bool_decide (Params.Enabled p = "")) then
      boolEnabled <- lift (Strconv.ParseBool (Params.Enabled p)) ;;
      SetP (JBool boolEnabled) "endpointSecured" ;;;
      if boolEnabled : bool then
        setSecurityEndpointsParams p
      else
        SetP (JString "") "endpointUTUsername" ;;;
        SetP (JString "") "endpointUTPassword"
    else ret tt
  | None => ret tt
  end.

(** ** specs/v2 and utils

    Modelled from the spec: the declarations of [v2.APIDefinition],
    [v2.APIProductDefinition] and [utils.API] are not among the sources.
    A definition document has an identity (name, version, provider), a
    context and a context-template, tags, URI templates and an
    implementation type; the fields that the pipeline never reads stay in
    [Other].  A slice that may be nil is an option: [None] is the nil slice
    and [Some []] the empty one. *)

Module V2.

Record ID : Type := {
  ProviderName : string;
  APIName : string;
  Version : string
}.

Record APIDefinition : Type := {
  Id : ID;
  Context : string;
  ContextTemplate : string;
  Tags : option (list string);
  URITemplates : option (list JSON);
  Implementation : string;
  Other : gmap string JSON
}.

Definition withContext (c : string) (def : APIDefinition) : APIDefinition :=
  {| Id := Id def; Context := c; ContextTemplate := ContextTemplate def;
     Tags := Tags def; URITemplates := URITemplates def;
     Implementation := Implementation def; Other := Other def |}.

Definition withContextTemplate (t : string) (def : APIDefinition)
    : APIDefinition :=
  {| Id := Id def; Context := Context def; ContextTemplate := t;
     Tags := Tags def; URITemplates := URITemplates def;
     Implementation := Implementation def; Other := Other def |}.

Definition withTags (t : option (list string)) (def : APIDefinition)
    : APIDefinition :=
  {| Id := Id def; Context := Context def;
     ContextTemplate := ContextTemplate def;
     Tags := t; URITemplates := URITemplates def;
     Implementation := Implementation def; Other := Other def |}.

Definition withURITemplates (u : option (list JSON)) (def : APIDefinition)
    : APIDefinition :=
  {| Id := Id def; Context := Context def;
     ContextTemplate := ContextTemplate def;
     Tags := Tags def; URITemplates := u;
     Implementation := Implementation def; Other := Other def |}.

Definition withImplementation (i : string) (def : APIDefinition)
    : APIDefinition :=
  {| Id := Id def; Context := Context def;
     ContextTemplate := ContextTemplate def;
     Tags := Tags def; URITemplates := URITemplates def;
     Implementation := i; Other := Other def |}.

End V2.

Module V2Product.

Record ID : Type := {
  ProviderName : string;
  APIProductName : string;
  Version : string
}.

Record APIProductDefinition : Type := {
  Id : ID;
  Context : string;
  ContextTemplate : string;
  Tags : option (list string);
  Other : gmap string JSON
}.

Definition withContext (c : string) (def : APIProductDefinition)
    : APIProductDefinition :=
  {| Id := Id def; Context := c; ContextTemplate := ContextTemplate def;
     Tags := Tags def; Other := Other def |}.

Definition withContextTemplate (t : string) (def : APIProductDefinition)
    : APIProductDefinition :=
  {| Id := Id def; Context := Context def; ContextTemplate := t;
     Tags := Tags def; Other := Other def |}.

Definition withTags (t : option (list string)) (def : APIProductDefinition)
    : APIProductDefinition :=
  {| Id := Id def; Context := Context def;
     ContextTemplate := ContextTemplate def;
     Tags := t; Other := Other def |}.

End V2Product.

Module Utils.

(** An entry of the remote catalog. *)
Record API : Type := {
  ID : string;
  Name : string;
  Version : string
}.

End Utils.

(** ** Defaults (importAPI.go, importAPIProduct.go) *)

(** [populateApiWithDefaults]: the definition after the assignments, and
    the [dirty] flag. *)
Definition populateApiWithDefaults (def : V2.APIDefinition)
    : V2.APIDefinition * bool :=
  let dirty := false in
  let '(def, dirty) :=
    if bool_decide (V2.ContextTemplate def = "") then
      let def :=
        if negb (Strings.Contains (V2.Context def) "{version}") then
          let def :=
            V2.withContextTemplate
              (Path.Clean (V2.Context def +:+ "/{version}")) def in
          V2.withContext
            (Strings.ReplaceAll (V2.ContextTemplate def) "{version}"
               (V2.Version (V2.Id def))) def
        else
          let def := V2.withContext (Path.Clean (V2.Context def)) def in
          let def := V2.withContextTemplate (V2.Context def) def in
          V2.withContext
            (Strings.ReplaceAll (V2.Context def) "{version}"
               (V2.Version (V2.Id def))) def in
      (def, true)
    else (def, dirty) in
  let '(def, dirty) :=
    match V2.Tags def with
    | None => (V2.withTags (Some []) def, true)
    | Some _ => (def, dirty)
    end in
  let '(def, dirty) :=
    match V2.URITemplates def with
    | None => (V2.withURITemplates (Some []) def, true)
    | Some _ => (def, dirty)
    end in
  let '(def, dirty) :=
    if bool_decide (V2.Implementation def = "") then
      (V2.withImplementation "ENDPOINT" def, true)
    else (def, dirty) in
  (def, dirty).

(** [populateApiProductWithDefaults]. *)
Definition populateApiProductWithDefaults (def : V2Product.APIProductDefinition)
    : V2Product.APIProductDefinition * bool :=
  let dirty := false in
  let '(def, dirty) :=
    if bool_decide (V2Product.ContextTemplate def = "") then
      let def :=
        if negb (Strings.Contains (V2Product.Context def) "{version}") then
          let def :=
            V2Product.withContextTemplate
              (Path.Clean (V2Product.Context def +:+ "/{version}")) def in
          V2Product.withContext
            (Strings.ReplaceAll (V2Product.ContextTemplate def) "{version}"
               (V2Product.Version (V2Product.Id def))) def
        else
          let def :=
            V2Product.withContext (Path.Clean (V2Product.Context def)) def in
          let def := V2Product.withContextTemplate (V2Product.Context def) def in
          V2Product.withContext
            (Strings.ReplaceAll (V2Product.Context def) "{version}"
               (V2Product.Version (V2Product.Id def))) def in
      (def, true)
    else (def, dirty) in
  let '(def, dirty) :=
    match V2Product.Tags def with
    | None => (V2Product.withTags (Some []) def, true)
    | Some _ => (def, dirty)
    end in
  (def, dirty).

(** ** Validation (importAPI.go, importAPIProduct.go) *)

(** The character class of [reApiName] and [reApiProductName]: the
    characters ~ ! @ # ; : % ^ * ( ) + = { } | \ < > ' , & / $ and the
    double quote. *)
Definition reApiNameClass : bytes :=
  to_bytes "~!@#;:%^*()+={}|\<>" ++ [dquote] ++ to_bytes "',&/$".

Definition reApiName (s : string) : bool := Regexp.MatchClass reApiNameClass s.
Definition reApiProductName (s : string) : bool :=
  Regexp.MatchClass reApiNameClass s.

(** [isEmpty] returns true when a given string is empty. *)
Definition isEmpty (s : string) : bool :=
  String.length (Strings.TrimSpace s) =? 0.

Definition illegalCharacters : string :=
  " contains one or more illegal characters (~!@#;:%^*()+={}|\\<>" +:+
  String dquote "',&\/$)".

Definition errApiNameRequired : error := errors_New "apiName is required".
Definition errApiNameIllegal : error :=
  errors_New ("apiName" +:+ illegalCharacters).
Definition errApiProductNameRequired : error :=
  errors_New "apiProductName is required".
Definition errApiProductNameIllegal : error :=
  errors_New ("apiProductName" +:+ illegalCharacters).
Definition errVersionRequired : error := errors_New "version is required".
Definition errContextRequired : error := errors_New "context is required".
Definition errContextTemplateRequired : error :=
  errors_New "contextTemplate is required".
Definition errContextSlash : error :=
  errors_New "context should begin with a /".
Definition errContextTemplateSlash : error :=
  errors_New "contextTemplate should begin with a /".

(** [validateApiDefinition] validates an API against basic rules; [None]
    is the nil error. *)
Definition validateApiDefinition (def : V2.APIDefinition) : option error :=
  if isEmpty (V2.APIName (V2.Id def)) then Some errApiNameRequired
  else if reApiName (V2.APIName (V2.Id def)) then Some errApiNameIllegal
  else if isEmpty (V2.Version (V2.Id def)) then Some errVersionRequired
  else if isEmpty (V2.Context def) then Some errContextRequired
  else if isEmpty (V2.ContextTemplate def) then Some errContextTemplateRequired
  else if negb (Strings.HasPrefix (V2.Context def) "/")
  then Some errContextSlash
  else if negb (Strings.HasPrefix (V2.ContextTemplate def) "/")
  then Some errContextTemplateSlash
  else None.

(** [validateApiProductDefinition] validates an API Product against basic
    rules. *)
Definition validateApiProductDefinition (def : V2Product.APIProductDefinition)
    : option error :=
  if isEmpty (V2Product.APIProductName (V2Product.Id def))
  then Some errApiProductNameRequired
  else if reApiProductName (V2Product.APIProductName (V2Product.Id def))
  then Some errApiProductNameIllegal
  else if isEmpty (V2Product.Version (V2Product.Id def))
  then Some errVersionRequired
  else if isEmpty (V2Product.Context def) then Some errContextRequired
  else if isEmpty (V2Product.ContextTemplate def)
  then Some errContextTemplateRequired
  else if negb (Strings.HasPrefix (V2Product.Context def) "/")
  then Some errContextSlash
  else if negb (Strings.HasPrefix (V2Product.ContextTemplate def) "/")
  then Some errContextTemplateSlash
  else None.

(** ** Collaborators

    The operating system, the YAML and JSON codecs, the helpers of the
    packages [utils] and [params], the remote catalog and the HTTP
    transport are outside the pipeline.  They are the operations of a
    [Platform]; the pipeline is verified for every platform.  Reading
    operations do not change the file system; [WriteFile] may change it
    whether it fails or not.  Messages written by [utils.Logln] (verbose
    logging) are left out. *)

Record FileInfo : Type := {
  IsDir : bool;
  FileName : string
}.

(** The multipart upload handed to the transport: [newFileUploadRequest]
    followed by [http.Client.Do]. *)
Record UploadRequest : Type := {
  uri : string;
  method : string;
  params : gmap string string;
  paramName : string;
  path : string;
  accessToken : string
}.

(** An HTTP response: [Body] is the outcome of reading the body to its
    end. *)
Record Response : Type := {
  StatusCode : Z;
  Status : string;
  Body : result string
}.

Class Platform : Type := {
  FS : Type;
  EndpointData : Type;
  (* os, io/ioutil *)
  Stat : string -> FS -> result FileInfo;
  ReadFile : string -> FS -> result string;
  WriteFile : string -> string -> M FS unit;
  (* utils: codecs and merge *)
  YamlToJson : string -> result string;
  JsonToYaml : string -> result string;
  MergeJSON : string -> string -> result string;
  DefaultApiProductType : string;
  (* gabs: ParseJSON and Container.Bytes *)
  ParseJSON : string -> result JSON;
  Bytes : JSON -> string;
  (* params, encoding/json *)
  ExtractAPIEndpointConfig : string -> result string;
  Marshal : option EndpointData -> result string;
  (* remote catalog: token, environment, escaped query, limit *)
  GetAPIListFromEnv :
    string -> string -> string -> string -> result (Z * list Utils.API);
  GetAPIProductListFromEnv :
    string -> string -> string -> string -> result (Z * list Utils.API);
  (* transport *)
  Transport : UploadRequest -> result Response
}.

Section Pipeline.

Context {P : Platform}.

(** A reading operation as a step on the file system. *)
Definition reading {A} (f : FS -> result A) : M FS A := fun fs => (fs, f fs).

(** [os.Stat(p)] succeeded on something that is not a directory. *)
Definition isFile (p : string) (fs : FS) : bool :=
  match Stat p fs with
  | Ok info => negb (IsDir info)
  | Err _ => false
  end.

(** [resolveYamlOrJson] for a given filepath: first it will look for the
    yaml file, if not will fallback for json.  The result is the resolved
    file name and the content of the file as JSON. *)
Definition resolveYamlOrJson (filename : string) : M FS (string * string) :=
  fun fs =>
    let yamlFp := filename +:+ ".yaml" in
    if isFile yamlFp fs then
      (let fn := yamlFp in
       yamlContent <- reading (ReadFile fn) ;;
       jsonContent <- lift (YamlToJson yamlContent) ;;
       ret (fn, jsonContent)) fs
    else
      let jsonFp := filename +:+ ".json" in
      if isFile jsonFp fs then
        (let fn := jsonFp in
         jsonContent <- reading (ReadFile fn) ;;
         ret (fn, jsonContent)) fs
      else
        fail (errors_New (filename +:+ " was not found as a YAML or JSON")) fs.

(** A call to a function on the container [api] that a failure makes the
    caller return: the container goes on only after a success. *)
Definition on {St} (api : JSON) (m : M JSON unit) : M St JSON :=
  fun s =>
    match m api with
    | (api', Ok _) => (s, Ok api')
    | (_, Err e) => (s, Err e)
    end.

(** [mergeAPI] merges environmentParams to the API given in apiDirectory. *)
Definition mergeAPI (apiDirectory : string)
    (environmentParams : Params.Environment EndpointData) : M FS unit :=
  (* read api from Meta-information *)
  let apiPath := Filepath.Join [apiDirectory; "Meta-information"; "api"] in
  r <- resolveYamlOrJson apiPath ;;
  let jsonContent := snd r in
  api <- lift (ParseJSON jsonContent) ;;
  (* extract environmentParams from file *)
  apiEndpointData <- lift (ExtractAPIEndpointConfig (Bytes api)) ;;
  configData <- lift (Marshal (Params.Endpoints environmentParams)) ;;
  mergedAPIEndpoints <- lift (MergeJSON apiEndpointData configData) ;;
  (* replace original endpointConfig with merged version *)
  api <- on api (SetP (JString mergedAPIEndpoints) "endpointConfig") ;;
  (* replace original GatewayEnvironments only if they are present *)
  api <- match Params.GatewayEnvironments environmentParams with
         | Some envs => on api (SetP (JArray (JString <$> envs)) "environments")
         | None => ret api
         end ;;
  (* Handle security parameters in api_params.yaml *)
  api <- on api
           (handleSecurityEndpointsParams (Params.Security environmentParams)) ;;
  let apiPath := Filepath.Join [apiDirectory; "Meta-information"; "api.yaml"] in
  (* write this to disk *)
  content <- lift (JsonToYaml (Bytes api)) ;;
  WriteFile apiPath content.

(** The container parsed from the literal [{"endpoint_type":"http"}] in
    [preProcessAPI]. *)
Definition endpointTypeHttp : JSON :=
  JObject {[ "endpoint_type" := JString "http" ]}.

(** [api.Delete(key)] with its error dropped. *)
Definition deleteIgnoringError (key : string) (api : JSON) : JSON :=
  match Gabs.Delete [key] api with
  | Ok api' => api'
  | Err _ => api
  end.

(** [preProcessAPI]: a definition without [endpointConfig] gets one built
    from the legacy [productionUrl] and [sandboxUrl], and is written
    back. *)
Definition preProcessAPI (apiDirectory : string) : M FS unit :=
  let dirty := false in
  r <- resolveYamlOrJson
         (Filepath.Join [apiDirectory; "Meta-information"; "api"]) ;;
  let jsonData := snd r in
  api <- lift (ParseJSON jsonData) ;;
  (* preprocess endpoint config *)
  r <- (if negb (Gabs.Exists ["endpointConfig"] api) then
          let dirty := true in
          let conf := endpointTypeHttp in
          r <- (if Gabs.Exists ["productionUrl"] api then
                  conf <- on conf
                    (SetP (Gabs.Data (Gabs.Path "productionUrl" api))
                       "production_endpoints.url") ;;
                  conf <- on conf
                    (SetP (JString "null") "production_endpoints.config") ;;
                  ret (conf, deleteIgnoringError "productionUrl" api)
                else ret (conf, api)) ;;
          let '(conf, api) := r in
          r <- (if Gabs.Exists ["sandboxUrl"] api then
                  conf <- on conf
                    (SetP (Gabs.Data (Gabs.Path "sandboxUrl" api))
                       "sandbox_endpoints.url") ;;
                  conf <- on conf
                    (SetP (JString "null") "sandbox_endpoints.config") ;;
                  ret (conf, deleteIgnoringError "sandboxUrl" api)
                else ret (conf, api)) ;;
          let '(conf, api) := r in
          api <- on api (SetP (JString (Bytes conf)) "endpointConfig") ;;
          ret (api, dirty)
        else ret (api, dirty)) ;;
  let '(api, dirty) := r in
  if dirty : bool then
    let yamlApiPath :=
      Filepath.Join [apiDirectory; "Meta-information"; "api.yaml"] in
    content <- lift (JsonToYaml (Bytes api)) ;;
    (* write this to disk *)
    WriteFile yamlApiPath content
  else ret tt.

(** ** Upload and dispatch *)

Definition StatusOK : Z := 200.
Definition StatusCreated : Z := 201.
Definition StatusUnauthorized : Z := 401.

Definition newline : string := String (ascii_of_nat 10) "".

(** [fmt.Println]: the text and a newline. *)
Definition Println (s : string) : string := s +:+ newline.

(** [importAPI] imports an API to the API manager: what is printed on the
    standard output, and the error returned ([None] is nil). *)
Definition importWith (what : string)
    (endpoint httpMethod filePath accessToken : string)
    (extraParams : gmap string string) : list string * option error :=
  match Transport {| uri := endpoint; method := httpMethod;
                     params := extraParams; paramName := "file";
                     path := filePath; accessToken := accessToken |} with
  | Err err => ([], Some err)
  | Ok resp =>
    if (StatusCode resp =? StatusCreated)%Z || (StatusCode resp =? StatusOK)%Z
    then
      (* 201 Created or 200 OK *)
      ([Println ("Successfully imported " +:+ what)], None)
    else
      (* We have an HTTP error *)
      let out := [Println ("Error importing " +:+ what +:+ ".");
                  Println ("Status: " +:+ Status resp)] in
      match Body resp with
      | Err err => (out, Some err)
      | Ok strBody =>
        (out ++ [Println ("Response: " +:+ strBody)],
         Some (errors_New (Status resp)))
      end
  end.

Definition importAPI := importWith "API".

(** [importAPIProduct] imports an API Product to the API manager. *)
Definition importAPIProduct := importWith "API Product".

(** [getApiID] returns id of the API by using name and version. *)
Definition getApiID (accessOAuthToken environment name version : string)
    : result string :=
  let apiQuery := "name:" +:+ name +:+ " version:" +:+ version in
  match GetAPIListFromEnv accessOAuthToken environment
          (Url.QueryEscape apiQuery) "" with
  | Err err => Err err
  | Ok (count, apis) =>
    if (count =? 0)%Z then Ok ""
    else
      match apis with
      | a :: _ => Ok (Utils.ID a)
      | [] => Err (RuntimePanic "index out of range")
      end
  end.

(** [getApiProductID] returns id of the API Product by using name and
    version. *)
Definition getApiProductID (name version environment accessOAuthToken : string)
    : result string :=
  let apiProductQuery := "name:" +:+ name +:+ " version:" +:+ version in
  let apiProductQuery :=
    apiProductQuery +:+ " type:" +:+ String dquote DefaultApiProductType
      +:+ String dquote "" in
  match GetAPIProductListFromEnv accessOAuthToken environment
          (Url.QueryEscape apiProductQuery) "" with
  | Err err => Err err
  | Ok (count, apiProducts) =>
    if (count =? 0)%Z then Ok ""
    else
      match apiProducts with
      | a :: _ => Ok (Utils.ID a)
      | [] => Err (RuntimePanic "index out of range")
      end
  end.

(** The end of [ImportAPI], once the artifact is validated and packaged:
    the existence check, the import URL and the upload. *)
Definition ImportAPI_dispatch
    (accessOAuthToken adminEndpoint importEnvironment : string)
    (apiInfo : V2.APIDefinition) (apiFilePath : string)
    (importAPIUpdate preserveProvider : bool) : list string * option error :=
  let updateAPI := false in
  match
    (if importAPIUpdate then
       (* check for API existence *)
       match getApiID accessOAuthToken importEnvironment
               (V2.APIName (V2.Id apiInfo)) (V2.Version (V2.Id apiInfo)) with
       | Err err => Err err
       | Ok id => if bool_decide (id = "") then Ok updateAPI else Ok true
       end
     else Ok updateAPI)
  with
  | Err err => ([], Some err)
  | Ok updateAPI =>
    let extraParams : gmap string string := ∅ in
    let httpMethod := "POST" in
    let adminEndpoint := adminEndpoint +:+ "/import/api" in
    let adminEndpoint :=
      if updateAPI : bool then
        adminEndpoint +:+ "?overwrite=" +:+ Strconv.FormatBool true +:+
          "&preserveProvider=" +:+ Strconv.FormatBool preserveProvider
      else
        adminEndpoint +:+ "?preserveProvider=" +:+
          Strconv.FormatBool preserveProvider in
    importAPI adminEndpoint httpMethod apiFilePath accessOAuthToken extraParams
  end.

(** The end of [ImportAPIProduct]. *)
Definition ImportAPIProduct_dispatch
    (accessOAuthToken adminEndpoint importEnvironment : string)
    (apiProductInfo : V2Product.APIProductDefinition)
    (apiProductFilePath : string)
    (importAPIs importAPIsUpdate importAPIProductUpdate
     importAPIProductPreserveProvider : bool) : list string * option error :=
  let updateAPIProduct := false in
  match
    (if importAPIsUpdate || importAPIProductUpdate then
       (* Check for API Product existence *)
       match getApiProductID
               (V2Product.APIProductName (V2Product.Id apiProductInfo))
               (V2Product.Version (V2Product.Id apiProductInfo))
               importEnvironment accessOAuthToken with
       | Err err => Err err
       | Ok id => if bool_decide (id = "") then Ok false else Ok true
       end
     else Ok updateAPIProduct)
  with
  | Err err => ([], Some err)
  | Ok updateAPIProduct =>
    let extraParams : gmap string string := ∅ in
    let httpMethod := "POST" in
    let adminEndpoint :=
      adminEndpoint +:+ "/import/api-product" +:+ "?preserveProvider=" +:+
        Strconv.FormatBool importAPIProductPreserveProvider in
    let adminEndpoint :=
      if importAPIs || importAPIsUpdate
      then adminEndpoint +:+ "&importAPIs=" +:+ Strconv.FormatBool true
      else adminEndpoint in
    let adminEndpoint :=
      if importAPIsUpdate
      then adminEndpoint +:+ "&overwriteAPIs=" +:+ Strconv.FormatBool true
      else adminEndpoint in
    let adminEndpoint :=
      if updateAPIProduct : bool
      then adminEndpoint +:+ "&overwriteAPIProduct=" +:+ Strconv.FormatBool true
      else adminEndpoint in
    importAPIProduct adminEndpoint httpMethod apiProductFilePath
      accessOAuthToken extraParams
  end.

End Pipeline.

(** ** The application import command (cmd) *)



(** ** Vocabulary of the properties *)

(** A key without a dot is a path of one element. *)
Definition plain_key (key : string) : Prop := Strings.Split key "." = [key].

(** The three security fields of a definition. *)
Definition securityFields (api : JSON)
    : option JSON * option JSON * option JSON :=
  (Gabs.Search ["endpointSecured"] api,
   Gabs.Search ["endpointUTUsername"] api,
   Gabs.Search ["endpointUTPassword"] api).

(** The definition after a security override that disables security. *)
Definition securityDisabled (m : gmap string JSON) : JSON :=
  JObject (<["endpointUTPassword" := JString ""]>
            (<["endpointUTUsername" := JString ""]>
              (<["endpointSecured" := JBool false]> m))).

(** The definition after a complete security override. *)
Definition securityEnabled (p : Params.SecurityData) (digest : bool)
    (m : gmap string JSON) : JSON :=
  JObject (<["endpointAuthDigest" := JBool digest]>
            (<["endpointUTPassword" := JString (Params.Password p)]>
              (<["endpointUTUsername" := JString (Params.Username p)]>
                (<["endpointSecured" := JBool true]> m)))).

(** The first field that is missing decides the error. *)
Definition incompleteSecurityConfig (p : Params.SecurityData) : option error :=
  if bool_decide (Params.Username p = "") then Some errUsernameNotFound
  else if bool_decide (Params.Password p = "") then Some errPasswordNotFound
  else if bool_decide (Params.Type_ p = "") then Some errTypeNotFound
  else None.

(** An ASCII byte that is not a space. *)
Definition plain (c : ascii) : bool :=
  (b2z c <? Utf8.RuneSelf)%Z && negb (Unicode.IsSpace (b2z c)).

(** A byte above the ASCII range. *)
Definition high (c : ascii) : Prop := (Utf8.RuneSelf <= b2z c)%Z.

(** The context-template that the defaults stage computes for a context. *)
Definition defaultTemplate (context : string) : string :=
  if Strings.Contains context "{version}" then Path.Clean context
  else Path.Clean (context +:+ "/{version}").

(** The seven rules of the validator as the specification lists them:
    each rule with the failure that it reports when it is violated. *)
Definition apiRules (def : V2.APIDefinition) : list (bool * error) :=
  [ (isEmpty (V2.APIName (V2.Id def)), errApiNameRequired);
    (reApiName (V2.APIName (V2.Id def)), errApiNameIllegal);
    (isEmpty (V2.Version (V2.Id def)), errVersionRequired);
    (isEmpty (V2.Context def), errContextRequired);
    (isEmpty (V2.ContextTemplate def), errContextTemplateRequired);
    (negb (Strings.HasPrefix (V2.Context def) "/"), errContextSlash);
    (negb (Strings.HasPrefix (V2.ContextTemplate def) "/"),
     errContextTemplateSlash) ].

Definition apiProductRules (def : V2Product.APIProductDefinition)
    : list (bool * error) :=
  [ (isEmpty (V2Product.APIProductName (V2Product.Id def)),
     errApiProductNameRequired);
    (reApiProductName (V2Product.APIProductName (V2Product.Id def)),
     errApiProductNameIllegal);
    (isEmpty (V2Product.Version (V2Product.Id def)), errVersionRequired);
    (isEmpty (V2Product.Context def), errContextRequired);
    (isEmpty (V2Product.ContextTemplate def), errContextTemplateRequired);
    (negb (Strings.HasPrefix (V2Product.Context def) "/"), errContextSlash);
    (negb (Strings.HasPrefix (V2Product.ContextTemplate def) "/"),
     errContextTemplateSlash) ].

(** The failure of the first violated rule, if any. *)
Fixpoint firstFailure (rules : list (bool * error)) : option error :=
  match rules with
  | [] => None
  | (violated, failure) :: rest =>
    if violated : bool then Some failure else firstFailure rest
  end.

(** A step that leaves the state as it is. *)
Definition readonly {St A} (m : M St A) : Prop := forall s, fst (m s) = s.

(** The endpoint configuration that the specification describes for a
    definition with the legacy fields: the endpoint type [http] and, for
    each legacy URL that is present, a block with that URL and the
    configuration [null]. *)
Definition endpointBlock (url : JSON) : JSON :=
  JObject {[ "url" := url; "config" := JString "null" ]}.

Definition legacyEndpointConfig (production sandbox : option JSON) : JSON :=
  let m : gmap string JSON := {[ "endpoint_type" := JString "http" ]} in
  let m := match production with
           | Some url => <["production_endpoints" := endpointBlock url]> m
           | None => m
           end in
  let m := match sandbox with
           | Some url => <["sandbox_endpoints" := endpointBlock url]> m
           | None => m
           end in
  JObject m.

(** The value of a legacy URL field, when the field exists. *)
Definition legacyUrl (field : string) (api : JSON) : option JSON :=
  if Gabs.Exists [field] api then Some (Gabs.Data (Gabs.Path field api))
  else None.

(** The definition once a legacy URL field has been read. *)
Definition withoutLegacyUrl (field : string) (api : JSON) : JSON :=
  if Gabs.Exists [field] api then deleteIgnoringError field api else api.

(** The import URLs of an API: create and update. *)
Definition createURL (adminEndpoint : string) (preserveProvider : bool)
    : string :=
  adminEndpoint +:+ "/import/api?preserveProvider=" +:+
    Strconv.FormatBool preserveProvider.

Definition updateURL (adminEndpoint : string) (preserveProvider : bool)
    : string :=
  adminEndpoint +:+ "/import/api?overwrite=true&preserveProvider=" +:+
    Strconv.FormatBool preserveProvider.

(** The import URL of an API product. *)
Definition productURL (adminEndpoint : string)
    (preserveProvider importAPIs overwriteAPIs overwriteAPIProduct : bool)
    : string :=
  adminEndpoint +:+ "/import/api-product?preserveProvider=" +:+
    Strconv.FormatBool preserveProvider +:+
    (if importAPIs then "&importAPIs=true" else "") +:+
    (if overwriteAPIs then "&overwriteAPIs=true" else "") +:+
    (if overwriteAPIProduct then "&overwriteAPIProduct=true" else "").

(** The keys that the security step writes. *)
Definition securityKey (k : string) : Prop :=
  k = "endpointSecured" \/ k = "endpointUTUsername" \/
  k = "endpointUTPassword" \/ k = "endpointAuthDigest".

(** The catalog filters. *)
Definition apiQuery (name version : string) : string :=
  Url.QueryEscape ("name:" +:+ name +:+ " version:" +:+ version).

Definition apiProductQuery `{Platform} (name version : string) : string :=
  Url.QueryEscape ("name:" +:+ name +:+ " version:" +:+ version +:+
                   " type:" +:+ String dquote DefaultApiProductType +:+
                   String dquote "").

(** ** Sample data *)

(** A small platform: the file system is a map from paths to contents (no
    directories), the codecs know two documents, the catalog answers every
    query with the same entries and the transport is given. *)
Definition sampleParse (s : string) : result JSON :=
  if bool_decide (s = "{}") then Ok (JObject ∅)
  else if bool_decide (s = "legacy") then
    Ok (JObject {[ "productionUrl" := JString "http://prod" ]})
  else Err (ErrExternal "unexpected end of JSON input").

Definition sampleBytes (j : JSON) : string :=
  match j with
  | JObject _ => "{...}"
  | _ => "null"
  end.

Definition samplePlatform (catalog : list Utils.API)
    (transport : UploadRequest -> result Response) : Platform :=
  {| FS := gmap string string;
     EndpointData := string;
     Stat p fs :=
       match fs !! p with
       | Some _ => Ok {| IsDir := false; FileName := p |}
       | None => Err (ErrExternal "no such file or directory")
       end;
     ReadFile p fs :=
       match fs !! p with
       | Some c => Ok c
       | None => Err (ErrExternal "no such file or directory")
       end;
     WriteFile p c := fun fs => (<[p := c]> fs, Ok tt);
     YamlToJson s := Ok s;
     JsonToYaml s := Ok s;
     MergeJSON a b := Ok b;
     DefaultApiProductType := "APIProduct";
     ParseJSON := sampleParse;
     Bytes := sampleBytes;
     ExtractAPIEndpointConfig s := Ok "{}";
     Marshal e := Ok (default "null" e);
     GetAPIListFromEnv _ _ _ _ := Ok (Z.of_nat (length catalog), catalog);
     GetAPIProductListFromEnv _ _ _ _ :=
       Ok (Z.of_nat (length catalog), catalog);
     Transport := transport |}.

(** A transport that answers with a given status and reports the URL it
    was given in the body. *)
Definition answering (code : Z) (status : string) (req : UploadRequest)
    : result Response :=
  Ok {| StatusCode := code; Status := status; Body := Ok (uri req) |}.

(** A transport that refuses every upload and reports the URL it was
    given. *)
Definition refusing (req : UploadRequest) : result Response :=
  Err (ErrExternal (uri req)).

(** An API product with its defaults filled in. *)
Definition pizzaProduct : V2Product.APIProductDefinition :=
  {| V2Product.Id :=
       {| V2Product.ProviderName := "admin";
          V2Product.APIProductName := "PizzaShackProduct";
          V2Product.Version := "1.0.0" |};
     V2Product.Context := "/pizzaproduct";
     V2Product.ContextTemplate := "/pizzaproduct";
     V2Product.Tags := Some []; V2Product.Other := ∅ |}.

(** A catalog entry for the sample API. *)
Definition pizzaEntry : Utils.API :=
  {| Utils.ID := "7a2298c4"; Utils.Name := "PizzaShackAPI";
     Utils.Version := "1.0.0" |}.


(** A workspace with one definition file. *)
Definition workspace (content : string) : gmap string string :=
  {[ "/tmp/apim/PizzaShackAPI/Meta-information/api.yaml" := content ]}.

(** The definition of scenario A, with a given context. *)
Definition pizza (context : string) : V2.APIDefinition :=
  {| V2.Id := {| V2.ProviderName := "admin"; V2.APIName := "PizzaShackAPI";
                 V2.Version := "1.0.0" |};
     V2.Context := context; V2.ContextTemplate := "";
     V2.Tags := None; V2.URITemplates := None;
     V2.Implementation := ""; V2.Other := ∅ |}.


(** ** Vocabulary of the further properties *)

(** A byte of the ASCII range. *)
Definition ascii_byte (c : ascii) : bool := (b2z c <? Utf8.RuneSelf)%Z.

(** A byte that is a white space character by itself. *)
Definition space_byte (c : ascii) : bool := Unicode.IsSpace (b2z c).

(** The placeholder of the version in a context-template. *)
Definition versionPlaceholder : string := "{version}".

(** Every field of a definition that the defaults stage fills is set. *)
Definition defaultsSet (def : V2.APIDefinition) : bool :=
  negb (bool_decide (V2.ContextTemplate def = "")) &&
  bool_decide (is_Some (V2.Tags def)) &&
  bool_decide (is_Some (V2.URITemplates def)) &&
  negb (bool_decide (V2.Implementation def = "")).

Definition productDefaultsSet (def : V2Product.APIProductDefinition) : bool :=
  negb (bool_decide (V2Product.ContextTemplate def = "")) &&
  bool_decide (is_Some (V2Product.Tags def)).

(** The rules of the validator on the name and the version. *)
Definition identityRules (def : V2.APIDefinition) : list (bool * error) :=
  take 3 (apiRules def).

Definition productIdentityRules (def : V2Product.APIProductDefinition)
    : list (bool * error) :=
  take 3 (apiProductRules def).

(** The characters that [url.QueryEscape] lets through or produces. *)
Definition urlSafe (c : ascii) : bool :=
  negb (Url.shouldEscape c) || byte_eqb c "%" || byte_eqb c "+".

(** The override is one that [handleSecurityEndpointsParams] accepts. *)
Definition acceptedSecurity (sec : option Params.SecurityData) : bool :=
  match sec with
  | None => true
  | Some p =>
    bool_decide (Params.Enabled p = "") ||
    match Strconv.ParseBool (Params.Enabled p) with
    | Ok false => true
    | Ok true =>
      bool_decide (incompleteSecurityConfig p = None) &&
      (bool_decide (Params.Type_ p = "digest") ||
       bool_decide (Params.Type_ p = "basic"))
    | Err _ => false
    end
  end.

(** The first byte of the output, when there is one, is not a slash. *)
Definition relative (out : bytes) : Prop :=
  match out with
  | [] => True
  | c :: _ => Path.is_slash c = false
  end.

(** The path starts with a slash. *)
Definition rooted_bytes (l : bytes) : bool :=
  match l with
  | c :: _ => Path.is_slash c
  | [] => false
  end.

(** The path read so far is empty or ends with a slash. *)
Definition ends_slash (q : bytes) : Prop :=
  q = [] \/ exists q0, q = q0 ++ [Path.slash].

(** ** path/filepath and strings, continued *)

(** [strings.TrimPrefix]. *)
Definition TrimPrefix (s prefix : string) : string :=
  if Strings.HasPrefix s prefix
  then of_bytes (drop (length (to_bytes prefix)) (to_bytes s))
  else s.

(** [filepath.IsAbs] on Unix. *)
Definition IsAbs (path : string) : bool := Strings.HasPrefix path "/".

(** The loop [for i >= 0 && !os.IsPathSeparator(path[i]) { i-- }] that
    looks for the last separator before the index [n]: the result is
    [i+1], the length of the path up to that separator and with it. *)
Fixpoint lastSeparator (path : bytes) (n : nat) : nat :=
  match n with
  | O => O
  | S i =>
    match path !! i with
    | Some c => if Path.is_slash c then n else lastSeparator path i
    | None => n
    end
  end.

(** [filepath.Dir] on Unix, where there is no volume name. *)
Definition Dir (path : string) : string :=
  let p := to_bytes path in
  let i := lastSeparator p (length p) in
  Path.Clean (of_bytes (take i p)).

(** The loop of [filepath.Base] that strips the trailing slashes of a
    path of length [n]. *)
Fixpoint stripSlashes (path : bytes) (n : nat) : bytes :=
  match n with
  | O => []
  | S i =>
    match path !! i with
    | Some c => if Path.is_slash c then stripSlashes path i else take n path
    | None => take n path
    end
  end.

(** [filepath.Base] on Unix. *)
Definition Base (path : string) : string :=
  if bool_decide (path = "") then "."
  else
    (* Strip trailing slashes. *)
    let p := stripSlashes (to_bytes path) (String.length path) in
    (* Find the last element *)
    let p := drop (lastSeparator p (length p)) p in
    (* If empty now, it had only slashes. *)
    match p with
    | [] => "/"
    | _ :: _ => of_bytes p
    end.

(** ** Further collaborators

    The functions that locate the artifact, create the workspace and
    inject the parameters use more of the operating system and of the
    packages [utils], [params], [homedir], [pem] and [credentials].
    [TempDir] returns the empty name with its error, [TempFile] gives the
    name of the file that it creates; [Decode] gives the bytes of the
    first PEM block, or [None] for the nil block of a text without one;
    [IsRegular] is the test of the mode of a file that [Stat] has
    found. *)

Class Host (P : Platform) : Type := {
  (* os *)
  IsNotExist : error -> bool;
  IsRegular : FileInfo -> bool;
  Getwd : FS -> result string;
  Remove : string -> M FS unit;
  RemoveAll : string -> M FS unit;
  (* io/ioutil *)
  ReadDir : string -> FS -> result (list FileInfo);
  TempDir : string -> string -> M FS string;
  TempFile : string -> string -> M FS string;
  (* utils *)
  ParamFileAPI : string;
  ExportDirectory : string;
  ExportedApisDirName : string;
  EnvReplaceFilePaths : list string;
  EnvSubstituteInFolder : string -> M FS unit;
  EnvSubstituteInFile : string -> M FS unit;
  IsFileExist : string -> FS -> bool;
  Unzip : string -> string -> M FS (list string);
  Zip : string -> string -> M FS unit;
  CopyDir : string -> string -> M FS unit;
  (* params *)
  ApiParams : Type;
  LoadApiParamsFromFile : string -> FS -> result ApiParams;
  GetEnv : ApiParams -> string -> option (Params.Environment EndpointData);
  (* homedir *)
  Expand : string -> result string;
  (* encoding/pem, credentials, encoding/json *)
  Decode : string -> option string;
  Base64Encode : string -> string;
  MarshalCerts : list Params.Cert -> result string;
  MarshalDefinition : V2.APIDefinition -> result string;
  UnmarshalDefinition : string -> result V2.APIDefinition
}.

(** ** Artifact, workspace and parameters (importAPI.go) *)

Section Workspace.

Context {P : Platform} {H : Host P}.

(** [_, err := os.Stat(p); os.IsNotExist(err)]: the error, when [p] is
    reported as missing. *)
Definition notExist (p : string) (fs : FS) : option error :=
  match Stat p fs with
  | Err err => if IsNotExist err then Some err else None
  | Ok _ => None
  end.

(** [filepath.Abs] on Unix. *)
Definition Abs (path : string) (fs : FS) : result string :=
  if IsAbs path then Ok (Path.Clean path)
  else
    match Getwd fs with
    | Err err => Err err
    | Ok wd => Ok (Filepath.Join [wd; path])
    end.

(** [resolveImportFilePath] resolves the archive/directory for import.
    First will resolve in given path, if not found will try to load from
    exported directory. *)
Definition resolveImportFilePath (file defaultExportDirectory : string)
    (fs : FS) : result string :=
  (* check current path *)
  match
    (match notExist file fs with
     | Some _ =>
       (* if the file not in given path it might be inside exported
          directory *)
       let file := Filepath.Join [defaultExportDirectory; file] in
       match notExist file fs with
       | Some err => Err err
       | None => Ok file
       end
     | None => Ok file
     end)
  with
  | Err err => Err err
  | Ok file => Abs file fs
  end.

(** [extractArchive] extracts the API and gives the path: in an archive
    there is a directory in the root which contains the API, and the
    function returns it appended to the destination path. *)
Definition extractArchive (src dest : string) : M FS string :=
  files <- Unzip src dest ;;
  match files with
  | [] => fail (errors_New "invalid API archive")
  | first :: _ =>
    let r := TrimPrefix first src in
    match Strings.Split (Path.Clean r) "/" with
    | root :: _ => ret (Filepath.Join [dest; root])
    | [] => fail (RuntimePanic "index out of range")
    end
  end.

(** [resolveAPIParamsPath] resolves the api_params.yaml path.  First it
    will look at the import path (the last directory), then at its base
    path, then at the current working directory.  If a path is provided
    the search ends looking up at that path. *)
Definition resolveAPIParamsPath (importPath paramPath : string) (fs : FS)
    : result string :=
  if bool_decide (paramPath = ParamFileAPI) then
    (* look in importpath *)
    match
      (match Stat importPath fs with
       | Ok stat =>
         if IsDir stat then
           let loc := Filepath.Join [importPath; ParamFileAPI] in
           if isFile loc fs then Some loc else None
         else None
       | Err _ => None
       end)
    with
    | Some loc => Ok loc
    | None =>
      (* look in the basepath of importPath *)
      let base := Dir importPath in
      let fp := Filepath.Join [base; ParamFileAPI] in
      if isFile fp fs then Ok fp
      else
        (* look in the current working directory *)
        match Getwd fs with
        | Err err => Err err
        | Ok wd =>
          let fp := Filepath.Join [wd; ParamFileAPI] in
          if isFile fp fs then Ok fp
          else
            (* no luck, it means paramPath is missing *)
            Err (errors_New
                   ("could not find " +:+ ParamFileAPI +:+ ". Please check "
                    +:+ ParamFileAPI +:+
                    " exists in basepath of import location or current working directory"))
        end
    end
  else if isFile paramPath fs then Ok paramPath
  else Err (errors_New ("could not find " +:+ paramPath)).

(** [getTempApiDirectory]: the artifact is copied or extracted into a
    fresh temporary directory. *)
Definition getTempApiDirectory (file : string) : M FS string :=
  fun fs =>
    (* create a temp directory *)
    match TempDir "" "apim" fs with
    | (fs, Err err) =>
      let tmpDir := "" in
      let '(fs, _) := RemoveAll tmpDir fs in
      (fs, Err err)
    | (fs, Ok tmpDir) =>
      match Stat file fs with
      | Err err => (fs, Err err)
      | Ok info =>
        let fileIsDir := IsDir info in
        if fileIsDir then
          (* copy dir to a temp location *)
          let dest := Filepath.Join [tmpDir; Base file] in
          (CopyDir file dest ;;; ret dest) fs
        else
          (* try to extract archive *)
          extractArchive file tmpDir fs
      end
    end.

(** [resolveCertPath]: the certificate in the project directory, or else
    the path itself with the home directory expanded.  The name in the
    last error is the expanded path. *)
Definition resolveCertPath (importPath p : string) (fs : FS) : result string :=
  (* look in importPath *)
  let certfile := Filepath.Join [importPath; p] in
  if isFile certfile fs then
    (* found file return it *)
    Ok certfile
  else
    (* try for an absolute path *)
    match Expand (Path.Clean p) with
    | Err err => Err err
    | Ok p =>
      if negb (bool_decide (p = "")) then Ok p
      else Err (errors_New (p +:+ " not found"))
    end.

Definition withCertificate (enc : string) (cert : Params.Cert) : Params.Cert :=
  {| Params.HostName := Params.HostName cert; Params.Alias := Params.Alias cert;
     Params.Path := Params.Path cert; Params.Certificate := enc |}.

(** The loop of [generateCertificates] over the certificates that are
    left, [certs] being the ones encoded so far.  The block of a file
    without PEM data is nil, and its bytes are not there to read. *)
Fixpoint encodeCertificates (importPath : string) (rest certs : list Params.Cert)
    (fs : FS) : result (list Params.Cert) :=
  match rest with
  | [] => Ok certs
  | cert :: rest =>
    (* read cert *)
    match resolveCertPath importPath (Params.Path cert) fs with
    | Err err => Err err
    | Ok p =>
      match ReadFile p fs with
      | Err err => Err err
      | Ok pubPEMData =>
        (* get cert *)
        match Decode pubPEMData with
        | None =>
          Err (RuntimePanic "invalid memory address or nil pointer dereference")
        | Some block =>
          let enc := Base64Encode block in
          let cert := withCertificate enc cert in
          encodeCertificates importPath rest (certs ++ [cert]) fs
        end
      end
    end
  end.

(** A certificate of the parameters and the entry that is written for
    it. *)
Definition encoded (importPath : string) (fs : FS) (cert cert' : Params.Cert)
    : Prop :=
  exists p pubPEMData block,
    resolveCertPath importPath (Params.Path cert) fs = Ok p /\
    ReadFile p fs = Ok pubPEMData /\
    Decode pubPEMData = Some block /\
    cert' = withCertificate (Base64Encode block) cert.

(** [generateCertificates] for the API. *)
Definition generateCertificates (importPath : string)
    (environment : Params.Environment EndpointData) : M FS unit :=
  if length (Params.Certs environment) =? 0 then ret tt
  else
    certs <- reading (encodeCertificates importPath (Params.Certs environment) []) ;;
    data <- lift (MarshalCerts certs) ;;
    yamlContent <- lift (JsonToYaml data) ;;
    (* filepath to save certs *)
    let fp := Filepath.Join [importPath; "Meta-information";
                             "endpoint_certificates.yaml"] in
    WriteFile fp yamlContent.

(** [injectParamsToAPI] injects the parameters of the import environment
    to the API located in [importPath]; the result is what is printed. *)
Definition injectParamsToAPI (importPath paramsPath importEnvironment : string)
    : M FS (list string) :=
  apiParams <- reading (LoadApiParamsFromFile paramsPath) ;;
  (* check whether import environment is included in api configuration *)
  match GetEnv apiParams importEnvironment with
  | None =>
    ret [Println "Using default values as the environment is not present in api_param.yaml file"]
  | Some envParams =>
    (* If environment parameters are present in parameter file *)
    mergeAPI importPath envParams ;;;
    generateCertificates importPath envParams ;;;
    ret []
  end.

(** The step of [ImportAPI] that injects the parameters, between the
    pre-processing and the reading of the definition: [resolvedApiFilePath]
    is the artifact as it was given, [apiFilePath] the workspace. *)
Definition ImportAPI_inject
    (resolvedApiFilePath apiFilePath apiParamsPath importEnvironment : string)
    : M FS (list string) :=
  fun fs =>
    let '(paramsPath, err) :=
      match resolveAPIParamsPath resolvedApiFilePath apiParamsPath fs with
      | Ok paramsPath => (paramsPath, None)
      | Err err => ("", Some err)
      end in
    match
      (match err with
       | Some err =>
         if negb (bool_decide (apiParamsPath = ParamFileAPI)) &&
            negb (bool_decide (apiParamsPath = ""))
         then Some err else None
       | None => None
       end)
    with
    | Some err => (fs, Err err)
    | None =>
      if negb (bool_decide (paramsPath = "")) then
        (* Reading API params file and populate api.yaml *)
        injectParamsToAPI apiFilePath paramsPath importEnvironment fs
      else (fs, Ok [])
    end.


(** [extractAPIDefinition] extracts API information from jsonContent. *)
Definition extractAPIDefinition (jsonContent : string)
    : result V2.APIDefinition :=
  UnmarshalDefinition jsonContent.

(** [getAPIDefinition] scans filePath and returns the definition, with
    the content it was read from, or an error. *)
Definition getAPIDefinition (filePath : string)
    : M FS (V2.APIDefinition * string) :=
  info <- reading (Stat filePath) ;;
  if IsDir info then
    r <- resolveYamlOrJson
           (Filepath.Join [filePath; "Meta-information"; "api"]) ;;
    let buffer := snd r in
    api <- lift (extractAPIDefinition buffer) ;;
    ret (api, buffer)
  else
    fail (errors_New ("looking for directory, found " +:+ FileName info)).

(** The loop of [replaceEnvVariables], which substitutes the environment
    variables in the project files: a path that is reported as missing is
    passed over. *)
Fixpoint replaceEnvVariablesIn (replacePaths : list string)
    (apiFilePath : string) : M FS unit :=
  match replacePaths with
  | [] => ret tt
  | replacePath :: rest =>
    fun fs =>
      let absFile := Filepath.Join [apiFilePath; replacePath] in
      (* check if the path exists. If exists, proceed with processing.
         Otherwise, continue with the next items *)
      match Stat absFile fs with
      | Err err =>
        if negb (IsNotExist err) then (fs, Err err)
        else replaceEnvVariablesIn rest apiFilePath fs
      | Ok fi =>
        ((if IsDir fi then EnvSubstituteInFolder absFile
          else if IsRegular fi then EnvSubstituteInFile absFile
          else ret tt) ;;;
         replaceEnvVariablesIn rest apiFilePath) fs
      end
  end.

Definition replaceEnvVariables (apiFilePath : string) : M FS unit :=
  replaceEnvVariablesIn EnvReplaceFilePaths apiFilePath.

(** A run of the import: the file system it leaves, what it has printed
    and the error it returns ([None] is nil). *)
Definition Run : Type := FS -> FS * (list string * option error).

(** A step of the import, whose error ends the run. *)
Definition step {A} (printed : list string) (m : M FS A)
    (k : A -> Run) : Run :=
  fun fs =>
    match m fs with
    | (fs, Ok a) => k a fs
    | (fs, Err err) => (fs, (printed, Some err))
    end.

(** [ImportAPI] once the workspace [tmpPath] is there, before the deferred
    removal of the workspace. *)
Definition ImportAPI_workspace
    (accessOAuthToken adminEndpoint importEnvironment resolvedApiFilePath
     apiParamsPath tmpPath : string)
    (importAPIUpdate preserveProvider importAPISkipCleanup : bool) : Run :=
  let apiFilePath := tmpPath in
  step [] (replaceEnvVariables apiFilePath) (fun _ =>
  step [] (preProcessAPI apiFilePath) (fun _ =>
  step [] (ImportAPI_inject resolvedApiFilePath apiFilePath apiParamsPath
             importEnvironment) (fun printed =>
  (* Get API info *)
  step printed (getAPIDefinition apiFilePath) (fun r =>
  let '(apiInfo, originalContent) := r in
  (* Fill with defaults *)
  let '(apiInfo, dirty) := populateApiWithDefaults apiInfo in
  step printed
    (if dirty : bool then
       (* api is dirty, write it to disk *)
       buf <- lift (MarshalDefinition apiInfo) ;;
       newContent <- lift (ParseJSON buf) ;;
       originalContent <- lift (ParseJSON originalContent) ;;
       result <- lift (MergeJSON (Bytes originalContent) (Bytes newContent)) ;;
       yamlContent <- lift (JsonToYaml result) ;;
       let p := Filepath.Join [apiFilePath; "Meta-information"; "api.yaml"] in
       WriteFile p yamlContent
     else ret tt) (fun _ =>
  (* validate definition *)
  match validateApiDefinition apiInfo with
  | Some err => fun fs => (fs, (printed, Some err))
  | None =>
    let upload (apiFilePath : string) : list string * option error :=
      let '(out, err) :=
        ImportAPI_dispatch accessOAuthToken adminEndpoint importEnvironment
          apiInfo apiFilePath importAPIUpdate preserveProvider in
      (printed ++ out, err) in
    fun fs =>
      (* if apiFilePath contains a directory, zip it *)
      match Stat apiFilePath fs with
      | Ok info =>
        if IsDir info then
          step printed (TempFile "" "api-artifact*.zip") (fun tmp =>
          step printed (Zip apiFilePath tmp) (fun _ fs =>
          let apiFilePath := tmp in
          let res := upload apiFilePath in
          (* the deferred removal of the archive *)
          if importAPISkipCleanup then (fs, res)
          else let '(fs, _) := Remove tmp fs in (fs, res))) fs
        else (fs, upload apiFilePath)
      | Err _ => (fs, upload apiFilePath)
      end
  end))))).

(** [ImportAPI] function is used with import-api command. *)
Definition ImportAPI
    (accessOAuthToken adminEndpoint importEnvironment importPath
     apiParamsPath : string)
    (importAPIUpdate preserveProvider importAPISkipCleanup : bool) : Run :=
  fun fs =>
    let exportDirectory := Filepath.Join [ExportDirectory; ExportedApisDirName] in
    match resolveImportFilePath importPath exportDirectory fs with
    | Err err => (fs, ([], Some err))
    | Ok resolvedApiFilePath =>
      step [] (getTempApiDirectory resolvedApiFilePath) (fun tmpPath fs =>
        let '(fs, res) :=
          ImportAPI_workspace accessOAuthToken adminEndpoint importEnvironment
            resolvedApiFilePath apiParamsPath tmpPath importAPIUpdate
            preserveProvider importAPISkipCleanup fs in
        (* the deferred removal of the workspace *)
        if importAPISkipCleanup then (fs, res)
        else let '(fs, _) := RemoveAll tmpPath fs in (fs, res)) fs
    end.


(** ** The dependent APIs of an API product (importAPIProduct.go) *)

(** The loop of [preProcessDependentAPIs] over the API directories that
    are left, [printed] being what was printed so far. *)
Fixpoint preProcessDependentAPIsIn (items : list FileInfo)
    (apisDirectoryPath importEnvironment : string) (printed : list string)
    : Run :=
  match items with
  | [] => fun fs => (fs, (printed, None))
  | item :: rest =>
    let apiDirectoryPath := apisDirectoryPath +:+ "/" +:+ FileName item in
    (* Substitutes environment variables in the project files *)
    step printed (replaceEnvVariables apiDirectoryPath) (fun _ fs =>
      let paramsPath := apiDirectoryPath +:+ "/" +:+ ParamFileAPI in
      (* Check whether api_params.yaml file is available inside the
         particular API directory *)
      if IsFileExist paramsPath fs then
        (* Reading API params file and populate api.yaml *)
        step printed
          (injectParamsToAPI apiDirectoryPath paramsPath importEnvironment)
          (fun out =>
             preProcessDependentAPIsIn rest apisDirectoryPath
               importEnvironment (printed ++ out)) fs
      else
        preProcessDependentAPIsIn rest apisDirectoryPath importEnvironment
          printed fs)
  end.

(** [preProcessDependentAPIs] pre processes dependent APIs.  The error of
    [ReadDir] is dropped, and its list is then nil. *)
Definition preProcessDependentAPIs (apiProductFilePath importEnvironment : string)
    : Run :=
  fun fs =>
    (* Check whether the APIs directory exists *)
    let apisDirectoryPath := apiProductFilePath +:+ "/" +:+ "APIs" in
    match notExist apisDirectoryPath fs with
    | Some _ => (fs, ([], None))
    | None =>
      (* If APIs directory exists, read the directory *)
      let items :=
        match ReadDir apisDirectoryPath fs with
        | Ok items => items
        | Err _ => []
        end in
      (* Iterate through the API directories available *)
      preProcessDependentAPIsIn items apisDirectoryPath importEnvironment [] fs
    end.

End Workspace.

(** ** Applications and export (impl, cmd)

    The REST client, the configuration and the constants of [utils] are
    parameters.  A response of the client may be nil, and the calls made
    on a nil response panic. *)

Module Resty.

Record Response : Type := {
  StatusCode : Z;
  Status : string;
  Body : string
}.

End Resty.

(** How a function that may stop the process ends. *)
Inductive Outcome (A : Type) : Type :=
  | Returns (a : A)
  | Exits (msg : string) (err : error)
  | Panics (msg : string).
Arguments Returns {A} a.
Arguments Exits {A} msg err.
Arguments Panics {A} msg.

Definition nilDereference : string :=
  "invalid memory address or nil pointer dereference".

Section Applications.

Variable MainConfigFilePath : string.
Variable GetDevPortalApplicationListEndpointOfEnv : string -> string -> string.
Variable AppendSlashToString : string -> string.
Variables HeaderAuthorization HeaderValueAuthBearerPrefix : string.
Variable InvokeGETRequestWithQueryParam :
  string -> string -> string -> gmap string string ->
  option Resty.Response * option error.
Variable InvokeDELETERequest :
  string -> gmap string string -> option Resty.Response * option error.

(** [utils.AppList]: its count and the identifiers of its list.
    [json.Unmarshal] is given the address of the pointer [appData]: it may
    fill the list in part before it fails, and it sets the pointer to nil,
    [None] here, for the JSON literal [null]. *)
Variable AppList : Type.
Variable Count : AppList -> Z.
Variable ApplicationIDs : AppList -> list string.
Variable Unmarshal : string -> option AppList * option error.

(** [fmt.Errorf] of a format without operands. *)
Variable Errorf : string -> error.

(** [getAppId]: get the ID of an application if available.  The error of
    the request itself is not looked at, and the count is read from the
    list that the decoding has left. *)
Definition getAppId (accessToken environment appName : string)
    : Outcome (string * option error) :=
  (* Application REST API endpoint of the environment from the config file *)
  let applicationEndpoint :=
    GetDevPortalApplicationListEndpointOfEnv environment MainConfigFilePath in
  (* Prepping headers *)
  let headers : gmap string string :=
    {[ HeaderAuthorization :=
         HeaderValueAuthBearerPrefix +:+ " " +:+ accessToken ]} in
  let '(resp, err) :=
    InvokeGETRequestWithQueryParam "query" appName applicationEndpoint
      headers in
  match resp with
  | None => Panics nilDereference
  | Some resp =>
    if (Resty.StatusCode resp =? StatusOK)%Z ||
       (Resty.StatusCode resp =? StatusCreated)%Z
    then
      (* 200 OK or 201 Created *)
      let '(appData, err) := Unmarshal (Resty.Body resp) in
      match appData with
      | None => Panics nilDereference
      | Some appData =>
        if negb (Count appData =? 0)%Z then
          match ApplicationIDs appData with
          | appId :: _ => Returns (appId, err)
          | [] => Panics "index out of range"
          end
        else Returns ("", None)
      end
    else
      if (Resty.StatusCode resp =? StatusUnauthorized)%Z then
        (* 401 Unauthorized *)
        Returns ("", Some (Errorf ("Authorization failed while searching CLI application: "
                                   +:+ appName)))
      else
        Returns ("", Some (errors_New
                             ("Request didn't respond 200 OK for searching existing applications. "
                              +:+ "Status: " +:+ Resty.Status resp)))
  end.

(** [DeleteApplication]. *)
Definition DeleteApplication (accessToken environment deleteAppName : string)
    : Outcome (option Resty.Response * option error) :=
  let deleteEndpoint :=
    GetDevPortalApplicationListEndpointOfEnv environment MainConfigFilePath in
  let deleteEndpoint := AppendSlashToString deleteEndpoint in
  match getAppId accessToken environment deleteAppName with
  | Panics msg => Panics msg
  | Exits msg err => Exits msg err
  | Returns (appId, Some err) =>
    Exits "Error while getting App Id for deletion " err
  | Returns (appId, None) =>
    let url := deleteEndpoint +:+ appId in
    let headers : gmap string string :=
      {[ HeaderAuthorization :=
           HeaderValueAuthBearerPrefix +:+ " " +:+ accessToken ]} in
    let '(resp, err) := InvokeDELETERequest url headers in
    match err with
    | Some err => Returns (None, Some err)
    | None => Returns (resp, None)
    end
  end.

End Applications.

(** ** The export of an API product (cmd) *)

Definition StatusInternalServerError : Z := 500.

Section ExportCommand.

Context {P : Platform} {H : Host P}.

Variable MainConfigFilePath : string.
Variable GetAdminEndpointOfEnv : string -> string -> string.
Variable AppendSlashToString : string -> string.
Variables HeaderAuthorization HeaderValueAuthBearerPrefix : string.
Variables HeaderAccept HeaderValueApplicationZip : string.
Variable DefaultApiProductVersion : string.
Variable InvokeGETRequest :
  string -> gmap string string -> option Resty.Response * option error.
Variable Mkdir : string -> M FS unit.
(** The method [Error] of an error. *)
Variable ErrorText : error -> string.

(** [getExportApiProductResponse]. *)
Definition getExportApiProductResponse
    (name version provider format adminEndpoint accessToken : string)
    : option Resty.Response * option error :=
  let adminEndpoint := AppendSlashToString adminEndpoint in
  let query := "export/api-product?name=" +:+ name +:+ "&version=" +:+ version
               +:+ "&providerName=" +:+ provider in
  let query :=
    if negb (bool_decide (format = "")) then query +:+ "&format=" +:+ format
    else query in
  let url := adminEndpoint +:+ query in
  let headers : gmap string string :=
    <[HeaderAccept := HeaderValueApplicationZip]>
      (<[HeaderAuthorization :=
           HeaderValueAuthBearerPrefix +:+ " " +:+ accessToken]> ∅) in
  let '(resp, err) := InvokeGETRequest url headers in
  match err with
  | Some err => (None, Some err)
  | None => (resp, None)
  end.

(** [WriteAPIProductToZip]: the exported API product is written to a zip
    file.  [runningExportAPIProductCommand] is the flag of the package. *)
Definition WriteAPIProductToZip (runningExportAPIProductCommand : bool)
    (exportAPIProductName exportAPIProductVersion zipLocationPath : string)
    (resp : Resty.Response) (fs : FS) : FS * Outcome (list string) :=
  match
    (match notExist zipLocationPath fs with
     | Some _ => Mkdir zipLocationPath fs
     | None => (fs, Ok tt)
     end)
  with
  | (fs, Err err) => (fs, Exits "Error creating zip archive" err)
  | (fs, Ok _) =>
    let zipFilename :=
      exportAPIProductName +:+ "_" +:+ exportAPIProductVersion +:+ ".zip" in
    let pFile := Filepath.Join [zipLocationPath; zipFilename] in
    match WriteFile pFile (Resty.Body resp) fs with
    | (fs, Err err) => (fs, Exits "Error creating zip archive" err)
    | (fs, Ok _) =>
      (fs,
       Returns
         (if runningExportAPIProductCommand : bool then
            [Println "Successfully exported API Product!";
             Println ("Find the exported API Product at " +:+ pFile)]
          else []))
    end
  end.

(** [executeExportAPIProductCmd], given the outcome of the token request
    and the flags of the command. *)
Definition executeExportAPIProductCmd (token : result string)
    (exportDirectory cmdExportEnvironment exportAPIProductName
     exportAPIProductVersion exportAPIProductProvider exportAPIProductFormat
     : string) (fs : FS) : FS * Outcome (list string) :=
  let runningExportAPIProductCommand := true in
  match token with
  | Ok accessToken =>
    let adminEndpoint :=
      GetAdminEndpointOfEnv cmdExportEnvironment MainConfigFilePath in
    let exportAPIProductVersion :=
      if bool_decide (exportAPIProductVersion = "") then
        (* If the user has not specified the version, use the default *)
        DefaultApiProductVersion
      else exportAPIProductVersion in
    match getExportApiProductResponse exportAPIProductName
            exportAPIProductVersion exportAPIProductProvider
            exportAPIProductFormat adminEndpoint accessToken with
    | (_, Some err) => (fs, Exits "Error while exporting" err)
    | (None, None) => (fs, Panics nilDereference)
    | (Some resp, None) =>
      let apiProductZipLocationPath :=
        Filepath.Join [exportDirectory; cmdExportEnvironment] in
      if (Resty.StatusCode resp =? StatusOK)%Z then
        WriteAPIProductToZip runningExportAPIProductCommand
          exportAPIProductName exportAPIProductVersion
          apiProductZipLocationPath resp fs
      else if (Resty.StatusCode resp =? StatusInternalServerError)%Z then
        (* 500 Internal Server Error *)
        (fs, Returns [Println (Resty.Body resp)])
      else
        (* neither 200 nor 500 *)
        (fs, Returns [Println ("Error exporting API Product: " +:+
                               Resty.Status resp +:+ " " +:+ newline +:+ " "
                               +:+ Resty.Body resp)])
    end
  | Err preCommandErr =>
    (* error exporting API Product *)
    (fs, Returns [Println ("Error getting OAuth tokens while exporting API Product:"
                           +:+ ErrorText preCommandErr)])
  end.

End ExportCommand.

(** ** Sample data, continued *)

(** The parameters of the sample: a parameters file lists the paths of the
    certificates of the environment [dev], separated by commas; an empty
    file has no environment. *)
Definition sampleCert (p : string) : Params.Cert :=
  {| Params.HostName := "backend"; Params.Alias := p; Params.Path := p;
     Params.Certificate := "" |}.

Definition sampleParams (content : string)
    : list (Params.Environment string) :=
  if bool_decide (content = "") then []
  else
    [ {| Params.Name := "dev"; Params.Endpoints := None;
         Params.Security := None; Params.GatewayEnvironments := None;
         Params.Certs := sampleCert <$> Strings.Split content "," |} ].

(** A host for the sample platform: a path is missing when the map has no
    entry for it, the working directory and the temporary names are
    fixed, the entry of a directory lists its items, separated by commas,
    a file whose content is an unset variable cannot be substituted, an
    archive has one file unless its content is empty, the codecs of the
    certificates copy their input, a list of certificates is marshalled as
    their contents, and every definition decodes to the sample API. *)
Definition sampleHost (catalog : list Utils.API)
    (transport : UploadRequest -> result Response)
    : Host (samplePlatform catalog transport) :=
  Build_Host (samplePlatform catalog transport)
    (* IsNotExist, IsRegular *)
    (fun err => match err with ErrExternal _ => true | _ => false end)
    (fun info => negb (IsDir info))
    (* Getwd *)
    (fun _ => Ok "/home/user")
    (* Remove, RemoveAll *)
    (fun p (fs : gmap string string) => (delete p fs, Ok tt))
    (fun p (fs : gmap string string) => (delete p fs, Ok tt))
    (* ReadDir *)
    (fun p (fs : gmap string string) =>
       match fs !! p with
       | Some c =>
         Ok ((fun n => {| IsDir := true; FileName := n |})
               <$> Strings.Split c ",")
       | None => Err (ErrExternal "permission denied")
       end)
    (* TempDir, TempFile *)
    (fun _ _ (fs : gmap string string) => (<["/tmp/apim" := ""]> fs, Ok "/tmp/apim"))
    (fun _ _ (fs : gmap string string) =>
       (<["/tmp/api-artifact.zip" := ""]> fs, Ok "/tmp/api-artifact.zip"))
    (* ParamFileAPI, ExportDirectory, ExportedApisDirName *)
    "api_params.yaml" "/home/user/.wso2apictl/exported" "apis"
    (* EnvReplaceFilePaths, EnvSubstituteInFolder, EnvSubstituteInFile *)
    ["Meta-information"; "Sequences"]
    (fun _ (fs : gmap string string) => (fs, Ok tt))
    (fun p (fs : gmap string string) =>
       (fs, if bool_decide (fs !! p = Some "${UNSET}")
            then Err (ErrExternal "variable UNSET is not set")
            else Ok tt))
    (* IsFileExist *)
    (fun p (fs : gmap string string) => bool_decide (is_Some (fs !! p)))
    (* Unzip, Zip, CopyDir *)
    (fun src _ (fs : gmap string string) =>
       (fs, Ok (if bool_decide (fs !! src = Some "") then []
                else ["PizzaShackAPI-1.0.0/Meta-information/api.yaml"])))
    (fun _ dest (fs : gmap string string) => (<[dest := "zip"]> fs, Ok tt))
    (fun _ _ (fs : gmap string string) => (fs, Ok tt))
    (* ApiParams, LoadApiParamsFromFile, GetEnv *)
    (list (Params.Environment string))
    (fun p (fs : gmap string string) =>
       match fs !! p with
       | Some c => Ok (sampleParams c)
       | None => Err (ErrExternal "no such file or directory")
       end)
    (fun apiParams name =>
       List.find (fun e => bool_decide (Params.Name e = name)) apiParams)
    (* Expand *)
    (fun p => Ok p)
    (* Decode, Base64Encode, MarshalCerts *)
    (fun s => if bool_decide (s = "") then None else Some s)
    (fun s => s)
    (fun certs => Ok (Strings.Join (Params.Certificate <$> certs) ","))
    (* MarshalDefinition, UnmarshalDefinition *)
    (fun _ => Ok "{}")
    (fun _ => Ok (pizza "/pizzashack")).




(** * Properties *)

(** ** The state and error steps *)

Lemma bind_Ok {St A B} (m : M St A) (k : A -> M St B) s s' a :
  m s = (s', Ok a) -> bind m k s = k a s'.
Proof. intros H. unfold bind. now rewrite H. Qed.

Lemma bind_Err {St A B} (m : M St A) (k : A -> M St B) s s' e :
  m s = (s', Err e) -> bind m k s = (s', Err e).
Proof. intros H. unfold bind. now rewrite H. Qed.

(** ** Updates of a container by a key *)

Lemma Gabs_SetP_key value key api m :
  plain_key key -> Gabs.as_map api = Some m ->
  Gabs.SetP value key api = Ok (JObject (<[key := value]> m)).
Proof.
  intros Hk Hm. unfold Gabs.SetP. rewrite Hk. simpl. now rewrite Hm.
Qed.

Lemma SetP_key value key api m :
  plain_key key -> Gabs.as_map api = Some m ->
  SetP value key api = (JObject (<[key := value]> m), Ok tt).
Proof.
  intros Hk Hm. unfold SetP. now rewrite (Gabs_SetP_key _ _ _ _ Hk Hm).
Qed.

Lemma SetP_collision value key api :
  plain_key key -> Gabs.as_map api = None ->
  SetP value key api = (api, Err ErrPathCollision).
Proof.
  intros Hk Hm. unfold SetP, Gabs.SetP. rewrite Hk. simpl. now rewrite Hm.
Qed.

Lemma plain_endpointSecured : plain_key "endpointSecured".
Proof. reflexivity. Qed.
Lemma plain_endpointUTUsername : plain_key "endpointUTUsername".
Proof. reflexivity. Qed.
Lemma plain_endpointUTPassword : plain_key "endpointUTPassword".
Proof. reflexivity. Qed.
Lemma plain_endpointAuthDigest : plain_key "endpointAuthDigest".
Proof. reflexivity. Qed.
Lemma plain_endpointConfig : plain_key "endpointConfig".
Proof. reflexivity. Qed.
Lemma plain_environments : plain_key "environments".
Proof. reflexivity. Qed.

Lemma handleSecurity_unset sec api :
  (sec = None \/ exists p, sec = Some p /\ Params.Enabled p = "") ->
  handleSecurityEndpointsParams sec api = (api, Ok tt).
Proof.
  intros [-> | (p & -> & He)]; [reflexivity|].
  unfold handleSecurityEndpointsParams. now rewrite He.
Qed.

Lemma handleSecurity_false p api m :
  Strconv.ParseBool (Params.Enabled p) = Ok false ->
  Gabs.as_map api = Some m ->
  handleSecurityEndpointsParams (Some p) api = (securityDisabled m, Ok tt).
Proof.
  intros Hb Hm. unfold handleSecurityEndpointsParams.
  assert (Params.Enabled p <> "") as Hne.
  { intros E. rewrite E in Hb. discriminate. }
  rewrite (bool_decide_eq_false_2 _ Hne). cbn [negb].
  unfold bind at 1. unfold lift. rewrite Hb.
  rewrite (bind_Ok _ _ _ _ _ (SetP_key _ _ _ _ plain_endpointSecured Hm)).
  rewrite (bind_Ok _ _ _ _ _
             (SetP_key _ _ (JObject _) _ plain_endpointUTUsername eq_refl)).
  now rewrite (SetP_key _ _ (JObject _) _ plain_endpointUTPassword eq_refl).
Qed.

(** C1. A security override whose [enabled] field is not set (or no
    security override at all) leaves the definition, and so its
    [endpointSecured], [endpointUTUsername] and [endpointUTPassword], as
    they were; an override whose [enabled] is the string [false] sets
    [endpointSecured] to false and both [endpointUTUsername] and
    [endpointUTPassword] to the empty string, whatever they held before,
    and changes no other field.  What decides is whether the string is
    empty, not a boolean. *)
Theorem security_unset_keeps_false_clears :
  (forall sec api,
     (sec = None \/ exists p, sec = Some p /\ Params.Enabled p = "") ->
     handleSecurityEndpointsParams sec api = (api, Ok tt) /\
     securityFields (fst (handleSecurityEndpointsParams sec api))
       = securityFields api) /\
  (forall p api m,
     Params.Enabled p = "false" ->
     Gabs.as_map api = Some m ->
     exists api',
       handleSecurityEndpointsParams (Some p) api = (api', Ok tt) /\
       securityFields api'
         = (Some (JBool false), Some (JString ""), Some (JString "")) /\
       forall k, k <> "endpointSecured" -> k <> "endpointUTUsername" ->
                 k <> "endpointUTPassword" ->
                 Gabs.Search [k] api' = m !! k).
Proof.
  split.
  - intros sec api H. now rewrite (handleSecurity_unset _ _ H).
  - intros p api m He Hm. exists (securityDisabled m).
    split; [|split].
    + apply handleSecurity_false; [now rewrite He | exact Hm].
    + unfold securityFields, securityDisabled. cbn [Gabs.Search].
      now simplify_map_eq.
    + intros k H1 H2 H3. unfold securityDisabled. cbn [Gabs.Search].
      rewrite !lookup_insert_ne by congruence.
      now destruct (m !! k).
Qed.

(** C1, at a definition that had security enabled with credentials. *)
Lemma security_unset_keeps_false_clears_witness :
  let m : gmap string JSON :=
    {[ "endpointSecured" := JBool true;
       "endpointUTUsername" := JString "admin";
       "endpointUTPassword" := JString "secret" ]} in
  let unset := {| Params.Enabled := ""; Params.Username := "";
                  Params.Password := ""; Params.Type_ := "" |} in
  let off := {| Params.Enabled := "false"; Params.Username := "";
                Params.Password := ""; Params.Type_ := "" |} in
  securityFields (fst (handleSecurityEndpointsParams (Some unset) (JObject m)))
    = securityFields (JObject m) /\
  exists api',
    handleSecurityEndpointsParams (Some off) (JObject m) = (api', Ok tt) /\
    securityFields api'
      = (Some (JBool false), Some (JString ""), Some (JString "")).
Proof.
  intros m unset off. split.
  - apply (proj1 security_unset_keeps_false_clears (Some unset) (JObject m)).
    right. exists unset. split; reflexivity.
  - destruct (proj2 security_unset_keeps_false_clears off (JObject m) m
                eq_refl eq_refl) as (api' & H1 & H2 & _).
    exists api'. split; assumption.
Defined.

(** ** An enabled security override *)

Lemma setEndpointSecurityType_digest p api m :
  Params.Type_ p = "digest" -> Gabs.as_map api = Some m ->
  setEndpointSecurityType p api
    = (JObject (<["endpointAuthDigest" := JBool true]> m), Ok tt).
Proof.
  intros Ht Hm. unfold setEndpointSecurityType. rewrite Ht.
  now apply SetP_key.
Qed.

Lemma setEndpointSecurityType_basic p api m :
  Params.Type_ p = "basic" -> Gabs.as_map api = Some m ->
  setEndpointSecurityType p api
    = (JObject (<["endpointAuthDigest" := JBool false]> m), Ok tt).
Proof.
  intros Ht Hm. unfold setEndpointSecurityType. rewrite Ht.
  now apply SetP_key.
Qed.

Lemma setEndpointSecurityType_other p api :
  Params.Type_ p <> "digest" -> Params.Type_ p <> "basic" ->
  setEndpointSecurityType p api = (api, Err errInvalidSecurityType).
Proof.
  intros Hd Hb. unfold setEndpointSecurityType.
  now rewrite (bool_decide_eq_false_2 _ Hd), (bool_decide_eq_false_2 _ Hb).
Qed.

Lemma incompleteSecurityConfig_None p :
  incompleteSecurityConfig p = None <->
  Params.Username p <> "" /\ Params.Password p <> "" /\ Params.Type_ p <> "".
Proof.
  unfold incompleteSecurityConfig.
  repeat case_bool_decide; split; try discriminate; try tauto; auto.
Qed.

Lemma setSecurityEndpointsParams_incomplete p api e :
  incompleteSecurityConfig p = Some e ->
  setSecurityEndpointsParams p api = (api, Err e).
Proof.
  unfold incompleteSecurityConfig, setSecurityEndpointsParams.
  intros Hsome. repeat case_bool_decide; now simplify_eq.
Qed.

Lemma setSecurityEndpointsParams_complete p api m :
  incompleteSecurityConfig p = None -> Gabs.as_map api = Some m ->
  setSecurityEndpointsParams p api
    = setEndpointSecurityType p
        (JObject (<["endpointUTPassword" := JString (Params.Password p)]>
                   (<["endpointUTUsername" := JString (Params.Username p)]> m))).
Proof.
  intros Hc Hm. apply incompleteSecurityConfig_None in Hc as (Hu & Hp & Ht).
  unfold setSecurityEndpointsParams.
  rewrite (bool_decide_eq_false_2 _ Hu), (bool_decide_eq_false_2 _ Hp),
    (bool_decide_eq_false_2 _ Ht).
  rewrite (bind_Ok _ _ _ _ _ (SetP_key _ _ _ _ plain_endpointUTUsername Hm)).
  now rewrite (bind_Ok _ _ _ _ _
                 (SetP_key _ _ (JObject _) _ plain_endpointUTPassword eq_refl)).
Qed.

Lemma handleSecurity_true p api m :
  Strconv.ParseBool (Params.Enabled p) = Ok true ->
  Gabs.as_map api = Some m ->
  handleSecurityEndpointsParams (Some p) api
    = setSecurityEndpointsParams p
        (JObject (<["endpointSecured" := JBool true]> m)).
Proof.
  intros Hb Hm. unfold handleSecurityEndpointsParams.
  assert (Params.Enabled p <> "") as Hne.
  { intros E. rewrite E in Hb. discriminate. }
  rewrite (bool_decide_eq_false_2 _ Hne). cbn [negb].
  unfold bind at 1. unfold lift. rewrite Hb.
  now rewrite (bind_Ok _ _ _ _ _ (SetP_key _ _ _ _ plain_endpointSecured Hm)).
Qed.

(** C6. For a security override whose [enabled] parses to true, on a
    definition that is a JSON object: when the username, the password or
    the type is empty the handler fails with the error that names the
    first missing field; otherwise the username and the password are
    written into the definition and [endpointAuthDigest] is set to true for
    the type [digest] and to false for the type [basic], and any other type
    fails with the invalid-security-type error. *)
Theorem security_enabled_complete_or_fails :
  forall p api m,
    Strconv.ParseBool (Params.Enabled p) = Ok true ->
    Gabs.as_map api = Some m ->
    (Params.Username p = "" \/ Params.Password p = "" \/ Params.Type_ p = "" ->
     exists e, snd (handleSecurityEndpointsParams (Some p) api) = Err e /\
               incompleteSecurityConfig p = Some e /\
               (e = errUsernameNotFound \/ e = errPasswordNotFound \/
                e = errTypeNotFound)) /\
    (Params.Username p <> "" -> Params.Password p <> "" ->
     Params.Type_ p <> "" ->
     (Params.Type_ p = "digest" ->
      handleSecurityEndpointsParams (Some p) api
        = (securityEnabled p true m, Ok tt)) /\
     (Params.Type_ p = "basic" ->
      handleSecurityEndpointsParams (Some p) api
        = (securityEnabled p false m, Ok tt)) /\
     (Params.Type_ p <> "digest" -> Params.Type_ p <> "basic" ->
      snd (handleSecurityEndpointsParams (Some p) api)
        = Err errInvalidSecurityType)).
Proof.
  intros p api m Hb Hm. rewrite (handleSecurity_true _ _ _ Hb Hm). split.
  - intros Hmiss.
    destruct (incompleteSecurityConfig p) as [e|] eqn:Hc.
    + exists e. rewrite (setSecurityEndpointsParams_incomplete _ _ _ Hc).
      split; [reflexivity|]. split; [reflexivity|].
      unfold incompleteSecurityConfig in Hc.
      repeat case_bool_decide; simplify_eq; auto.
    + apply incompleteSecurityConfig_None in Hc. tauto.
  - intros Hu Hp Ht.
    assert (incompleteSecurityConfig p = None) as Hc
      by now apply incompleteSecurityConfig_None.
    rewrite (setSecurityEndpointsParams_complete _ (JObject _) _ Hc eq_refl).
    split; [|split].
    + intros Hd. now apply setEndpointSecurityType_digest.
    + intros Hd. now apply setEndpointSecurityType_basic.
    + intros Hd Hbs. now rewrite setEndpointSecurityType_other.
Qed.

(** C6, at a digest override on a definition without security fields. *)
Lemma security_enabled_complete_or_fails_witness :
  let p := {| Params.Enabled := "true"; Params.Username := "admin";
              Params.Password := "secret"; Params.Type_ := "digest" |} in
  handleSecurityEndpointsParams (Some p) (JObject ∅)
    = (securityEnabled p true ∅, Ok tt).
Proof.
  intros p.
  apply (security_enabled_complete_or_fails p (JObject ∅) ∅ eq_refl eq_refl);
    [discriminate | discriminate | discriminate | reflexivity].
Defined.

(** ** Bytes and strings *)

Lemma of_to_bytes s : of_bytes (to_bytes s) = s.
Proof. apply string_of_list_ascii_of_string. Qed.

Lemma to_of_bytes l : to_bytes (of_bytes l) = l.
Proof. apply list_ascii_of_string_of_list_ascii. Qed.

Lemma to_bytes_inj s1 s2 : to_bytes s1 = to_bytes s2 -> s1 = s2.
Proof. intros H. rewrite <- (of_to_bytes s1), <- (of_to_bytes s2). now f_equal. Qed.

Lemma length_of_bytes l : String.length (of_bytes l) = length l.
Proof. induction l as [|c l IH]; simpl; [reflexivity | now rewrite IH]. Qed.

Lemma to_bytes_app s1 s2 : to_bytes (s1 +:+ s2) = to_bytes s1 ++ to_bytes s2.
Proof. induction s1 as [|c s1 IH]; simpl; [reflexivity | now rewrite IH]. Qed.

Lemma of_bytes_app l1 l2 : of_bytes (l1 ++ l2) = of_bytes l1 +:+ of_bytes l2.
Proof. induction l1 as [|c l1 IH]; simpl; [reflexivity | now rewrite IH]. Qed.

Lemma of_bytes_nil l : of_bytes l = "" -> l = [].
Proof. destruct l; [reflexivity | discriminate]. Qed.

(** ** Runes *)

Lemma plain_not_high c : plain c = true -> ~ high c.
Proof.
  unfold plain, high. intros [H _]%andb_true_iff. apply Z.ltb_lt in H. lia.
Qed.

Lemma first_Multi b sz lo hi :
  Utf8.first b = Utf8.Multi sz lo hi ->
  (0xC2 <= b)%Z /\ (Utf8.RuneSelf <= lo)%Z /\ 2 <= sz.
Proof.
  unfold Utf8.first, Utf8.RuneSelf, Utf8.locb.
  repeat match goal with
         | |- context [if ?c then _ else _] => destruct c eqn:?
         end; intros [= <- <- <-]; repeat split; lia.
Qed.

Lemma DecodeRune_ascii c t :
  (b2z c < Utf8.RuneSelf)%Z -> Utf8.DecodeRune (c :: t) = (b2z c, 1).
Proof.
  intros H. unfold Utf8.DecodeRune, Utf8.first.
  unfold Utf8.RuneSelf in H. apply Z.ltb_lt in H. now rewrite H.
Qed.

Lemma outside_false lo hi b :
  Utf8.outside lo hi b = false -> (lo <= b)%Z.
Proof. unfold Utf8.outside. intros [H _]%orb_false_iff. lia. Qed.

(** A rune is one byte wide, or is made of bytes above the ASCII range. *)
Lemma DecodeRune_size s :
  s <> [] ->
  snd (Utf8.DecodeRune s) = 1 \/
  (2 <= snd (Utf8.DecodeRune s) <= length s /\
   Forall high (take (snd (Utf8.DecodeRune s)) s)).
Proof.
  destruct s as [|c0 t]; [congruence|]. intros _.
  unfold Utf8.DecodeRune.
  destruct (Utf8.first (b2z c0)) as [| |sz lo hi] eqn:Hf; [now left..|].
  apply first_Multi in Hf as (H0 & Hlo & Hsz).
  assert (high c0) as Hc0 by (unfold high, Utf8.RuneSelf in *; lia).
  destruct (length (c0 :: t) <? sz) eqn:Hlen; [now left|].
  apply Nat.ltb_ge in Hlen.
  destruct t as [|c1 t1]; [now left|].
  destruct (Utf8.outside lo hi (b2z c1)) eqn:H1; [now left|].
  apply outside_false in H1.
  assert (high c1) as Hc1 by (unfold high; lia).
  destruct (sz <=? 2) eqn:H2.
  { right. simpl. split; [lia|]. repeat constructor; assumption. }
  destruct t1 as [|c2 t2]; [now left|].
  destruct (Utf8.outside Utf8.locb Utf8.hicb (b2z c2)) eqn:H3; [now left|].
  apply outside_false in H3.
  assert (high c2) as Hc2 by (unfold high, Utf8.RuneSelf, Utf8.locb in *; lia).
  destruct (sz <=? 3) eqn:H4.
  { right. simpl. split; [lia|]. repeat constructor; assumption. }
  destruct t2 as [|c3 t3]; [now left|].
  destruct (Utf8.outside Utf8.locb Utf8.hicb (b2z c3)) eqn:H5; [now left|].
  apply outside_false in H5.
  assert (high c3) as Hc3 by (unfold high, Utf8.RuneSelf, Utf8.locb in *; lia).
  right. simpl. split; [lia|]. repeat constructor; assumption.
Qed.

(** A rune that starts before a plain byte ends before it. *)
Lemma DecodeRune_before_plain a pre c post :
  plain c = true ->
  snd (Utf8.DecodeRune (a :: pre ++ c :: post)) <= S (length pre).
Proof.
  intros Hc.
  destruct (DecodeRune_size (a :: pre ++ c :: post)) as [-> | [Hn Hall]];
    [congruence | lia |].
  destruct (decide (snd (Utf8.DecodeRune (a :: pre ++ c :: post))
                    <= S (length pre))) as [|Hgt]; [assumption|].
  exfalso. apply (plain_not_high c Hc).
  rewrite Forall_lookup in Hall. apply (Hall (S (length pre))).
  rewrite lookup_take_lt by lia. simpl.
  rewrite lookup_app_r by lia. now rewrite Nat.sub_diag.
Qed.

(** ** Trimming *)

Lemma plain_not_space c :
  plain c = true -> Bool.eqb (Unicode.IsSpace (b2z c)) false = true.
Proof.
  unfold plain. intros [_ H]%andb_true_iff.
  now destruct (Unicode.IsSpace (b2z c)).
Qed.

Lemma plain_ascii c : plain c = true -> (b2z c < Utf8.RuneSelf)%Z.
Proof. unfold plain. intros [H _]%andb_true_iff. now apply Z.ltb_lt. Qed.

(** Scanning from the left stops at a plain byte at the latest. *)
Lemma indexFuncFrom_plain fuel : forall pre c post i,
  plain c = true ->
  length (pre ++ c :: post) <= fuel ->
  exists j,
    Strings.indexFuncFrom fuel Unicode.IsSpace false (pre ++ c :: post) i
      = Some j /\
    i <= j <= i + length pre.
Proof.
  induction fuel as [|fuel IH]; intros pre c post i Hc Hlen.
  { rewrite length_app in Hlen. simpl in Hlen. lia. }
  destruct pre as [|a pre].
  - exists i. simpl app. cbn [Strings.indexFuncFrom].
    rewrite (DecodeRune_ascii _ _ (plain_ascii _ Hc)).
    rewrite (plain_not_space _ Hc). split; [reflexivity | simpl; lia].
  - simpl app. cbn [Strings.indexFuncFrom].
    pose proof (DecodeRune_before_plain a pre c post Hc) as Hle.
    pose proof (DecodeRune_size (a :: pre ++ c :: post)) as Hsz.
    destruct (Utf8.DecodeRune (a :: pre ++ c :: post)) as [r n].
    simpl in Hle, Hsz.
    destruct (Bool.eqb (Unicode.IsSpace r) false).
    { exists i. split; [reflexivity | simpl; lia]. }
    assert (1 <= n) as Hn1 by (destruct Hsz as [-> | [? _]]; [easy | lia | lia]).
    assert (drop n (a :: pre ++ c :: post) = drop n (a :: pre) ++ c :: post)
      as ->.
    { change (a :: pre ++ c :: post) with ((a :: pre) ++ c :: post).
      rewrite drop_app_le by (simpl; lia). reflexivity. }
    destruct (IH (drop n (a :: pre)) c post (i + n) Hc) as (j & Hj & Hb).
    { rewrite length_app, length_drop. simpl in *.
      rewrite length_app in Hlen. simpl in Hlen. lia. }
    exists j. split; [exact Hj|].
    rewrite length_drop in Hb. simpl in *. lia.
Qed.

Lemma TrimLeftFunc_plain pre c post :
  plain c = true ->
  exists pre',
    Strings.TrimLeftFunc (pre ++ c :: post) Unicode.IsSpace = pre' ++ c :: post.
Proof.
  intros Hc. unfold Strings.TrimLeftFunc, Strings.indexFunc.
  destruct (indexFuncFrom_plain (length (pre ++ c :: post)) pre c post 0 Hc)
    as (j & -> & Hj); [lia|].
  exists (drop j pre). rewrite drop_app_le by lia. reflexivity.
Qed.

Lemma scanStart_le n s : forall start lim,
  (Utf8.scanStart n s start lim <= start)%Z.
Proof.
  induction n as [|n IH]; intros start lim; simpl; [lia|].
  destruct (start <? lim)%Z; [lia|].
  destruct (s !! Z.to_nat start) as [c|]; [|lia].
  destruct (Utf8.RuneStart (b2z c)); [lia|].
  specialize (IH (start - 1)%Z lim). lia.
Qed.

(** Decoded from the end, a rune that ends after a plain byte starts after
    it. *)
Lemma DecodeLastRune_after_plain pre c post :
  plain c = true -> post <> [] ->
  1 <= snd (Utf8.DecodeLastRune (pre ++ c :: post)) <= length post.
Proof.
  intros Hc Hpost.
  assert (1 <= length post) as Hlp by (destruct post; simpl; [congruence|lia]).
  unfold Utf8.DecodeLastRune.
  set (s := pre ++ c :: post).
  assert (length s = length pre + S (length post)) as Hlen
    by (unfold s; rewrite length_app; reflexivity).
  destruct (last s) as [l|] eqn:Hlast;
    [|apply last_None in Hlast; rewrite Hlast in Hlen; simpl in Hlen; lia].
  destruct (b2z l <? Utf8.RuneSelf)%Z; [simpl; lia|].
  set (lim := Z.max 0 (Z.of_nat (length s) - Utf8.UTFMax)).
  pose proof (scanStart_le 3 s (Z.of_nat (length s) - 2) lim) as Hscan.
  set (start := Z.max 0 (Utf8.scanStart 3 s (Z.of_nat (length s) - 2) lim)).
  assert (0 <= start <= Z.of_nat (length s) - 2)%Z as Hstart
    by (unfold start; lia).
  assert (drop (Z.to_nat start) s <> []) as Hne.
  { intros E. apply (f_equal length) in E. rewrite length_drop in E.
    simpl in E. lia. }
  pose proof (DecodeRune_size _ Hne) as Hsz.
  destruct (Utf8.DecodeRune (drop (Z.to_nat start) s)) as [r n].
  simpl in Hsz.
  destruct (start + Z.of_nat n =? Z.of_nat (length s))%Z eqn:Hend;
    cbn [negb]; [|simpl; lia].
  apply Z.eqb_eq in Hend. simpl.
  destruct Hsz as [-> | [Hn Hall]]; [lia|].
  split; [lia|].
  destruct (decide (n <= length post)) as [|Hgt]; [assumption|].
  exfalso. apply (plain_not_high c Hc).
  rewrite Forall_lookup in Hall.
  apply (Hall (length pre - Z.to_nat start)).
  rewrite lookup_take_lt by lia.
  rewrite lookup_drop.
  replace (Z.to_nat start + (length pre - Z.to_nat start)) with (length pre)
    by lia.
  unfold s. rewrite lookup_app_r by lia. now rewrite Nat.sub_diag.
Qed.

Lemma lastIndexFuncFrom_step fuel f truth s :
  s <> [] ->
  Strings.lastIndexFuncFrom (S fuel) f truth s =
  let '(r, size) := Utf8.DecodeLastRune s in
  let i := length s - size in
  if Bool.eqb (f r) truth then Some i
  else Strings.lastIndexFuncFrom fuel f truth (take i s).
Proof. destruct s; [congruence | reflexivity]. Qed.

(** Scanning from the right stops at a plain byte at the latest. *)
Lemma lastIndexFuncFrom_plain fuel : forall pre c post,
  plain c = true ->
  length (pre ++ c :: post) <= fuel ->
  exists i,
    Strings.lastIndexFuncFrom fuel Unicode.IsSpace false (pre ++ c :: post)
      = Some i /\
    length pre <= i.
Proof.
  induction fuel as [|fuel IH]; intros pre c post Hc Hlen.
  { rewrite length_app in Hlen. simpl in Hlen. lia. }
  rewrite lastIndexFuncFrom_step by (destruct pre; discriminate).
  destruct (decide (post = [])) as [-> | Hpost].
  - unfold Utf8.DecodeLastRune. rewrite last_snoc.
    pose proof (plain_ascii _ Hc) as Ha. apply Z.ltb_lt in Ha. rewrite Ha.
    rewrite (plain_not_space _ Hc). eexists. split; [reflexivity|].
    rewrite length_app. simpl. lia.
  - pose proof (DecodeLastRune_after_plain pre c post Hc Hpost) as Hn.
    destruct (Utf8.DecodeLastRune (pre ++ c :: post)) as [r n]. simpl in Hn.
    cbv zeta.
    assert (length (pre ++ c :: post) = length pre + S (length post)) as Hl
      by (rewrite length_app; reflexivity).
    destruct (Bool.eqb (Unicode.IsSpace r) false).
    { eexists. split; [reflexivity|]. lia. }
    assert (take (length (pre ++ c :: post) - n) (pre ++ c :: post)
            = pre ++ c :: take (length post - n) post) as ->.
    { rewrite Hl. rewrite take_app_ge by lia.
      replace (length pre + S (length post) - n - length pre)
        with (S (length post - n)) by lia.
      reflexivity. }
    apply IH; [exact Hc|].
    rewrite length_app. simpl. rewrite length_take. lia.
Qed.

Lemma TrimRightFunc_plain pre c post :
  plain c = true ->
  Strings.TrimRightFunc (pre ++ c :: post) Unicode.IsSpace <> [].
Proof.
  intros Hc. unfold Strings.TrimRightFunc, Strings.lastIndexFunc.
  destruct (lastIndexFuncFrom_plain (length (pre ++ c :: post)) pre c post Hc)
    as (i & -> & Hi); [lia|].
  assert (forall k, 1 <= k -> take k (pre ++ c :: post) <> []) as Htake.
  { intros k Hk E. apply (f_equal length) in E.
    rewrite length_take, length_app in E. simpl in E. lia. }
  destruct ((pre ++ c :: post) !! i) as [ch|] eqn:Hch; [|apply Htake; lia].
  destruct (Utf8.RuneSelf <=? b2z ch)%Z eqn:Hhigh; [|apply Htake; lia].
  apply Htake. apply Z.leb_le in Hhigh.
  destruct (decide (i = length pre)) as [-> | Hne]; [|lia].
  rewrite lookup_app_r in Hch by lia. rewrite Nat.sub_diag in Hch.
  simpl in Hch. injection Hch as <-.
  exfalso. now apply (plain_not_high c Hc).
Qed.

(** A string with a plain byte is not trimmed to nothing. *)
Lemma TrimFunc_plain s :
  existsb plain s = true -> Strings.TrimFunc s Unicode.IsSpace <> [].
Proof.
  intros (c & Hin & Hc)%existsb_exists.
  apply in_split in Hin as (pre & post & ->).
  unfold Strings.TrimFunc.
  destruct (TrimLeftFunc_plain pre c post Hc) as (pre' & ->).
  now apply TrimRightFunc_plain.
Qed.

Lemma isEmpty_plain s : existsb plain (to_bytes s) = true -> isEmpty s = false.
Proof.
  intros H. unfold isEmpty, Strings.TrimSpace. rewrite length_of_bytes.
  apply Nat.eqb_neq. intros E. apply (TrimFunc_plain _ H).
  now apply length_zero_iff_nil.
Qed.

Lemma reApiNameClass_plain : forallb plain reApiNameClass = true.
Proof. reflexivity. Qed.

Lemma byte_eqb_eq a b : byte_eqb a b = true -> a = b.
Proof. apply Ascii.eqb_eq. Qed.

(** A name with a forbidden character is not empty. *)
Lemma reApiName_not_empty s : reApiName s = true -> isEmpty s = false.
Proof.
  intros H. apply isEmpty_plain.
  unfold reApiName, Regexp.MatchClass in H.
  apply existsb_exists in H as (c & Hin & Hc).
  apply existsb_exists. exists c. split; [exact Hin|].
  apply existsb_exists in Hc as (d & Hd & Heq).
  apply byte_eqb_eq in Heq as ->.
  pose proof reApiNameClass_plain as Hall.
  rewrite forallb_forall in Hall. now apply Hall.
Qed.

(** ** Defaults *)

#[local] Arguments Strings.Contains : simpl never.
#[local] Arguments Strings.ReplaceAll : simpl never.
#[local] Arguments Strings.HasPrefix : simpl never.
#[local] Arguments Path.Clean : simpl never.
#[local] Arguments isEmpty : simpl never.
#[local] Arguments reApiName : simpl never.
#[local] Arguments reApiProductName : simpl never.

Lemma Clean_not_empty p : Path.Clean p <> "".
Proof.
  unfold Path.Clean, Path.clean. intros H%of_bytes_nil.
  destruct (to_bytes p) as [|c rest]; [discriminate|].
  destruct (length _ =? 0) eqn:E; [discriminate|].
  apply Nat.eqb_neq in E. rewrite H in E. now apply E.
Qed.

Lemma defaultTemplate_not_empty context : defaultTemplate context <> "".
Proof. unfold defaultTemplate. destruct (Strings.Contains _ _); apply Clean_not_empty. Qed.

Lemma populateApiWithDefaults_fields def :
  let def' := fst (populateApiWithDefaults def) in
  V2.Id def' = V2.Id def /\
  V2.Other def' = V2.Other def /\
  V2.Tags def' = Some (default [] (V2.Tags def)) /\
  V2.URITemplates def' = Some (default [] (V2.URITemplates def)) /\
  V2.Implementation def'
    = (if bool_decide (V2.Implementation def = "") then "ENDPOINT"
       else V2.Implementation def) /\
  V2.ContextTemplate def'
    = (if bool_decide (V2.ContextTemplate def = "")
       then defaultTemplate (V2.Context def) else V2.ContextTemplate def) /\
  V2.Context def'
    = (if bool_decide (V2.ContextTemplate def = "")
       then Strings.ReplaceAll (defaultTemplate (V2.Context def)) "{version}"
              (V2.Version (V2.Id def))
       else V2.Context def).
Proof.
  destruct def as [id ctx tpl tags uris impl other].
  unfold populateApiWithDefaults, defaultTemplate. cbn.
  destruct (bool_decide (tpl = "")), (Strings.Contains ctx "{version}"),
    tags, uris; cbn; destruct (bool_decide (impl = "")); cbn;
    repeat split; reflexivity.
Qed.

Lemma populateApiWithDefaults_fixed def :
  V2.ContextTemplate def <> "" -> is_Some (V2.Tags def) ->
  is_Some (V2.URITemplates def) -> V2.Implementation def <> "" ->
  populateApiWithDefaults def = (def, false).
Proof.
  destruct def as [id ctx tpl tags uris impl other]. cbn.
  intros Ht [t ->] [u ->] Hi. unfold populateApiWithDefaults. cbn.
  rewrite (bool_decide_eq_false_2 _ Ht). cbn.
  now rewrite (bool_decide_eq_false_2 _ Hi).
Qed.

Lemma populateApiProductWithDefaults_fields def :
  let def' := fst (populateApiProductWithDefaults def) in
  V2Product.Id def' = V2Product.Id def /\
  V2Product.Other def' = V2Product.Other def /\
  V2Product.Tags def' = Some (default [] (V2Product.Tags def)) /\
  V2Product.ContextTemplate def'
    = (if bool_decide (V2Product.ContextTemplate def = "")
       then defaultTemplate (V2Product.Context def)
       else V2Product.ContextTemplate def) /\
  V2Product.Context def'
    = (if bool_decide (V2Product.ContextTemplate def = "")
       then Strings.ReplaceAll (defaultTemplate (V2Product.Context def))
              "{version}" (V2Product.Version (V2Product.Id def))
       else V2Product.Context def).
Proof.
  destruct def as [id ctx tpl tags other].
  unfold populateApiProductWithDefaults, defaultTemplate. cbn.
  destruct (bool_decide (tpl = "")), (Strings.Contains ctx "{version}"),
    tags; cbn; repeat split; reflexivity.
Qed.

Lemma populateApiProductWithDefaults_fixed def :
  V2Product.ContextTemplate def <> "" -> is_Some (V2Product.Tags def) ->
  populateApiProductWithDefaults def = (def, false).
Proof.
  destruct def as [id ctx tpl tags other]. cbn.
  intros Ht [t ->]. unfold populateApiProductWithDefaults. cbn.
  now rewrite (bool_decide_eq_false_2 _ Ht).
Qed.

(** C4. For a definition whose context-template is unset: when the context
    contains the placeholder [{version}], the context-template becomes the
    cleaned context, otherwise the cleaned concatenation of the context and
    [/{version}]; in both cases the final context is that template with the
    placeholder replaced by the version.  The same holds for API
    products. *)
Theorem defaults_context_template :
  (forall def : V2.APIDefinition,
     V2.ContextTemplate def = "" ->
     let def' := fst (populateApiWithDefaults def) in
     (Strings.Contains (V2.Context def) "{version}" = true ->
      V2.ContextTemplate def' = Path.Clean (V2.Context def)) /\
     (Strings.Contains (V2.Context def) "{version}" = false ->
      V2.ContextTemplate def'
        = Path.Clean (V2.Context def +:+ "/{version}")) /\
     V2.Context def'
       = Strings.ReplaceAll (V2.ContextTemplate def') "{version}"
           (V2.Version (V2.Id def))) /\
  (forall def : V2Product.APIProductDefinition,
     V2Product.ContextTemplate def = "" ->
     let def' := fst (populateApiProductWithDefaults def) in
     (Strings.Contains (V2Product.Context def) "{version}" = true ->
      V2Product.ContextTemplate def' = Path.Clean (V2Product.Context def)) /\
     (Strings.Contains (V2Product.Context def) "{version}" = false ->
      V2Product.ContextTemplate def'
        = Path.Clean (V2Product.Context def +:+ "/{version}")) /\
     V2Product.Context def'
       = Strings.ReplaceAll (V2Product.ContextTemplate def') "{version}"
           (V2Product.Version (V2Product.Id def))).
Proof.
  split.
  - intros def Hu def'.
    destruct (populateApiWithDefaults_fields def)
      as (_ & _ & _ & _ & _ & Ht & Hc).
    fold def' in Ht, Hc. rewrite Hu in Ht, Hc. cbn in Ht, Hc.
    rewrite Hc, Ht. unfold defaultTemplate.
    repeat split; intros ->; reflexivity.
  - intros def Hu def'.
    destruct (populateApiProductWithDefaults_fields def)
      as (_ & _ & _ & Ht & Hc).
    fold def' in Ht, Hc. rewrite Hu in Ht, Hc. cbn in Ht, Hc.
    rewrite Hc, Ht. unfold defaultTemplate.
    repeat split; intros ->; reflexivity.
Qed.

(** C4, at the context [/pizza] of scenario A and at [/pizza/{version}/]. *)
Lemma defaults_context_template_witness :
  (V2.ContextTemplate (fst (populateApiWithDefaults (pizza "/pizza")))
     = "/pizza/{version}" /\
   V2.Context (fst (populateApiWithDefaults (pizza "/pizza")))
     = "/pizza/1.0.0") /\
  (V2.ContextTemplate
     (fst (populateApiWithDefaults (pizza "/pizza/{version}/")))
     = "/pizza/{version}" /\
   V2.Context (fst (populateApiWithDefaults (pizza "/pizza/{version}/")))
     = "/pizza/1.0.0").
Proof.
  split.
  - destruct (proj1 defaults_context_template (pizza "/pizza") eq_refl)
      as (_ & Ht & Hc).
    split; [rewrite Ht | rewrite Hc, Ht]; reflexivity.
  - destruct (proj1 defaults_context_template (pizza "/pizza/{version}/")
                eq_refl) as (Ht & _ & Hc).
    split; [rewrite Ht | rewrite Hc, Ht]; reflexivity.
Defined.

(** C8. Applying the defaults twice gives the definition that applying
    them once gives, and the second application reports it as not dirty;
    for APIs and for API products. *)
Theorem defaults_idempotent :
  (forall def : V2.APIDefinition,
     populateApiWithDefaults (fst (populateApiWithDefaults def))
       = (fst (populateApiWithDefaults def), false)) /\
  (forall def : V2Product.APIProductDefinition,
     populateApiProductWithDefaults (fst (populateApiProductWithDefaults def))
       = (fst (populateApiProductWithDefaults def), false)).
Proof.
  split.
  - intros def.
    destruct (populateApiWithDefaults_fields def)
      as (_ & _ & Htags & Huris & Himpl & Ht & _).
    apply populateApiWithDefaults_fixed.
    + rewrite Ht.
      destruct (bool_decide (V2.ContextTemplate def = "")) eqn:E;
        [apply defaultTemplate_not_empty | now apply bool_decide_eq_false in E].
    + rewrite Htags. eexists; reflexivity.
    + rewrite Huris. eexists; reflexivity.
    + rewrite Himpl.
      destruct (bool_decide (V2.Implementation def = "")) eqn:E;
        [easy | now apply bool_decide_eq_false in E].
  - intros def.
    destruct (populateApiProductWithDefaults_fields def)
      as (_ & _ & Htags & Ht & _).
    apply populateApiProductWithDefaults_fixed.
    + rewrite Ht.
      destruct (bool_decide (V2Product.ContextTemplate def = "")) eqn:E;
        [apply defaultTemplate_not_empty | now apply bool_decide_eq_false in E].
    + rewrite Htags. eexists; reflexivity.
Qed.

(** ** Validation *)

Lemma validateApiDefinition_firstFailure def :
  validateApiDefinition def = firstFailure (apiRules def).
Proof. reflexivity. Qed.

Lemma validateApiProductDefinition_firstFailure def :
  validateApiProductDefinition def = firstFailure (apiProductRules def).
Proof. reflexivity. Qed.

(** C5. The validator reports the failure of the first violated rule in
    the order: name non-empty, name free of the forbidden characters,
    version non-empty, context non-empty, context-template non-empty,
    context starts with a slash, context-template starts with a slash.  A
    definition that violates the rule on the characters of the name and
    the rule on the empty context is reported for the name, never for the
    context.  The same holds for API products. *)
Theorem validation_reports_first_failure :
  (forall def : V2.APIDefinition,
     validateApiDefinition def = firstFailure (apiRules def)) /\
  (forall def : V2Product.APIProductDefinition,
     validateApiProductDefinition def = firstFailure (apiProductRules def)) /\
  (forall def : V2.APIDefinition,
     reApiName (V2.APIName (V2.Id def)) = true ->
     isEmpty (V2.Context def) = true ->
     validateApiDefinition def = Some errApiNameIllegal /\
     validateApiDefinition def <> Some errContextRequired) /\
  (forall def : V2Product.APIProductDefinition,
     reApiProductName (V2Product.APIProductName (V2Product.Id def)) = true ->
     isEmpty (V2Product.Context def) = true ->
     validateApiProductDefinition def = Some errApiProductNameIllegal /\
     validateApiProductDefinition def <> Some errContextRequired).
Proof.
  split; [exact validateApiDefinition_firstFailure|].
  split; [exact validateApiProductDefinition_firstFailure|].
  split.
  - intros def Hname _.
    assert (validateApiDefinition def = Some errApiNameIllegal) as ->.
    { unfold validateApiDefinition.
      now rewrite (reApiName_not_empty _ Hname), Hname. }
    split; [reflexivity|]. intros H. vm_compute in H. discriminate H.
  - intros def Hname _.
    assert (validateApiProductDefinition def = Some errApiProductNameIllegal)
      as ->.
    { unfold validateApiProductDefinition.
      now rewrite (reApiName_not_empty _ Hname), Hname. }
    split; [reflexivity|]. intros H. vm_compute in H. discriminate H.
Qed.

(** C5, at a name with a slash and an empty context. *)
Lemma validation_reports_first_failure_witness :
  let def :=
    {| V2.Id := {| V2.ProviderName := "admin"; V2.APIName := "Pizza/Shack";
                   V2.Version := "1.0.0" |};
       V2.Context := ""; V2.ContextTemplate := "/t";
       V2.Tags := None; V2.URITemplates := None;
       V2.Implementation := ""; V2.Other := ∅ |} in
  validateApiDefinition def = Some errApiNameIllegal /\
  validateApiDefinition def <> Some errContextRequired.
Proof.
  intros def.
  apply (proj1 (proj2 (proj2 validation_reports_first_failure)) def);
    reflexivity.
Defined.

(** ** Defaults on an empty context *)

Lemma ReplaceAll_slash_version v :
  Strings.ReplaceAll "/{version}" "{version}" v = "/" +:+ v.
Proof.
  unfold Strings.ReplaceAll, Strings.replaceAll.
  case_bool_decide as Heq.
  - change (to_bytes "{version}") with (to_bytes "{version}") in Heq.
    apply to_bytes_inj in Heq as <-. reflexivity.
  - cbn. rewrite app_nil_r.
    change ("/"%char :: to_bytes v) with (to_bytes (String "/" v)).
    now rewrite of_to_bytes.
Qed.

Lemma isEmpty_slash v : isEmpty ("/" +:+ v) = false.
Proof. apply isEmpty_plain. reflexivity. Qed.

Lemma HasPrefix_slash v : Strings.HasPrefix ("/" +:+ v) "/" = true.
Proof. reflexivity. Qed.

(** C10. For a definition whose context-template is unset and whose
    context is the empty string, the defaults stage produces the
    context-template [/{version}] and the context [/] followed by the
    version.  The validator then never reports the missing context nor the
    context without a leading slash; an empty version is reported by the
    version rule when the name passes its two rules, and a definition with
    a valid name and a version passes the validator. *)
Theorem defaults_on_empty_context :
  forall def : V2.APIDefinition,
    V2.ContextTemplate def = "" ->
    V2.Context def = "" ->
    let def' := fst (populateApiWithDefaults def) in
    V2.ContextTemplate def' = "/{version}" /\
    V2.Context def' = "/" +:+ V2.Version (V2.Id def) /\
    validateApiDefinition def' <> Some errContextRequired /\
    validateApiDefinition def' <> Some errContextSlash /\
    (isEmpty (V2.APIName (V2.Id def)) = false ->
     reApiName (V2.APIName (V2.Id def)) = false ->
     validateApiDefinition def'
       = (if isEmpty (V2.Version (V2.Id def)) then Some errVersionRequired
          else None)).
Proof.
  intros def Ht Hc def'.
  destruct (populateApiWithDefaults_fields def)
    as (Hid & _ & _ & _ & _ & Ht' & Hc').
  fold def' in Hid, Ht', Hc'. rewrite Ht, Hc in Ht', Hc'.
  rewrite (bool_decide_eq_true_2 ("" = "") eq_refl) in Ht', Hc'.
  assert (defaultTemplate "" = "/{version}") as Hd by reflexivity.
  rewrite Hd in Ht', Hc'. rewrite ReplaceAll_slash_version in Hc'.
  split; [exact Ht'|]. split; [exact Hc'|].
  unfold validateApiDefinition.
  rewrite Hid, Ht', Hc', isEmpty_slash, HasPrefix_slash. cbn [negb].
  assert (isEmpty "/{version}" = false) as -> by reflexivity.
  assert (Strings.HasPrefix "/{version}" "/" = true) as -> by reflexivity.
  cbn [negb].
  repeat split.
  - repeat match goal with
           | |- context [if ?c then _ else _] => destruct c
           end; intros H; vm_compute in H; discriminate H.
  - repeat match goal with
           | |- context [if ?c then _ else _] => destruct c
           end; intros H; vm_compute in H; discriminate H.
  - intros -> ->. reflexivity.
Qed.

(** C10, at the definition of scenario A with an empty context. *)
Lemma defaults_on_empty_context_witness :
  V2.ContextTemplate (fst (populateApiWithDefaults (pizza ""))) = "/{version}" /\
  V2.Context (fst (populateApiWithDefaults (pizza ""))) = "/1.0.0" /\
  validateApiDefinition (fst (populateApiWithDefaults (pizza ""))) = None.
Proof.
  destruct (defaults_on_empty_context (pizza "") eq_refl eq_refl)
    as (Ht & Hc & _ & _ & Hv).
  split; [exact Ht|]. split; [exact Hc|].
  rewrite Hv; reflexivity.
Defined.

(** ** The fuel of the loops is enough *)

Lemma element_length p : length (snd (Path.element p)) <= length p.
Proof.
  induction p as [|c p IH]; simpl; [lia|].
  destruct (Path.is_slash c); simpl; [lia|].
  destruct (Path.element p) as [e rest]. simpl in *. lia.
Qed.

(** [path.Clean]: once the fuel covers the unread part of the path, more
    fuel changes nothing. *)
Lemma cleanLoop_fuel f1 : forall f2 rooted p out dotdot,
  length p <= f1 -> length p <= f2 ->
  Path.cleanLoop f1 rooted p out dotdot = Path.cleanLoop f2 rooted p out dotdot.
Proof.
  induction f1 as [|f1 IH]; intros f2 rooted p out dotdot H1 H2.
  { destruct p; [|simpl in H1; lia]. now destruct f2. }
  destruct f2 as [|f2]; [destruct p; [reflexivity | simpl in H2; lia]|].
  destruct p as [|c rest]; [reflexivity|].
  simpl in H1, H2. cbn [Path.cleanLoop].
  destruct (Path.is_slash c) eqn:Hs; [apply IH; lia|].
  destruct (Path.is_dot c && Path.at_end_or_slash rest); [apply IH; lia|].
  destruct (Path.is_dot c && _).
  - assert (length (drop 1 rest) <= length rest) by (rewrite length_drop; lia).
    destruct (dotdot <? length out); [apply IH; lia|].
    destruct (negb rooted); apply IH; lia.
  - pose proof (element_length rest) as He.
    simpl. rewrite Hs.
    destruct (Path.element rest) as [e rest']. simpl in He.
    apply IH; lia.
Qed.

(** [strings.Replace]: likewise for the replacement loop, when [old] is
    not empty. *)
Lemma replaceLoop_fuel f1 : forall f2 s old new,
  old <> [] -> length s <= f1 -> length s <= f2 ->
  Strings.replaceLoop f1 s old new = Strings.replaceLoop f2 s old new.
Proof.
  induction f1 as [|f1 IH]; intros f2 s old new Hold H1 H2.
  { destruct s; [|simpl in H1; lia]. now destruct f2. }
  destruct f2 as [|f2]; [destruct s; [reflexivity | simpl in H2; lia]|].
  destruct s as [|c t]; [reflexivity|].
  simpl in H1, H2. cbn [Strings.replaceLoop].
  destruct (prefixb old (c :: t)).
  - f_equal. apply IH; [assumption | |];
      rewrite length_drop; destruct old; [congruence | simpl; lia
                                          | congruence | simpl; lia].
  - f_equal. apply IH; [assumption | lia | lia].
Qed.

Lemma DecodeRune_pos s : s <> [] -> 1 <= snd (Utf8.DecodeRune s).
Proof.
  intros Hs. destruct (DecodeRune_size s Hs) as [-> | [H _]]; lia.
Qed.

Lemma DecodeLastRune_pos s : s <> [] -> 1 <= snd (Utf8.DecodeLastRune s).
Proof.
  intros Hs. unfold Utf8.DecodeLastRune.
  assert (1 <= length s) as Hlen by (destruct s; simpl; [congruence | lia]).
  destruct (last s) as [c|] eqn:Hlast;
    [|apply last_None in Hlast; congruence].
  destruct (b2z c <? Utf8.RuneSelf)%Z; [simpl; lia|].
  pose proof (scanStart_le 3 s (Z.of_nat (length s) - 2)
                (Z.max 0 (Z.of_nat (length s) - Utf8.UTFMax))) as Hscan.
  destruct (Utf8.DecodeRune _) as [r n].
  destruct (_ =? _)%Z eqn:Hend; cbn [negb]; [|simpl; lia].
  apply Z.eqb_eq in Hend. simpl. lia.
Qed.

(** [indexFunc] and [lastIndexFunc]: more fuel than the length of the
    string changes nothing. *)
Lemma indexFuncFrom_fuel f1 : forall f2 f truth s i,
  length s <= f1 -> length s <= f2 ->
  Strings.indexFuncFrom f1 f truth s i = Strings.indexFuncFrom f2 f truth s i.
Proof.
  induction f1 as [|f1 IH]; intros f2 f truth s i H1 H2.
  { destruct s; [|simpl in H1; lia]. now destruct f2. }
  destruct f2 as [|f2]; [destruct s; [reflexivity | simpl in H2; lia]|].
  destruct s as [|c t]; [reflexivity|].
  cbn [Strings.indexFuncFrom].
  pose proof (DecodeRune_pos (c :: t) ltac:(discriminate)) as Hn.
  destruct (Utf8.DecodeRune (c :: t)) as [r n]. simpl in Hn.
  destruct (Bool.eqb (f r) truth); [reflexivity|].
  apply IH; rewrite length_drop; simpl in *; lia.
Qed.

Lemma lastIndexFuncFrom_fuel f1 : forall f2 f truth s,
  length s <= f1 -> length s <= f2 ->
  Strings.lastIndexFuncFrom f1 f truth s
    = Strings.lastIndexFuncFrom f2 f truth s.
Proof.
  induction f1 as [|f1 IH]; intros f2 f truth s H1 H2.
  { destruct s; [|simpl in H1; lia]. now destruct f2. }
  destruct f2 as [|f2]; [destruct s; [reflexivity | simpl in H2; lia]|].
  destruct (decide (s = [])) as [-> | Hs]; [reflexivity|].
  rewrite !lastIndexFuncFrom_step by assumption.
  pose proof (DecodeLastRune_pos s Hs) as Hn.
  assert (1 <= length s) as Hlen by (destruct s; simpl; [congruence | lia]).
  destruct (Utf8.DecodeLastRune s) as [r n]. simpl in Hn. cbv zeta.
  destruct (Bool.eqb (f r) truth); [reflexivity|].
  apply IH; rewrite length_take; lia.
Qed.

(** ** The pipeline on every platform *)

Section PipelineProperties.

Context {P : Platform}.

(** ** Steps that only read *)

Lemma bind_inv {St A B} (m : M St A) (k : A -> M St B) s s' r :
  bind m k s = (s', r) ->
  (exists e, m s = (s', Err e) /\ r = Err e) \/
  (exists s1 a, m s = (s1, Ok a) /\ k a s1 = (s', r)).
Proof.
  unfold bind. destruct (m s) as [s1 [a|e]]; intros H.
  - right. eauto.
  - left. injection H as <- <-. eauto.
Qed.

Lemma readonly_eq {St A} (m : M St A) s s' r :
  readonly m -> m s = (s', r) -> s' = s.
Proof. intros Hm H. specialize (Hm s). rewrite H in Hm. exact Hm. Qed.

Lemma readonly_ret {St A} (a : A) : readonly (@ret St A a).
Proof. intros s. reflexivity. Qed.


Lemma readonly_lift {St A} (r : result A) : readonly (@lift St A r).
Proof. intros s. reflexivity. Qed.

Lemma readonly_reading {A} (f : FS -> result A) : readonly (reading f).
Proof. intros s. reflexivity. Qed.

Lemma readonly_on {St} api (m : M JSON unit) : readonly (@on St api m).
Proof. intros s. unfold on. now destruct (m api) as [? [|]]. Qed.

Lemma readonly_bind {St A B} (m : M St A) (k : A -> M St B) :
  readonly m -> (forall a, readonly (k a)) -> readonly (bind m k).
Proof.
  intros Hm Hk s. unfold bind. specialize (Hm s).
  destruct (m s) as [s1 [a|e]]; simpl in Hm; subst; [apply Hk | reflexivity].
Qed.

Lemma readonly_resolveYamlOrJson filename :
  readonly (resolveYamlOrJson filename).
Proof.
  intros fs. unfold resolveYamlOrJson.
  destruct (isFile _ fs); [|destruct (isFile _ fs)].
  - apply (readonly_bind (reading _)); [apply readonly_reading|].
    intros a. apply readonly_bind; [apply readonly_lift|].
    intros b. apply readonly_ret.
  - apply (readonly_bind (reading _)); [apply readonly_reading|].
    intros a. apply readonly_ret.
  - reflexivity.
Qed.

Lemma lift_inv {St A} (r : result A) (s s' : St) r' :
  lift r s = (s', r') -> s' = s /\ r = r'.
Proof. unfold lift. now intros [= <- <-]. Qed.

Lemma on_Ok_inv {St} api (m : M JSON unit) (s s' : St) api' :
  on api m s = (s', Ok api') -> s' = s /\ m api = (api', Ok tt).
Proof.
  unfold on. destruct (m api) as [a [[]|e]]; intros [= <- <-]; auto.
Qed.

Lemma bind_lift_Ok {St A B} (r : result A) (k : A -> M St B) s a :
  r = Ok a -> bind (lift r) k s = k a s.
Proof. now intros ->. Qed.




(** ** The security step keeps the other fields *)

Lemma SetP_key_inv value key api api' :
  plain_key key -> SetP value key api = (api', Ok tt) ->
  exists m, Gabs.as_map api = Some m /\ api' = JObject (<[key := value]> m).
Proof.
  intros Hk H. destruct (Gabs.as_map api) as [m|] eqn:Hm.
  - rewrite (SetP_key _ _ _ _ Hk Hm) in H. injection H as <-. eauto.
  - rewrite (SetP_collision _ _ _ Hk Hm) in H. discriminate.
Qed.

Lemma handleSecurity_frame sec m api' :
  handleSecurityEndpointsParams sec (JObject m) = (api', Ok tt) ->
  exists m', api' = JObject m' /\
             forall k, ~ securityKey k -> m' !! k = m !! k.
Proof.
  intros H.
  assert (forall p, sec = Some p -> Params.Enabled p <> "" ->
            exists m', api' = JObject m' /\
                       forall k, ~ securityKey k -> m' !! k = m !! k) as Hset.
  { intros p -> Hne.
    destruct (Strconv.ParseBool (Params.Enabled p)) as [[|]|e] eqn:Hb.
    - rewrite (handleSecurity_true _ (JObject m) _ Hb eq_refl) in H.
      destruct (incompleteSecurityConfig p) as [e|] eqn:Hc.
      { rewrite (setSecurityEndpointsParams_incomplete _ _ _ Hc) in H.
        discriminate. }
      rewrite (setSecurityEndpointsParams_complete _ (JObject _) _ Hc eq_refl)
        in H.
      destruct (decide (Params.Type_ p = "digest")) as [Hd|Hd];
        [|destruct (decide (Params.Type_ p = "basic")) as [Hbs|Hbs]].
      + rewrite (setEndpointSecurityType_digest _ (JObject _) _ Hd eq_refl)
          in H.
        injection H as <-. eexists. split; [reflexivity|].
        intros k Hk. unfold securityKey in Hk.
        rewrite !lookup_insert_ne by (intros <-; tauto). reflexivity.
      + rewrite (setEndpointSecurityType_basic _ (JObject _) _ Hbs eq_refl)
          in H.
        injection H as <-. eexists. split; [reflexivity|].
        intros k Hk. unfold securityKey in Hk.
        rewrite !lookup_insert_ne by (intros <-; tauto). reflexivity.
      + rewrite (setEndpointSecurityType_other _ _ Hd Hbs) in H. discriminate.
    - rewrite (handleSecurity_false _ (JObject m) _ Hb eq_refl) in H.
      injection H as <-. eexists. split; [reflexivity|].
      intros k Hk. unfold securityKey in Hk.
      rewrite !lookup_insert_ne by (intros <-; tauto). reflexivity.
    - unfold handleSecurityEndpointsParams in H.
      rewrite (bool_decide_eq_false_2 _ Hne) in H. cbn [negb] in H.
      unfold bind at 1 in H. unfold lift in H. rewrite Hb in H.
      discriminate. }
  destruct sec as [p|].
  - destruct (decide (Params.Enabled p = "")) as [He|He]; [|now eapply Hset].
    rewrite handleSecurity_unset in H by eauto.
    injection H as <-. eauto.
  - injection H as <-. eauto.
Qed.


(** ** The parameter merge *)

(** What a run of [mergeAPI] that reaches the write has computed: the
    merged endpoint configuration, stored as a string, and the definition
    [api] that is written. *)
Lemma mergeAPI_inv apiDirectory environmentParams fs fs' r :
  mergeAPI apiDirectory environmentParams fs = (fs', r) ->
  (fs' = fs /\ exists e, r = Err e) \/
  (exists epd cfg merged api0 api content,
     Marshal (Params.Endpoints environmentParams) = Ok cfg /\
     MergeJSON epd cfg = Ok merged /\
     Gabs.Search ["endpointConfig"] api0 = Some (JString merged) /\
     handleSecurityEndpointsParams (Params.Security environmentParams) api0
       = (api, Ok tt) /\
     Gabs.Search ["endpointConfig"] api = Some (JString merged) /\
     JsonToYaml (Bytes api) = Ok content /\
     WriteFile (Filepath.Join [apiDirectory; "Meta-information"; "api.yaml"])
       content fs = (fs', r)).
Proof.
  unfold mergeAPI. intros H.
  apply bind_inv in H as [(e & Hm & ->) | (s1 & r0 & Hm & H)].
  { left. split; [|eauto].
    exact (readonly_eq _ _ _ _ (readonly_resolveYamlOrJson _) Hm). }
  apply (readonly_eq _ _ _ _ (readonly_resolveYamlOrJson _)) in Hm as ->.
  apply bind_inv in H as [(e & Hm & ->) | (s1 & api & Hm & H)].
  { left. apply lift_inv in Hm as [-> _]. eauto. }
  apply lift_inv in Hm as [-> Hparse].
  apply bind_inv in H as [(e & Hm & ->) | (s1 & epd & Hm & H)].
  { left. apply lift_inv in Hm as [-> _]. eauto. }
  apply lift_inv in Hm as [-> Hepd].
  apply bind_inv in H as [(e & Hm & ->) | (s1 & cfg & Hm & H)].
  { left. apply lift_inv in Hm as [-> _]. eauto. }
  apply lift_inv in Hm as [-> Hcfg].
  apply bind_inv in H as [(e & Hm & ->) | (s1 & merged & Hm & H)].
  { left. apply lift_inv in Hm as [-> _]. eauto. }
  apply lift_inv in Hm as [-> Hmerged].
  apply bind_inv in H as [(e & Hm & ->) | (s1 & api1 & Hm & H)].
  { left. split; [|eauto]. exact (readonly_eq _ _ _ _ (readonly_on _ _) Hm). }
  apply on_Ok_inv in Hm as [-> Hset].
  apply (SetP_key_inv _ _ _ _ plain_endpointConfig) in Hset as (m & _ & ->).
  apply bind_inv in H as [(e & Hm & ->) | (s1 & api2 & Hm & H)].
  { left. split; [|eauto].
    destruct (Params.GatewayEnvironments environmentParams).
    - exact (readonly_eq _ _ _ _ (readonly_on _ _) Hm).
    - now injection Hm as <-. }
  assert (s1 = fs /\ exists m2, api2 = JObject m2 /\
            m2 !! "endpointConfig" = Some (JString merged)) as (-> & m2 & -> & Hm2).
  { destruct (Params.GatewayEnvironments environmentParams) as [envs|].
    - apply on_Ok_inv in Hm as [-> Hset].
      apply (SetP_key_inv _ _ _ _ plain_environments) in Hset as (m' & Hm' & ->).
      injection Hm' as <-. split; [reflexivity|]. eexists. split; [reflexivity|].
      rewrite lookup_insert_ne by discriminate. apply lookup_insert_eq.
    - injection Hm as <- <-. split; [reflexivity|]. eexists.
      split; [reflexivity|]. apply lookup_insert_eq. }
  clear Hm.
  apply bind_inv in H as [(e & Hm & ->) | (s1 & api3 & Hm & H)].
  { left. split; [|eauto]. exact (readonly_eq _ _ _ _ (readonly_on _ _) Hm). }
  apply on_Ok_inv in Hm as [-> Hsec].
  apply bind_inv in H as [(e & Hm & ->) | (s1 & content & Hm & H)].
  { left. apply lift_inv in Hm as [-> _]. eauto. }
  apply lift_inv in Hm as [-> Hyaml].
  right. exists epd, cfg, merged, (JObject m2), api3, content.
  repeat split; try assumption.
  - cbn [Gabs.Search]. now rewrite Hm2.
  - destruct (handleSecurity_frame _ _ _ Hsec) as (m3 & -> & Hframe).
    cbn [Gabs.Search]. rewrite Hframe, Hm2; [reflexivity|].
    unfold securityKey. intros [H1|[H1|[H1|H1]]]; discriminate H1.
Qed.



(** ** Pre-processing of the legacy endpoints *)

Lemma Search_key k (m : gmap string JSON) :
  Gabs.Search [k] (JObject m) = m !! k.
Proof. simpl. now destruct (m !! k). Qed.

(** The endpoint configuration built field by field is the one that the
    specification describes. *)
Lemma legacy_block key (url : JSON) (m : gmap string JSON) :
  m !! key = None ->
  Gabs.Set_ url [key; "url"] (JObject m)
    = Ok (JObject (<[key := JObject {[ "url" := url ]}]> m)) /\
  Gabs.Set_ (JString "null") [key; "config"]
      (JObject (<[key := JObject {[ "url" := url ]}]> m))
    = Ok (JObject (<[key := endpointBlock url]> m)).
Proof.
  intros Hk. split.
  - cbn [Gabs.Set_ Gabs.as_map]. rewrite Hk.
    cbn [default from_option id Gabs.Set_ Gabs.as_map]. rewrite insert_empty. reflexivity.
  - cbn [Gabs.Set_ Gabs.as_map]. rewrite lookup_insert_eq.
    cbn [default from_option id Gabs.Set_ Gabs.as_map]. rewrite insert_insert_eq.
    unfold endpointBlock. reflexivity.
Qed.

Lemma bind_ret {St A B} (a : A) (k : A -> M St B) s : bind (ret a) k s = k a s.
Proof. reflexivity. Qed.

(** The two updates that add the block of a legacy URL. *)
Lemma Gabs_SetP_block key pathUrl pathConfig url (m : gmap string JSON) :
  Strings.Split pathUrl "." = [key; "url"] ->
  Strings.Split pathConfig "." = [key; "config"] ->
  m !! key = None ->
  Gabs.SetP url pathUrl (JObject m)
    = Ok (JObject (<[key := JObject {[ "url" := url ]}]> m)) /\
  Gabs.SetP (JString "null") pathConfig
      (JObject (<[key := JObject {[ "url" := url ]}]> m))
    = Ok (JObject (<[key := endpointBlock url]> m)).
Proof.
  intros Hu Hc Hk. destruct (legacy_block key url m Hk) as [H1 H2].
  unfold Gabs.SetP. now rewrite Hu, Hc, H1, H2.
Qed.

Ltac finish_preprocess :=
  match goal with
  | |- context [Gabs.SetP ?v "endpointConfig" ?a] =>
    destruct (Gabs.SetP v "endpointConfig" a); [|reflexivity];
    cbv beta iota zeta;
    match goal with
    | |- context [JsonToYaml ?c] => now destruct (JsonToYaml c)
    end
  end.

(** A run of [preProcessAPI] on a definition without [endpointConfig]:
    the endpoint configuration of the specification is serialized, stored
    under [endpointConfig], and the definition is written. *)
Lemma preProcessAPI_legacy apiDirectory fs r api :
  snd (resolveYamlOrJson
         (Filepath.Join [apiDirectory; "Meta-information"; "api"]) fs) = Ok r ->
  ParseJSON (snd r) = Ok api ->
  Gabs.Exists ["endpointConfig"] api = false ->
  let production := legacyUrl "productionUrl" api in
  let api1 := withoutLegacyUrl "productionUrl" api in
  let sandbox := legacyUrl "sandboxUrl" api1 in
  let api2 := withoutLegacyUrl "sandboxUrl" api1 in
  preProcessAPI apiDirectory fs =
  match Gabs.SetP (JString (Bytes (legacyEndpointConfig production sandbox)))
          "endpointConfig" api2 with
  | Ok api' =>
    match JsonToYaml (Bytes api') with
    | Ok content =>
      WriteFile (Filepath.Join [apiDirectory; "Meta-information"; "api.yaml"])
        content fs
    | Err e => (fs, Err e)
    end
  | Err e => (fs, Err e)
  end.
Proof.
  intros Hres Hparse Hex production api1 sandbox api2.
  unfold preProcessAPI.
  destruct (resolveYamlOrJson
              (Filepath.Join [apiDirectory; "Meta-information"; "api"]) fs)
    as [fs1 r1] eqn:Hr.
  pose proof (readonly_eq _ _ _ _ (readonly_resolveYamlOrJson _) Hr) as ->.
  simpl in Hres. subst r1.
  rewrite (bind_Ok _ _ _ _ _ Hr). cbv zeta.
  rewrite (bind_lift_Ok _ _ _ _ Hparse).
  rewrite Hex. cbn [negb].
  subst production api1 sandbox api2.
  unfold legacyUrl, withoutLegacyUrl, legacyEndpointConfig, endpointTypeHttp.
  unfold bind, on, SetP, ret, lift.
  assert (forall key, key <> "endpoint_type" ->
            ({[ "endpoint_type" := JString "http" ]} : gmap string JSON)
              !! key = None) as Hfresh.
  { intros key Hkey. now apply lookup_singleton_ne. }
  assert (forall u,
            (<["production_endpoints" := u]>
               ({[ "endpoint_type" := JString "http" ]} : gmap string JSON))
              !! "sandbox_endpoints" = None) as Hfresh'.
  { intros u. rewrite lookup_insert_ne by discriminate.
    now apply lookup_singleton_ne. }
  destruct (Gabs.Exists ["productionUrl"] api) eqn:Hprod.
  - destruct (Gabs_SetP_block "production_endpoints"
                "production_endpoints.url" "production_endpoints.config"
                (Gabs.Data (Gabs.Path "productionUrl" api))
                {[ "endpoint_type" := JString "http" ]}
                eq_refl eq_refl
                (Hfresh "production_endpoints" ltac:(discriminate)))
      as [E1 E2].
    rewrite E1. cbv beta iota zeta. rewrite E2. cbv beta iota zeta.
    destruct (Gabs.Exists ["sandboxUrl"]
                (deleteIgnoringError "productionUrl" api)) eqn:Hsand.
    + destruct (Gabs_SetP_block "sandbox_endpoints"
                  "sandbox_endpoints.url" "sandbox_endpoints.config"
                  (Gabs.Data (Gabs.Path "sandboxUrl"
                                (deleteIgnoringError "productionUrl" api)))
                  (<["production_endpoints" :=
                       endpointBlock
                         (Gabs.Data (Gabs.Path "productionUrl" api))]>
                     {[ "endpoint_type" := JString "http" ]})
                  eq_refl eq_refl (Hfresh' _)) as [E3 E4].
      rewrite E3. cbv beta iota zeta. rewrite E4. cbv beta iota zeta.
      finish_preprocess.
    + finish_preprocess.
  - destruct (Gabs.Exists ["sandboxUrl"] api) eqn:Hsand.
    + destruct (Gabs_SetP_block "sandbox_endpoints"
                  "sandbox_endpoints.url" "sandbox_endpoints.config"
                  (Gabs.Data (Gabs.Path "sandboxUrl" api))
                  {[ "endpoint_type" := JString "http" ]}
                  eq_refl eq_refl
                  (Hfresh "sandbox_endpoints" ltac:(discriminate)))
        as [E3 E4].
      rewrite E3. cbv beta iota zeta. rewrite E4. cbv beta iota zeta.
      finish_preprocess.
    + finish_preprocess.
Qed.

(** C9. After a successful parameter merge, the [endpointConfig] field of
    the definition that is written holds the merged endpoint configuration
    as one JSON string; after a successful pre-processing of a definition
    without [endpointConfig], the field of the definition that is written
    holds, as one JSON string, the serialized configuration built from the
    legacy [productionUrl] and [sandboxUrl] fields. *)
Theorem endpointConfig_is_a_serialized_string :
  (forall apiDirectory (environmentParams : Params.Environment EndpointData)
          fs fs',
     mergeAPI apiDirectory environmentParams fs = (fs', Ok tt) ->
     exists epd cfg merged api content,
       Marshal (Params.Endpoints environmentParams) = Ok cfg /\
       MergeJSON epd cfg = Ok merged /\
       Gabs.Search ["endpointConfig"] api = Some (JString merged) /\
       JsonToYaml (Bytes api) = Ok content /\
       WriteFile (Filepath.Join [apiDirectory; "Meta-information"; "api.yaml"])
         content fs = (fs', Ok tt)) /\
  (forall apiDirectory fs fs' r api,
     snd (resolveYamlOrJson
            (Filepath.Join [apiDirectory; "Meta-information"; "api"]) fs)
       = Ok r ->
     ParseJSON (snd r) = Ok api ->
     Gabs.Exists ["endpointConfig"] api = false ->
     preProcessAPI apiDirectory fs = (fs', Ok tt) ->
     let production := legacyUrl "productionUrl" api in
     let api1 := withoutLegacyUrl "productionUrl" api in
     let sandbox := legacyUrl "sandboxUrl" api1 in
     let api2 := withoutLegacyUrl "sandboxUrl" api1 in
     let conf := legacyEndpointConfig production sandbox in
     exists m api' content,
       Gabs.as_map api2 = Some m /\
       api' = JObject (<["endpointConfig" := JString (Bytes conf)]> m) /\
       Gabs.Search ["endpointConfig"] api' = Some (JString (Bytes conf)) /\
       JsonToYaml (Bytes api') = Ok content /\
       WriteFile (Filepath.Join [apiDirectory; "Meta-information"; "api.yaml"])
         content fs = (fs', Ok tt)).
Proof.
  split.
  - intros apiDirectory environmentParams fs fs' H.
    destruct (mergeAPI_inv _ _ _ _ _ H)
      as [(_ & e & He) | (epd & cfg & merged & api0 & api & content & Hcfg &
                          Hmerged & _ & _ & Hsearch & Hyaml & Hwrite)];
      [discriminate|].
    exists epd, cfg, merged, api, content. auto.
  - intros apiDirectory fs fs' r api Hres Hparse Hex H
      production api1 sandbox api2 conf.
    rewrite (preProcessAPI_legacy _ _ _ _ Hres Hparse Hex) in H.
    fold production api1 sandbox api2 conf in H.
    destruct (Gabs.as_map api2) as [m|] eqn:Hm.
    + rewrite (Gabs_SetP_key _ _ _ _ plain_endpointConfig Hm) in H.
      destruct (JsonToYaml _) as [content|e] eqn:Hyaml; [|discriminate].
      exists m, (JObject (<["endpointConfig" := JString (Bytes conf)]> m)),
        content.
      repeat split; try assumption.
      rewrite Search_key. apply lookup_insert_eq.
    + unfold Gabs.SetP in H. rewrite plain_endpointConfig in H.
      cbn [Gabs.Set_] in H. rewrite Hm in H. discriminate.
Qed.

(** ** The status of the upload *)


(** ** Create or update *)

Lemma append_assoc (a b c : string) : (a +:+ b) +:+ c = a +:+ (b +:+ c).
Proof.
  induction a as [|x a IH]; [reflexivity|].
  change (String x ((a +:+ b) +:+ c) = String x (a +:+ (b +:+ c))).
  now rewrite IH.
Qed.

Lemma createURL_eq adminEndpoint preserveProvider :
  (adminEndpoint +:+ "/import/api") +:+ "?preserveProvider=" +:+
    Strconv.FormatBool preserveProvider
  = createURL adminEndpoint preserveProvider.
Proof. unfold createURL. now rewrite append_assoc. Qed.

Lemma updateURL_eq adminEndpoint preserveProvider :
  (adminEndpoint +:+ "/import/api") +:+ "?overwrite=" +:+
    Strconv.FormatBool true +:+ "&preserveProvider=" +:+
    Strconv.FormatBool preserveProvider
  = updateURL adminEndpoint preserveProvider.
Proof. unfold updateURL. now rewrite append_assoc. Qed.

Lemma productURL_eq adminEndpoint preserveProvider
    (importAPIs overwriteAPIs overwriteAPIProduct : bool) :
  (let u := adminEndpoint +:+ "/import/api-product" +:+ "?preserveProvider=" +:+
              Strconv.FormatBool preserveProvider in
   let u := if importAPIs
            then u +:+ "&importAPIs=" +:+ Strconv.FormatBool true else u in
   let u := if overwriteAPIs
            then u +:+ "&overwriteAPIs=" +:+ Strconv.FormatBool true else u in
   if overwriteAPIProduct
   then u +:+ "&overwriteAPIProduct=" +:+ Strconv.FormatBool true else u)
  = productURL adminEndpoint preserveProvider importAPIs overwriteAPIs
      overwriteAPIProduct.
Proof.
  unfold productURL.
  destruct preserveProvider, importAPIs, overwriteAPIs, overwriteAPIProduct;
    cbv zeta; rewrite ?append_assoc; reflexivity.
Qed.

Lemma apiProductQuery_eq name version :
  Url.QueryEscape
    (("name:" +:+ name +:+ " version:" +:+ version) +:+ " type:" +:+
       String dquote DefaultApiProductType +:+ String dquote "")
  = apiProductQuery name version.
Proof.
  unfold apiProductQuery. f_equal.
  change ("name:" +:+ name +:+ " version:" +:+ version)
    with ("name:" +:+ (name +:+ (" version:" +:+ version))).
  now rewrite !append_assoc.
Qed.

(** C7, as the code has it.  The catalog is queried only when an update
    was asked for; without it the create URL, which has no overwrite
    parameter, is used.  With it, the catalog is queried with the filter on
    the name and the version (and, for API products, on the type): a count
    of zero selects the create URL; a non-zero count whose first match has
    a non-empty identifier selects the update URL, which adds
    [overwrite=true] for an API and [overwriteAPIProduct=true] for an API
    product.  In every case the upload is the same call with the method
    POST, the same file, token and (empty) parameters. *)
Theorem dispatch_create_or_update :
  (forall accessOAuthToken adminEndpoint importEnvironment apiInfo apiFilePath
          preserveProvider,
     let create :=
       importAPI (createURL adminEndpoint preserveProvider) "POST"
         apiFilePath accessOAuthToken ∅ in
     let update :=
       importAPI (updateURL adminEndpoint preserveProvider) "POST"
         apiFilePath accessOAuthToken ∅ in
     let dispatch :=
       ImportAPI_dispatch accessOAuthToken adminEndpoint importEnvironment
         apiInfo apiFilePath in
     dispatch false preserveProvider = create /\
     forall count apis,
       GetAPIListFromEnv accessOAuthToken importEnvironment
         (apiQuery (V2.APIName (V2.Id apiInfo)) (V2.Version (V2.Id apiInfo)))
         "" = Ok (count, apis) ->
       (count = 0%Z -> dispatch true preserveProvider = create) /\
       (forall a rest, count <> 0%Z -> apis = a :: rest ->
                       Utils.ID a <> "" ->
                       dispatch true preserveProvider = update)) /\
  (forall accessOAuthToken adminEndpoint importEnvironment apiProductInfo
          apiProductFilePath importAPIs importAPIsUpdate importAPIProductUpdate
          preserveProvider,
     let upload overwriteAPIProduct :=
       importAPIProduct
         (productURL adminEndpoint preserveProvider
            (importAPIs || importAPIsUpdate) importAPIsUpdate
            overwriteAPIProduct)
         "POST" apiProductFilePath accessOAuthToken ∅ in
     let dispatch :=
       ImportAPIProduct_dispatch accessOAuthToken adminEndpoint
         importEnvironment apiProductInfo apiProductFilePath importAPIs
         importAPIsUpdate importAPIProductUpdate preserveProvider in
     (importAPIsUpdate || importAPIProductUpdate = false ->
      dispatch = upload false) /\
     (importAPIsUpdate || importAPIProductUpdate = true ->
      forall count apiProducts,
        GetAPIProductListFromEnv accessOAuthToken importEnvironment
          (apiProductQuery
             (V2Product.APIProductName (V2Product.Id apiProductInfo))
             (V2Product.Version (V2Product.Id apiProductInfo)))
          "" = Ok (count, apiProducts) ->
        (count = 0%Z -> dispatch = upload false) /\
        (forall a rest, count <> 0%Z -> apiProducts = a :: rest ->
                        Utils.ID a <> "" -> dispatch = upload true))).
Proof.
  split.
  - intros token admin env apiInfo file pp create update dispatch.
    subst create update dispatch. unfold ImportAPI_dispatch. split.
    + cbv zeta. now rewrite createURL_eq.
    + intros count apis Hq. unfold getApiID, apiQuery in *. rewrite Hq. split.
      * intros ->. cbn [Z.eqb]. rewrite bool_decide_eq_true_2 by reflexivity.
        cbv zeta. now rewrite createURL_eq.
      * intros a rest Hc -> Hid. apply Z.eqb_neq in Hc. rewrite Hc.
        rewrite (bool_decide_eq_false_2 _ Hid).
        cbv zeta. now rewrite updateURL_eq.
  - intros token admin env info file importAPIs importAPIsUpdate
      importAPIProductUpdate pp upload dispatch.
    subst upload dispatch. unfold ImportAPIProduct_dispatch. split.
    + intros ->. now rewrite <- productURL_eq.
    + intros -> count apis Hq. unfold getApiProductID. cbv zeta.
      rewrite apiProductQuery_eq, Hq. split.
      * intros ->. cbn [Z.eqb]. rewrite bool_decide_eq_true_2 by reflexivity.
        now rewrite <- productURL_eq.
      * intros a rest Hc -> Hid. apply Z.eqb_neq in Hc. rewrite Hc.
        rewrite (bool_decide_eq_false_2 _ Hid).
        now rewrite <- productURL_eq.
Qed.

End PipelineProperties.

(** ** Sample runs *)




(** C9, at a merge into the empty definition and at the pre-processing of
    a definition with a legacy production URL. *)
Lemma endpointConfig_is_a_serialized_string_witness :
  let P0 := samplePlatform [] (answering 200 "200 OK") in
  let env : Params.Environment string :=
    {| Params.Name := "dev"; Params.Endpoints := Some "{}";
       Params.Security := None; Params.GatewayEnvironments := None;
       Params.Certs := [] |} in
  (exists api,
     Gabs.Search ["endpointConfig"] api = Some (JString "{}") /\
     snd (@mergeAPI P0 "/tmp/apim/PizzaShackAPI" env (workspace "{}"))
       = Ok tt) /\
  (exists api' : JSON,
     Gabs.Search ["endpointConfig"] api'
       = Some (JString
                 (@Bytes P0
                    (legacyEndpointConfig (Some (JString "http://prod"))
                       None))) /\
     snd (@preProcessAPI P0 "/tmp/apim/PizzaShackAPI" (workspace "legacy"))
       = Ok tt).
Proof.
  intros P0 env. split.
  - destruct (proj1 (@endpointConfig_is_a_serialized_string P0)
                "/tmp/apim/PizzaShackAPI" env (workspace "{}")
                (<["/tmp/apim/PizzaShackAPI/Meta-information/api.yaml" :=
                     "{...}"]> (workspace "{}")))
      as (epd & cfg & merged & api & content & Hcfg & Hmerged & Hs & _).
    { vm_compute. reflexivity. }
    injection Hcfg as <-. injection Hmerged as <-.
    exists api. split; [exact Hs | vm_compute; reflexivity].
  - destruct (proj2 (@endpointConfig_is_a_serialized_string P0)
                "/tmp/apim/PizzaShackAPI" (workspace "legacy")
                (<["/tmp/apim/PizzaShackAPI/Meta-information/api.yaml" :=
                     "{...}"]> (workspace "legacy"))
                ("/tmp/apim/PizzaShackAPI/Meta-information/api.yaml", "legacy")
                (JObject {[ "productionUrl" := JString "http://prod" ]}))
      as (m & api' & content & _ & _ & Hs & _).
    { vm_compute. reflexivity. }
    { vm_compute. reflexivity. }
    { vm_compute. reflexivity. }
    { vm_compute. reflexivity. }
    exists api'. split; [exact Hs | vm_compute; reflexivity].
Defined.



(** C7 as the specification states it fails.  Without the update flag the
    catalog is not consulted: an API that the catalog knows is sent to the
    create URL, which has no overwrite parameter.  And the update of an API
    product that the catalog knows adds [overwriteAPIProduct=true], not
    [overwrite=true]. *)
Lemma dispatch_without_update_ignores_the_catalog :
  let P0 := samplePlatform [pizzaEntry] refusing in
  let admin := "https://localhost:9443/api/am/admin/v0.16" in
  let createUrl :=
    "https://localhost:9443/api/am/admin/v0.16/import/api?preserveProvider=true" in
  let productUrl :=
    "https://localhost:9443/api/am/admin/v0.16/import/api-product?preserveProvider=true&overwriteAPIProduct=true" in
  (@GetAPIListFromEnv P0 "token" "dev" (apiQuery "PizzaShackAPI" "1.0.0") ""
     = Ok (1%Z, [pizzaEntry]) /\
   @ImportAPI_dispatch P0 "token" admin "dev" (pizza "/pizza")
     "/tmp/api-artifact.zip" false true
     = ([], Some (ErrExternal createUrl)) /\
   Strings.Contains createUrl "overwrite" = false) /\
  (@GetAPIProductListFromEnv P0 "token" "dev"
     (@apiProductQuery P0 "PizzaShackProduct" "1.0.0") ""
     = Ok (1%Z, [pizzaEntry]) /\
   @ImportAPIProduct_dispatch P0 "token" admin "dev" pizzaProduct
     "/tmp/api-artifact.zip" false false true true
     = ([], Some (ErrExternal productUrl)) /\
   Strings.Contains productUrl "overwrite=true" = false).
Proof. repeat split; vm_compute; reflexivity. Qed.

(** C7, at an update of an API that the catalog knows. *)
Lemma dispatch_create_or_update_witness :
  let P0 := samplePlatform [pizzaEntry] refusing in
  @ImportAPI_dispatch P0 "token" "https://localhost:9443/api/am/admin/v0.16"
    "dev" (pizza "/pizza") "/tmp/api-artifact.zip" true true
  = ([], Some (ErrExternal
         "https://localhost:9443/api/am/admin/v0.16/import/api?overwrite=true&preserveProvider=true")).
Proof.
  intros P0.
  destruct (proj1 (@dispatch_create_or_update P0) "token"
              "https://localhost:9443/api/am/admin/v0.16" "dev"
              (pizza "/pizza") "/tmp/api-artifact.zip" true) as [_ H].
  destruct (H 1%Z [pizzaEntry] eq_refl) as [_ Hupdate].
  rewrite (Hupdate pizzaEntry [] ltac:(discriminate) eq_refl
             ltac:(discriminate)).
  vm_compute. reflexivity.
Defined.

(** * Further properties *)

(** ** Blank strings *)

Lemma indexFuncFrom_spaces fuel : forall s i,
  forallb ascii_byte s = true -> forallb space_byte s = true ->
  Strings.indexFuncFrom fuel Unicode.IsSpace false s i = None.
Proof.
  induction fuel as [|fuel IH]; intros s i Ha Hs; [reflexivity|].
  destruct s as [|c t]; [reflexivity|].
  cbn [Strings.indexFuncFrom]. simpl in Ha, Hs.
  apply andb_true_iff in Ha as [Hc Ha]. apply andb_true_iff in Hs as [Hsc Hs].
  unfold ascii_byte in Hc. apply Z.ltb_lt in Hc.
  rewrite (DecodeRune_ascii _ _ Hc). unfold space_byte in Hsc. rewrite Hsc.
  cbn [Bool.eqb]. now apply IH.
Qed.

Lemma not_all_spaces_plain s :
  forallb ascii_byte s = true -> forallb space_byte s = false ->
  existsb plain s = true.
Proof.
  induction s as [|c t IH]; simpl; [discriminate|].
  intros [Hc Ha]%andb_true_iff Hs. unfold plain.
  unfold ascii_byte in Hc. rewrite Hc. cbn [andb].
  unfold space_byte in Hs at 1.
  destruct (Unicode.IsSpace (b2z c)); cbn [negb orb andb] in *; [auto|reflexivity].
Qed.

(** X1. On a string of ASCII bytes, [isEmpty] holds exactly when every
    byte is a white space character (tab, line feed, vertical tab, form
    feed, carriage return or space); in particular the empty string is
    empty. *)
Theorem isEmpty_ascii :
  forall s : string,
    forallb ascii_byte (to_bytes s) = true ->
    isEmpty s = forallb space_byte (to_bytes s).
Proof.
  intros s Ha. destruct (forallb space_byte (to_bytes s)) eqn:Hs.
  - unfold isEmpty, Strings.TrimSpace, Strings.TrimFunc, Strings.TrimLeftFunc,
      Strings.indexFunc.
    now rewrite (indexFuncFrom_spaces _ _ _ Ha Hs).
  - apply isEmpty_plain. now apply not_all_spaces_plain.
Qed.

(** X1, at a name of spaces and tabs and at a name with a letter. *)
Lemma isEmpty_ascii_witness :
  isEmpty (String " " (String (ascii_of_nat 9) " ")) = true /\
  isEmpty " a " = false.
Proof.
  split.
  - rewrite isEmpty_ascii; reflexivity.
  - rewrite isEmpty_ascii; reflexivity.
Defined.

(** ** The dirty flag of the defaults *)

Lemma populateApiWithDefaults_dirty def :
  snd (populateApiWithDefaults def) = negb (defaultsSet def).
Proof.
  destruct def as [id ctx tpl tags uris impl other].
  unfold populateApiWithDefaults, defaultsSet. cbn.
  destruct (bool_decide (tpl = "")), (Strings.Contains ctx "{version}"),
    tags, uris; cbn; destruct (bool_decide (impl = "")); reflexivity.
Qed.

Lemma populateApiProductWithDefaults_dirty def :
  snd (populateApiProductWithDefaults def) = negb (productDefaultsSet def).
Proof.
  destruct def as [id ctx tpl tags other].
  unfold populateApiProductWithDefaults, productDefaultsSet. cbn.
  destruct (bool_decide (tpl = "")), (Strings.Contains ctx "{version}"),
    tags; reflexivity.
Qed.

(** X2. The defaults stage reports a definition as dirty exactly when it
    changed it: the flag is false if and only if the definition is
    returned as it was, which happens if and only if the context-template,
    the tags, the URI templates and the implementation were all set.  The
    name, the version, the provider and the other fields are never
    changed, and a context-template that is set keeps the context and the
    template as they are.  The same holds for API products. *)
Theorem defaults_dirty_iff_changed :
  (forall def : V2.APIDefinition,
     let def' := fst (populateApiWithDefaults def) in
     let dirty := snd (populateApiWithDefaults def) in
     (dirty = false <-> def' = def) /\
     (dirty = false <-> defaultsSet def = true) /\
     V2.Id def' = V2.Id def /\ V2.Other def' = V2.Other def /\
     (V2.ContextTemplate def <> "" ->
      V2.Context def' = V2.Context def /\
      V2.ContextTemplate def' = V2.ContextTemplate def)) /\
  (forall def : V2Product.APIProductDefinition,
     let def' := fst (populateApiProductWithDefaults def) in
     let dirty := snd (populateApiProductWithDefaults def) in
     (dirty = false <-> def' = def) /\
     (dirty = false <-> productDefaultsSet def = true) /\
     V2Product.Id def' = V2Product.Id def /\
     V2Product.Other def' = V2Product.Other def /\
     (V2Product.ContextTemplate def <> "" ->
      V2Product.Context def' = V2Product.Context def /\
      V2Product.ContextTemplate def' = V2Product.ContextTemplate def)).
Proof.
  split.
  - intros def def' dirty.
    destruct (populateApiWithDefaults_fields def)
      as (Hid & Hother & Htags & Huris & Himpl & Ht & Hc).
    fold def' in Hid, Hother, Htags, Huris, Himpl, Ht, Hc.
    assert (dirty = negb (defaultsSet def)) as Hd
      by apply populateApiWithDefaults_dirty.
    assert (dirty = false <-> defaultsSet def = true) as Hset.
    { rewrite Hd. destruct (defaultsSet def); now split. }
    split; [|split; [exact Hset|]].
    + rewrite Hset. split.
      * unfold defaultsSet.
        intros (((H1 & H2)%andb_true_iff & H3)%andb_true_iff & H4)%andb_true_iff.
        apply negb_true_iff, bool_decide_eq_false in H1, H4.
        apply bool_decide_eq_true in H2, H3.
        subst def'. now rewrite populateApiWithDefaults_fixed.
      * intros E. rewrite E in Ht, Htags, Huris, Himpl. unfold defaultsSet.
        destruct (bool_decide (V2.ContextTemplate def = "")) eqn:E1.
        { apply bool_decide_eq_true in E1.
          exfalso. apply (defaultTemplate_not_empty (V2.Context def)).
          now rewrite <- Ht. }
        destruct (bool_decide (V2.Implementation def = "")) eqn:E2.
        { apply bool_decide_eq_true in E2. rewrite E2 in Himpl.
          discriminate. }
        rewrite Htags, Huris. cbn.
        repeat (rewrite bool_decide_eq_true_2 by (eexists; reflexivity)).
        reflexivity.
    + repeat split; try assumption.
      * rewrite Hc. now rewrite bool_decide_eq_false_2.
      * rewrite Ht. now rewrite bool_decide_eq_false_2.
  - intros def def' dirty.
    destruct (populateApiProductWithDefaults_fields def)
      as (Hid & Hother & Htags & Ht & Hc).
    fold def' in Hid, Hother, Htags, Ht, Hc.
    assert (dirty = negb (productDefaultsSet def)) as Hd
      by apply populateApiProductWithDefaults_dirty.
    assert (dirty = false <-> productDefaultsSet def = true) as Hset.
    { rewrite Hd. destruct (productDefaultsSet def); now split. }
    split; [|split; [exact Hset|]].
    + rewrite Hset. split.
      * unfold productDefaultsSet. intros (H1 & H2)%andb_true_iff.
        apply negb_true_iff, bool_decide_eq_false in H1.
        apply bool_decide_eq_true in H2.
        subst def'. now rewrite populateApiProductWithDefaults_fixed.
      * intros E. rewrite E in Ht, Htags. unfold productDefaultsSet.
        destruct (bool_decide (V2Product.ContextTemplate def = "")) eqn:E1.
        { apply bool_decide_eq_true in E1.
          exfalso. apply (defaultTemplate_not_empty (V2Product.Context def)).
          now rewrite <- Ht. }
        rewrite Htags. cbn.
        repeat (rewrite bool_decide_eq_true_2 by (eexists; reflexivity)).
        reflexivity.
    + repeat split; try assumption.
      * rewrite Hc. now rewrite bool_decide_eq_false_2.
      * rewrite Ht. now rewrite bool_decide_eq_false_2.
Qed.

(** X2, at a definition whose template is set while its context is not
    clean. *)
Lemma defaults_dirty_iff_changed_witness :
  let def :=
    {| V2.Id := {| V2.ProviderName := "admin"; V2.APIName := "PizzaShackAPI";
                   V2.Version := "1.0.0" |};
       V2.Context := "/pizza//"; V2.ContextTemplate := "/pizza/{version}";
       V2.Tags := None; V2.URITemplates := None;
       V2.Implementation := ""; V2.Other := ∅ |} in
  V2.Context (fst (populateApiWithDefaults def)) = "/pizza//".
Proof.
  intros def.
  destruct (proj1 defaults_dirty_iff_changed def) as (_ & _ & _ & _ & H).
  apply H. discriminate.
Defined.

(** ** Cleaned paths *)

Lemma backtrack_ge out dotdot w :
  dotdot <= w -> dotdot <= Path.backtrack out dotdot w.
Proof.
  induction w as [|w IH]; intros H; [simpl; lia|].
  cbn [Path.backtrack].
  destruct ((dotdot <? S w) && _) eqn:E; [|lia].
  apply andb_true_iff in E as [E _]. apply Nat.ltb_lt in E.
  apply IH. lia.
Qed.

Lemma element_head c rest :
  Path.is_slash c = false ->
  exists e, fst (Path.element (c :: rest)) = c :: e.
Proof.
  intros Hc. simpl. rewrite Hc.
  destruct (Path.element rest) as [e r]. now exists e.
Qed.

(** The loop of [path.Clean] on a rooted path keeps the leading slash. *)
Lemma cleanLoop_rooted fuel : forall p o,
  exists o', Path.cleanLoop fuel true p (Path.slash :: o) 1 = Path.slash :: o'.
Proof.
  induction fuel as [|fuel IH]; intros p o; [now exists o|].
  destruct p as [|c rest]; [now exists o|].
  cbn [Path.cleanLoop].
  destruct (Path.is_slash c); [apply IH|].
  destruct (Path.is_dot c && Path.at_end_or_slash rest); [apply IH|].
  destruct (Path.is_dot c && _).
  - destruct (1 <? length (Path.slash :: o)) eqn:E.
    + pose proof (backtrack_ge (Path.slash :: o) 1
                    (length (Path.slash :: o) - 1)) as Hw.
      apply Nat.ltb_lt in E. specialize (Hw ltac:(lia)).
      destruct (Path.backtrack _ _ _) as [|w]; [lia|].
      cbn [take]. apply IH.
    + cbn [negb]. apply IH.
  - destruct (Path.element (c :: rest)) as [e rest'].
    destruct ((true && negb (length (Path.slash :: o) =? 1)) || _);
      cbn [app]; apply IH.
Qed.

Lemma relative_take n out : relative out -> relative (take n out).
Proof. destruct out, n; simpl; auto. Qed.

Lemma relative_app out l : out <> [] -> relative out -> relative (out ++ l).
Proof. destruct out; [congruence | simpl; auto]. Qed.

(** The loop of [path.Clean] on a path that is not rooted never writes a
    leading slash. *)
Lemma cleanLoop_relative fuel : forall p out dotdot,
  relative out -> relative (Path.cleanLoop fuel false p out dotdot).
Proof.
  induction fuel as [|fuel IH]; intros p out dotdot Hout; [exact Hout|].
  destruct p as [|c rest]; [exact Hout|].
  cbn [Path.cleanLoop].
  destruct (Path.is_slash c) eqn:Hc; [now apply IH|].
  destruct (Path.is_dot c && Path.at_end_or_slash rest); [now apply IH|].
  destruct (Path.is_dot c && _).
  - destruct (dotdot <? length out); [apply IH; now apply relative_take|].
    cbn [negb]. apply IH.
    destruct out as [|a out]; [reflexivity|].
    cbn. exact Hout.
  - destruct (element_head c rest Hc) as [e0 He].
    destruct (Path.element (c :: rest)) as [e rest']. simpl in He. subst e.
    apply IH. destruct out as [|a out]; [exact Hc|].
    cbn. exact Hout.
Qed.

Lemma HasPrefix_rooted s :
  Strings.HasPrefix s "/" = rooted_bytes (to_bytes s).
Proof.
  unfold Strings.HasPrefix. destruct (to_bytes s) as [|c l]; [reflexivity|].
  change (to_bytes "/") with [Path.slash]. cbn [prefixb rooted_bytes].
  unfold Path.is_slash, byte_eqb. rewrite Ascii.eqb_sym.
  now rewrite andb_true_r.
Qed.

Lemma clean_rooted p : rooted_bytes (Path.clean p) = rooted_bytes p.
Proof.
  unfold Path.clean. destruct p as [|c rest]; [reflexivity|].
  cbn [rooted_bytes]. destruct (Path.is_slash c) eqn:Hc.
  - destruct (cleanLoop_rooted (length (c :: rest)) rest []) as [o' ->].
    reflexivity.
  - pose proof (cleanLoop_relative (length (c :: rest)) (c :: rest) [] 0 I)
      as Hrel.
    destruct (Path.cleanLoop _ _ _ _ _) as [|a o]; [reflexivity|].
    exact Hrel.
Qed.

(** [path.Clean] keeps a path rooted or not rooted. *)
Lemma Clean_HasPrefix_slash p :
  Strings.HasPrefix (Path.Clean p) "/" = Strings.HasPrefix p "/".
Proof.
  rewrite !HasPrefix_rooted. unfold Path.Clean. rewrite to_of_bytes.
  apply clean_rooted.
Qed.

Lemma HasPrefix_app s t :
  s <> "" -> Strings.HasPrefix (s +:+ t) "/" = Strings.HasPrefix s "/".
Proof. destruct s; [congruence | reflexivity]. Qed.

Lemma HasPrefix_slash_bytes s :
  Strings.HasPrefix s "/" = true -> exists t, to_bytes s = Path.slash :: t.
Proof.
  rewrite HasPrefix_rooted. destruct (to_bytes s) as [|c l]; [discriminate|].
  cbn [rooted_bytes]. intros E. apply byte_eqb_eq in E as ->. eauto.
Qed.

(** Replacing the placeholder keeps a leading slash. *)
Lemma ReplaceAll_keeps_slash s new :
  Strings.HasPrefix s "/" = true ->
  Strings.HasPrefix (Strings.ReplaceAll s "{version}" new) "/" = true.
Proof.
  intros Hs. destruct (HasPrefix_slash_bytes s Hs) as [t Ht].
  unfold Strings.ReplaceAll, Strings.replaceAll. rewrite Ht.
  case_bool_decide as Heq.
  - unfold Strings.HasPrefix. now rewrite to_of_bytes.
  - unfold Strings.HasPrefix. rewrite to_of_bytes. reflexivity.
Qed.

Lemma isEmpty_HasPrefix_slash s :
  Strings.HasPrefix s "/" = true -> isEmpty s = false.
Proof.
  intros Hs. destruct (HasPrefix_slash_bytes s Hs) as [t Ht].
  apply isEmpty_plain. rewrite Ht. reflexivity.
Qed.

(** ** A path that ends with an element *)

Lemma ends_slash_tail c q : ends_slash (c :: q) -> ends_slash q.
Proof.
  intros [H | [q0 H]]; [discriminate|].
  destruct q0 as [|a q0]; simpl in H; injection H as -> ->.
  - now left.
  - right. now exists q0.
Qed.

Lemma cleanLoop_nil fuel rooted out dotdot :
  Path.cleanLoop fuel rooted [] out dotdot = out.
Proof. now destruct fuel. Qed.

Section LastElement.

(** An element that is neither [.] nor [..]: it has no slash and does not
    start with a dot. *)
Variables (c0 : ascii) (e' : bytes).
Hypothesis c0_not_slash : Path.is_slash c0 = false.
Hypothesis c0_not_dot : Path.is_dot c0 = false.
Hypothesis e_no_slash : forallb (fun c => negb (Path.is_slash c)) e' = true.

Lemma element_whole : forall l,
  forallb (fun c => negb (Path.is_slash c)) l = true ->
  Path.element l = (l, []).
Proof.
  induction l as [|c l IH]; [reflexivity|]. simpl.
  intros [Hc Hl]%andb_true_iff. apply negb_true_iff in Hc. rewrite Hc.
  now rewrite (IH Hl).
Qed.

Lemma element_before_slash : forall q0,
  exists e1 q1,
    Path.element ((q0 ++ [Path.slash]) ++ (c0 :: e')) = (e1, q1 ++ (c0 :: e')) /\
    ends_slash q1 /\ length q1 <= length (q0 ++ [Path.slash]).
Proof.
  induction q0 as [|a q0 IH].
  - exists [], [Path.slash]. repeat split; [|simpl; lia]. right. now exists [].
  - cbn [app Path.element]. destruct (Path.is_slash a) eqn:Ha.
    + exists [], (a :: q0 ++ [Path.slash]). repeat split; [|simpl; lia].
      right. now exists (a :: q0).
    + destruct IH as (e1 & q1 & -> & Hq1 & Hlen).
      exists (a :: e1), q1. repeat split; [assumption | simpl; lia].
Qed.

Lemma cleanLoop_last_element fuel : forall rooted q out dotdot,
  ends_slash q -> length (q ++ (c0 :: e')) <= fuel ->
  exists pre, Path.cleanLoop fuel rooted (q ++ (c0 :: e')) out dotdot = pre ++ (c0 :: e').
Proof using c0_not_slash c0_not_dot e_no_slash.
  induction fuel as [|fuel IH]; intros rooted q out dotdot Hq Hlen.
  { rewrite length_app in Hlen. simpl in Hlen. lia. }
  destruct q as [|c q].
  - cbn [app Path.cleanLoop].
    rewrite c0_not_slash, c0_not_dot. cbn [andb].
    rewrite (element_whole (c0 :: e')).
    2:{ cbn [forallb]. now rewrite c0_not_slash, e_no_slash. }
    rewrite cleanLoop_nil. eauto.
  - pose proof (ends_slash_tail _ _ Hq) as Hq'.
    assert (length (q ++ (c0 :: e')) <= fuel) as Hlen' by (simpl in Hlen; lia).
    cbn [app Path.cleanLoop].
    destruct (Path.is_slash c) eqn:Hc; [now apply IH|].
    destruct (Path.is_dot c && Path.at_end_or_slash (q ++ (c0 :: e'))); [now apply IH|].
    destruct (Path.is_dot c && _) eqn:Hdd.
    + apply andb_true_iff in Hdd as [_ Hdd].
      destruct q as [|c1 q].
      { cbn [app] in Hdd.
        rewrite c0_not_dot in Hdd. discriminate. }
      pose proof (ends_slash_tail _ _ Hq') as Hq''.
      assert (length (q ++ (c0 :: e')) <= fuel) as Hlen'' by (simpl in Hlen'; lia).
      cbn [app drop].
      destruct (dotdot <? length out); [now apply IH|].
      destruct (negb rooted); now apply IH.
    + destruct Hq as [Hq | [q0 Hq]]; [discriminate|].
      destruct q0 as [|a q0]; simpl in Hq; injection Hq as -> ->.
      { unfold Path.is_slash, byte_eqb in Hc.
        now rewrite Ascii.eqb_refl in Hc. }
      cbn [Path.element]. rewrite Hc.
      destruct (element_before_slash q0) as (e1 & q1 & -> & Hq1 & Hl1).
      apply IH; [assumption|].
      clear - Hlen Hl1. rewrite !length_app in *. cbn [length app] in *.
      rewrite ?length_app in *. cbn [length] in *. lia.
Qed.

Lemma clean_last_element ctx :
  exists pre, Path.clean (ctx ++ Path.slash :: (c0 :: e')) = pre ++ (c0 :: e').
Proof using c0_not_slash c0_not_dot e_no_slash.
  unfold Path.clean.
  destruct (ctx ++ Path.slash :: (c0 :: e')) as [|c rest] eqn:Hp.
  { destruct ctx; discriminate. }
  assert (exists pre, (if Path.is_slash c
                       then Path.cleanLoop (length (c :: rest)) (Path.is_slash c)
                              rest [Path.slash] 1
                       else Path.cleanLoop (length (c :: rest)) (Path.is_slash c)
                              (c :: rest) [] 0) = pre ++ (c0 :: e')) as [pre ->].
  { destruct (Path.is_slash c).
    - destruct ctx as [|a ctx]; simpl in Hp; injection Hp as <- <-.
      + apply (cleanLoop_last_element _ _ []); [now left | simpl; lia].
      + change (ctx ++ Path.slash :: (c0 :: e')) with (ctx ++ [Path.slash] ++ (c0 :: e')).
        rewrite app_assoc. apply cleanLoop_last_element.
        * right. now exists ctx.
        * rewrite !length_app. simpl. rewrite !length_app. simpl. lia.
    - rewrite <- Hp.
      change (ctx ++ Path.slash :: (c0 :: e')) with (ctx ++ [Path.slash] ++ (c0 :: e')).
      rewrite app_assoc. apply cleanLoop_last_element.
      + right. now exists ctx.
      + lia. }
  exists pre. destruct (length (pre ++ (c0 :: e')) =? 0) eqn:E; [|reflexivity].
  apply Nat.eqb_eq in E. rewrite length_app in E. simpl in E. lia.
Qed.

End LastElement.

Lemma Clean_ends_with_placeholder ctx :
  exists pre, Path.Clean (ctx +:+ "/{version}") = pre +:+ versionPlaceholder.
Proof.
  unfold Path.Clean. rewrite to_bytes_app.
  destruct (clean_last_element "{" (to_bytes "version}") eq_refl eq_refl
              eq_refl (to_bytes ctx)) as [pre Hpre].
  change (to_bytes "/{version}")
    with (Path.slash :: "{"%char :: to_bytes "version}").
  rewrite Hpre. exists (of_bytes pre). now rewrite of_bytes_app.
Qed.

(** ** The placeholder at the end of a string *)

(** The placeholder does not overlap itself: it is not found at an offset
    inside its own occurrence. *)
Lemma placeholder_no_overlap pre :
  0 < length pre < length (to_bytes versionPlaceholder) ->
  prefixb (to_bytes versionPlaceholder)
    (pre ++ to_bytes versionPlaceholder) = false.
Proof.
  change (to_bytes versionPlaceholder) with
    ["{"; "v"; "e"; "r"; "s"; "i"; "o"; "n"; "}"]%char.
  intros [Hpos Hlen].
  do 9 (destruct pre as [|? pre]; [simpl in Hpos, Hlen; try lia;
    cbn [app prefixb];
    repeat (match goal with
            | |- context [byte_eqb ?a ?b] =>
              is_var b; destruct (byte_eqb a b); cbn [andb]
            end); reflexivity|]).
  simpl in Hlen. lia.
Qed.

Lemma replaceLoop_last_placeholder new fuel : forall pre,
  length (pre ++ to_bytes versionPlaceholder) <= fuel ->
  exists out,
    Strings.replaceLoop fuel (pre ++ to_bytes versionPlaceholder)
      (to_bytes versionPlaceholder) new = out ++ new.
Proof.
  set (old := to_bytes versionPlaceholder).
  induction fuel as [|fuel IH]; intros pre Hlen.
  { rewrite length_app in Hlen. change (length old) with 9 in Hlen. lia. }
  destruct pre as [|c pre].
  - exists []. cbn. destruct fuel; now rewrite ?app_nil_r.
  - cbn [app Strings.replaceLoop].
    change (c :: pre ++ old) with ((c :: pre) ++ old).
    destruct (prefixb old ((c :: pre) ++ old)) eqn:Hp.
    + destruct (decide (length (c :: pre) < length old)) as [Hlt | Hge].
      { rewrite placeholder_no_overlap in Hp; [discriminate|].
        split; [simpl; lia | exact Hlt]. }
      assert (length old <= length (c :: pre)) as Hle by (clear - Hge; lia).
      rewrite (drop_app_le _ _ _ Hle).
      destruct (IH (drop (length old) (c :: pre))) as [out ->].
      { rewrite length_app, length_drop. rewrite length_app in Hlen.
        change (length old) with 9 in *. clear - Hlen Hle. lia. }
      exists (new ++ out). now rewrite app_assoc.
    + destruct (IH pre) as [out ->].
      { clear - Hlen. cbn [app length] in Hlen. lia. }
      now exists (c :: out).
Qed.

Lemma ReplaceAll_last_placeholder pre new :
  exists out,
    Strings.ReplaceAll (pre +:+ versionPlaceholder) versionPlaceholder new
      = out +:+ new.
Proof.
  unfold Strings.ReplaceAll, Strings.replaceAll.
  case_bool_decide as Heq.
  - apply to_bytes_inj in Heq as <-. exists pre. now rewrite of_to_bytes.
  - rewrite to_bytes_app.
    destruct (replaceLoop_last_placeholder (to_bytes new) _ (to_bytes pre)
                (le_n _)) as [out Hout].
    rewrite Hout.
    change (to_bytes versionPlaceholder)
      with ("{"%char :: to_bytes "version}").
    cbv beta iota. exists (of_bytes out).
    now rewrite of_bytes_app, of_to_bytes.
Qed.

(** ** The defaults and the rules on the context *)

Lemma defaultTemplate_HasPrefix context :
  context <> "" ->
  Strings.HasPrefix (defaultTemplate context) "/"
    = Strings.HasPrefix context "/".
Proof.
  intros Hne. unfold defaultTemplate.
  destruct (Strings.Contains _ _); rewrite Clean_HasPrefix_slash;
    [reflexivity | now apply HasPrefix_app].
Qed.

Lemma HasPrefix_not_empty s : Strings.HasPrefix s "/" = true -> s <> "".
Proof. now intros H ->. Qed.

Lemma firstFailure_app_false rules rest :
  forallb (fun r => negb (fst r)) rest = true ->
  firstFailure (rules ++ rest) = firstFailure rules.
Proof.
  intros Hrest. induction rules as [|[v f] rules IH]; cbn [app firstFailure].
  - induction rest as [|[v f] rest IH]; [reflexivity|].
    cbn in Hrest. apply andb_true_iff in Hrest as [Hv Hr].
    apply negb_true_iff in Hv. cbn in Hv. subst v. cbn. now apply IH.
  - now destruct v.
Qed.

Lemma firstFailure_last_violated rules failure :
  firstFailure (rules ++ [(true, failure)]) <> None.
Proof.
  induction rules as [|[v f] rules IH]; cbn; [discriminate|].
  now destruct v.
Qed.

(** X3. For a definition whose context-template is unset and whose context
    starts with a slash, the defaults stage produces a context-template
    and a context that start with a slash, so that the validator can only
    report the three rules on the name and the version: its result is the
    first failure among these three.  The same holds for API products. *)
Theorem rooted_context_passes_context_rules :
  (forall def : V2.APIDefinition,
     V2.ContextTemplate def = "" ->
     Strings.HasPrefix (V2.Context def) "/" = true ->
     let def' := fst (populateApiWithDefaults def) in
     Strings.HasPrefix (V2.ContextTemplate def') "/" = true /\
     Strings.HasPrefix (V2.Context def') "/" = true /\
     validateApiDefinition def' = firstFailure (identityRules def')) /\
  (forall def : V2Product.APIProductDefinition,
     V2Product.ContextTemplate def = "" ->
     Strings.HasPrefix (V2Product.Context def) "/" = true ->
     let def' := fst (populateApiProductWithDefaults def) in
     Strings.HasPrefix (V2Product.ContextTemplate def') "/" = true /\
     Strings.HasPrefix (V2Product.Context def') "/" = true /\
     validateApiProductDefinition def'
       = firstFailure (productIdentityRules def')).
Proof.
  split; intros def Ht Hc def'.
  - destruct (populateApiWithDefaults_fields def)
      as (_ & _ & _ & _ & _ & Htpl & Hctx).
    fold def' in Htpl, Hctx.
    rewrite (bool_decide_eq_true_2 _ Ht) in Htpl, Hctx.
    assert (Strings.HasPrefix (V2.ContextTemplate def') "/" = true) as H1.
    { rewrite Htpl, defaultTemplate_HasPrefix; [exact Hc|].
      now apply HasPrefix_not_empty. }
    assert (Strings.HasPrefix (V2.Context def') "/" = true) as H2.
    { rewrite Hctx. apply ReplaceAll_keeps_slash. now rewrite <- Htpl. }
    repeat split; [exact H1 | exact H2 |].
    rewrite validateApiDefinition_firstFailure.
    unfold identityRules.
    rewrite <- (take_drop 3 (apiRules def')) at 1.
    apply firstFailure_app_false. cbn.
    rewrite H1, H2, !isEmpty_HasPrefix_slash by assumption. reflexivity.
  - destruct (populateApiProductWithDefaults_fields def)
      as (_ & _ & _ & Htpl & Hctx).
    fold def' in Htpl, Hctx.
    rewrite (bool_decide_eq_true_2 _ Ht) in Htpl, Hctx.
    assert (Strings.HasPrefix (V2Product.ContextTemplate def') "/" = true)
      as H1.
    { rewrite Htpl, defaultTemplate_HasPrefix; [exact Hc|].
      now apply HasPrefix_not_empty. }
    assert (Strings.HasPrefix (V2Product.Context def') "/" = true) as H2.
    { rewrite Hctx. apply ReplaceAll_keeps_slash. now rewrite <- Htpl. }
    repeat split; [exact H1 | exact H2 |].
    rewrite validateApiProductDefinition_firstFailure.
    unfold productIdentityRules.
    rewrite <- (take_drop 3 (apiProductRules def')) at 1.
    apply firstFailure_app_false. cbn.
    rewrite H1, H2, !isEmpty_HasPrefix_slash by assumption. reflexivity.
Qed.

Lemma rooted_context_passes_context_rules_witness :
  V2.ContextTemplate (pizza "/pizzashack") = "" /\
  Strings.HasPrefix (V2.Context (pizza "/pizzashack")) "/" = true /\
  validateApiDefinition (fst (populateApiWithDefaults (pizza "/pizzashack")))
    = firstFailure
        (identityRules (fst (populateApiWithDefaults (pizza "/pizzashack")))).
Proof.
  split; [reflexivity|]. split; [reflexivity|].
  apply (proj1 rooted_context_passes_context_rules (pizza "/pizzashack"));
    reflexivity.
Defined.

(** X4. For a definition whose context-template is unset and whose context
    is not empty and does not start with a slash, the defaults stage
    produces a context-template without a leading slash, and the validator
    rejects the definition whatever its other fields are.  The same holds
    for API products. *)
Theorem relative_context_is_rejected :
  (forall def : V2.APIDefinition,
     V2.ContextTemplate def = "" ->
     V2.Context def <> "" ->
     Strings.HasPrefix (V2.Context def) "/" = false ->
     let def' := fst (populateApiWithDefaults def) in
     Strings.HasPrefix (V2.ContextTemplate def') "/" = false /\
     validateApiDefinition def' <> None) /\
  (forall def : V2Product.APIProductDefinition,
     V2Product.ContextTemplate def = "" ->
     V2Product.Context def <> "" ->
     Strings.HasPrefix (V2Product.Context def) "/" = false ->
     let def' := fst (populateApiProductWithDefaults def) in
     Strings.HasPrefix (V2Product.ContextTemplate def') "/" = false /\
     validateApiProductDefinition def' <> None).
Proof.
  split; intros def Ht Hne Hc def'.
  - destruct (populateApiWithDefaults_fields def)
      as (_ & _ & _ & _ & _ & Htpl & _).
    fold def' in Htpl. rewrite (bool_decide_eq_true_2 _ Ht) in Htpl.
    assert (Strings.HasPrefix (V2.ContextTemplate def') "/" = false) as H1.
    { now rewrite Htpl, defaultTemplate_HasPrefix. }
    split; [exact H1|].
    rewrite validateApiDefinition_firstFailure. unfold apiRules.
    rewrite H1. cbn [negb].
    apply (firstFailure_last_violated [_; _; _; _; _; _]).
  - destruct (populateApiProductWithDefaults_fields def)
      as (_ & _ & _ & Htpl & _).
    fold def' in Htpl. rewrite (bool_decide_eq_true_2 _ Ht) in Htpl.
    assert (Strings.HasPrefix (V2Product.ContextTemplate def') "/" = false)
      as H1.
    { now rewrite Htpl, defaultTemplate_HasPrefix. }
    split; [exact H1|].
    rewrite validateApiProductDefinition_firstFailure. unfold apiProductRules.
    rewrite H1. cbn [negb].
    apply (firstFailure_last_violated [_; _; _; _; _; _]).
Qed.

Lemma relative_context_is_rejected_witness :
  V2.ContextTemplate (pizza "pizzashack") = "" /\
  V2.Context (pizza "pizzashack") <> "" /\
  Strings.HasPrefix (V2.Context (pizza "pizzashack")) "/" = false /\
  validateApiDefinition (fst (populateApiWithDefaults (pizza "pizzashack")))
    <> None.
Proof.
  split; [reflexivity|]. split; [discriminate|]. split; [reflexivity|].
  apply (proj1 relative_context_is_rejected (pizza "pizzashack"));
    [reflexivity | discriminate | reflexivity].
Defined.

(** X5. For a definition whose context-template is unset and whose context
    does not contain the version placeholder, the context-template that
    the defaults stage produces ends with the placeholder, and the context
    that it produces ends with the version.  The same holds for API
    products. *)
Theorem default_template_ends_with_placeholder :
  (forall def : V2.APIDefinition,
     V2.ContextTemplate def = "" ->
     Strings.Contains (V2.Context def) versionPlaceholder = false ->
     let def' := fst (populateApiWithDefaults def) in
     (exists pre, V2.ContextTemplate def' = pre +:+ versionPlaceholder) /\
     (exists pre, V2.Context def' = pre +:+ V2.Version (V2.Id def))) /\
  (forall def : V2Product.APIProductDefinition,
     V2Product.ContextTemplate def = "" ->
     Strings.Contains (V2Product.Context def) versionPlaceholder = false ->
     let def' := fst (populateApiProductWithDefaults def) in
     (exists pre,
        V2Product.ContextTemplate def' = pre +:+ versionPlaceholder) /\
     (exists pre,
        V2Product.Context def'
          = pre +:+ V2Product.Version (V2Product.Id def))).
Proof.
  split; intros def Ht Hc def'.
  - destruct (populateApiWithDefaults_fields def)
      as (_ & _ & _ & _ & _ & Htpl & Hctx).
    fold def' in Htpl, Hctx.
    rewrite (bool_decide_eq_true_2 _ Ht) in Htpl, Hctx.
    unfold defaultTemplate in Htpl, Hctx.
    change versionPlaceholder with "{version}" in Hc.
    rewrite Hc in Htpl, Hctx.
    destruct (Clean_ends_with_placeholder (V2.Context def)) as [pre Hpre].
    rewrite Hpre in Htpl, Hctx. split; [now exists pre|].
    rewrite Hctx. apply ReplaceAll_last_placeholder.
  - destruct (populateApiProductWithDefaults_fields def)
      as (_ & _ & _ & Htpl & Hctx).
    fold def' in Htpl, Hctx.
    rewrite (bool_decide_eq_true_2 _ Ht) in Htpl, Hctx.
    unfold defaultTemplate in Htpl, Hctx.
    change versionPlaceholder with "{version}" in Hc.
    rewrite Hc in Htpl, Hctx.
    destruct (Clean_ends_with_placeholder (V2Product.Context def))
      as [pre Hpre].
    rewrite Hpre in Htpl, Hctx. split; [now exists pre|].
    rewrite Hctx. apply ReplaceAll_last_placeholder.
Qed.

Lemma default_template_ends_with_placeholder_witness :
  V2.ContextTemplate (pizza "shop//pizza/../menu") = "" /\
  Strings.Contains (V2.Context (pizza "shop//pizza/../menu"))
    versionPlaceholder = false /\
  exists pre,
    V2.ContextTemplate
      (fst (populateApiWithDefaults (pizza "shop//pizza/../menu")))
      = pre +:+ versionPlaceholder.
Proof.
  split; [reflexivity|]. split; [reflexivity|].
  apply (proj1 default_template_ends_with_placeholder
           (pizza "shop//pizza/../menu")); reflexivity.
Defined.

(** ** The outcomes of the security step *)

Lemma handleSecurity_unparsable p api e :
  Params.Enabled p <> "" ->
  Strconv.ParseBool (Params.Enabled p) = Err e ->
  handleSecurityEndpointsParams (Some p) api = (api, Err e).
Proof.
  intros He Hb. unfold handleSecurityEndpointsParams.
  rewrite (bool_decide_eq_false_2 _ He).
  cbn [negb]. unfold bind at 1. unfold lift. now rewrite Hb.
Qed.

Lemma handleSecurity_collision p api b :
  Strconv.ParseBool (Params.Enabled p) = Ok b ->
  Gabs.as_map api = None ->
  handleSecurityEndpointsParams (Some p) api = (api, Err ErrPathCollision).
Proof.
  intros Hb Hm. unfold handleSecurityEndpointsParams.
  destruct (bool_decide (Params.Enabled p = "")) eqn:He.
  { apply bool_decide_eq_true_1 in He. rewrite He in Hb. discriminate. }
  cbn [negb]. unfold bind at 1. unfold lift. rewrite Hb.
  now rewrite (bind_Err _ _ _ _ _
                 (SetP_collision _ _ _ plain_endpointSecured Hm)).
Qed.

Lemma handleSecurity_invalid_type p m :
  Strconv.ParseBool (Params.Enabled p) = Ok true ->
  incompleteSecurityConfig p = None ->
  Params.Type_ p <> "digest" -> Params.Type_ p <> "basic" ->
  handleSecurityEndpointsParams (Some p) (JObject m)
    = (JObject (<["endpointUTPassword" := JString (Params.Password p)]>
                 (<["endpointUTUsername" := JString (Params.Username p)]>
                   (<["endpointSecured" := JBool true]> m))),
       Err errInvalidSecurityType).
Proof.
  intros Hb Hc Hd Hbs.
  rewrite (handleSecurity_true _ (JObject m) _ Hb eq_refl).
  rewrite (setSecurityEndpointsParams_complete _ (JObject _) _ Hc eq_refl).
  now apply setEndpointSecurityType_other.
Qed.

Lemma handleSecurity_complete p m :
  Strconv.ParseBool (Params.Enabled p) = Ok true ->
  incompleteSecurityConfig p = None ->
  forall digest : bool,
    Params.Type_ p = (if digest then "digest" else "basic") ->
    handleSecurityEndpointsParams (Some p) (JObject m)
      = (securityEnabled p digest m, Ok tt).
Proof.
  intros Hb Hc digest Ht.
  rewrite (handleSecurity_true _ (JObject m) _ Hb eq_refl).
  rewrite (setSecurityEndpointsParams_complete _ (JObject _) _ Hc eq_refl).
  destruct digest.
  - now apply setEndpointSecurityType_digest.
  - now apply setEndpointSecurityType_basic.
Qed.

Lemma securityDisabled_twice m :
  securityDisabled
    (<["endpointUTPassword" := JString ""]>
       (<["endpointUTUsername" := JString ""]>
          (<["endpointSecured" := JBool false]> m)))
  = securityDisabled m.
Proof.
  unfold securityDisabled. f_equal. apply map_eq. intros k.
  rewrite !lookup_insert. repeat case_decide; congruence.
Qed.

Lemma securityEnabled_twice p digest m :
  securityEnabled p digest
    (<["endpointAuthDigest" := JBool digest]>
       (<["endpointUTPassword" := JString (Params.Password p)]>
          (<["endpointUTUsername" := JString (Params.Username p)]>
             (<["endpointSecured" := JBool true]> m))))
  = securityEnabled p digest m.
Proof.
  unfold securityEnabled. f_equal. apply map_eq. intros k.
  rewrite !lookup_insert. repeat case_decide; congruence.
Qed.

(** X6. The security step is idempotent: when it succeeds on a definition,
    it succeeds again on the definition that it has produced and leaves it
    as it is. *)
Theorem security_override_idempotent :
  forall sec api api',
    handleSecurityEndpointsParams sec api = (api', Ok tt) ->
    handleSecurityEndpointsParams sec api' = (api', Ok tt).
Proof.
  intros sec api api' H.
  destruct sec as [p|]; [|reflexivity].
  destruct (decide (Params.Enabled p = "")) as [He|He].
  { apply handleSecurity_unset. eauto. }
  destruct (Strconv.ParseBool (Params.Enabled p)) as [b|e] eqn:Hb.
  2:{ rewrite (handleSecurity_unparsable _ _ _ He Hb) in H. discriminate. }
  destruct (Gabs.as_map api) as [m|] eqn:Hm.
  2:{ rewrite (handleSecurity_collision _ _ _ Hb Hm) in H. discriminate. }
  destruct b.
  - rewrite (handleSecurity_true _ _ _ Hb Hm) in H.
    destruct (incompleteSecurityConfig p) as [e|] eqn:Hc.
    { rewrite (setSecurityEndpointsParams_incomplete _ _ _ Hc) in H.
      discriminate. }
    rewrite (setSecurityEndpointsParams_complete _ (JObject _) _ Hc eq_refl)
      in H.
    destruct (decide (Params.Type_ p = "digest")) as [Hd|Hd];
      [|destruct (decide (Params.Type_ p = "basic")) as [Hbs|Hbs]].
    + rewrite (setEndpointSecurityType_digest _ (JObject _) _ Hd eq_refl) in H.
      injection H as <-.
      rewrite (handleSecurity_complete _ _ Hb Hc true Hd).
      now rewrite securityEnabled_twice.
    + rewrite (setEndpointSecurityType_basic _ (JObject _) _ Hbs eq_refl) in H.
      injection H as <-.
      rewrite (handleSecurity_complete _ _ Hb Hc false Hbs).
      now rewrite securityEnabled_twice.
    + rewrite (setEndpointSecurityType_other _ _ Hd Hbs) in H. discriminate.
  - rewrite (handleSecurity_false _ _ _ Hb Hm) in H. injection H as <-.
    unfold securityDisabled at 1.
    rewrite (handleSecurity_false _ (JObject _) _ Hb eq_refl).
    now rewrite securityDisabled_twice.
Qed.

Lemma security_override_idempotent_witness :
  let sec := Some {| Params.Enabled := "true"; Params.Username := "admin";
                     Params.Password := "secret"; Params.Type_ := "basic" |} in
  exists api',
    handleSecurityEndpointsParams sec (JObject ∅) = (api', Ok tt) /\
    handleSecurityEndpointsParams sec api' = (api', Ok tt).
Proof.
  intros sec.
  assert (handleSecurityEndpointsParams sec (JObject ∅)
          = (securityEnabled
               {| Params.Enabled := "true"; Params.Username := "admin";
                  Params.Password := "secret"; Params.Type_ := "basic" |}
               false ∅, Ok tt)) as H.
  { apply handleSecurity_complete; reflexivity. }
  eexists. split; [exact H|].
  exact (security_override_idempotent _ _ _ H).
Defined.

(** X7. On a definition that is a JSON object the security step succeeds
    exactly for the overrides that are unset, disabled, or enabled with a
    user name, a password and the type [digest] or [basic].  Whatever the
    outcome, the definition it leaves is an object that differs from the
    given one on the four security keys at most; and an enabled override
    has set [endpointSecured] to true even when the step fails. *)
Theorem security_override_outcomes :
  forall sec m,
    exists m',
      fst (handleSecurityEndpointsParams sec (JObject m)) = JObject m' /\
      (forall k, ~ securityKey k -> m' !! k = m !! k) /\
      (snd (handleSecurityEndpointsParams sec (JObject m)) = Ok tt <->
       acceptedSecurity sec = true) /\
      (forall p, sec = Some p ->
         Strconv.ParseBool (Params.Enabled p) = Ok true ->
         m' !! "endpointSecured" = Some (JBool true)).
Proof.
  intros sec m.
  assert (forall m0 : gmap string JSON,
            (forall k, ~ securityKey k -> m0 !! k = m0 !! k)) as Hrefl
    by reflexivity.
  destruct sec as [p|].
  2:{ exists m. cbn. repeat split; auto. discriminate. }
  unfold acceptedSecurity.
  destruct (decide (Params.Enabled p = "")) as [He|He].
  { rewrite handleSecurity_unset by eauto.
    rewrite (bool_decide_eq_true_2 _ He). exists m. cbn.
    repeat split; auto. intros q [= <-] Hb. rewrite He in Hb. discriminate. }
  rewrite (bool_decide_eq_false_2 _ He). cbn [orb].
  destruct (Strconv.ParseBool (Params.Enabled p)) as [[|]|e] eqn:Hb.
  - destruct (incompleteSecurityConfig p) as [e|] eqn:Hc.
    { rewrite (handleSecurity_true _ (JObject m) _ Hb eq_refl).
      rewrite (setSecurityEndpointsParams_incomplete _ _ _ Hc).
      eexists. cbn [fst snd]. split; [reflexivity|]. split; [|split].
      - intros k Hk. unfold securityKey in Hk.
        rewrite !lookup_insert_ne by (intros <-; tauto). reflexivity.
      - rewrite bool_decide_eq_false_2 by discriminate. cbn.
        split; discriminate.
      - intros _ _ _. apply lookup_insert_eq. }
    rewrite (bool_decide_eq_true_2 _ eq_refl). cbn [andb].
    destruct (decide (Params.Type_ p = "digest")) as [Hd|Hd];
      [|destruct (decide (Params.Type_ p = "basic")) as [Hbs|Hbs]].
    + rewrite (handleSecurity_complete _ _ Hb Hc true Hd).
      rewrite (bool_decide_eq_true_2 _ Hd).
      eexists. cbn [fst snd]. split; [reflexivity|]. split; [|split].
      * intros k Hk. unfold securityKey in Hk.
        rewrite !lookup_insert_ne by (intros <-; tauto). reflexivity.
      * now split.
      * intros _ _ _. rewrite !lookup_insert_ne by discriminate.
        apply lookup_insert_eq.
    + rewrite (handleSecurity_complete _ _ Hb Hc false Hbs).
      rewrite (bool_decide_eq_true_2 _ Hbs), orb_true_r.
      eexists. cbn [fst snd]. split; [reflexivity|]. split; [|split].
      * intros k Hk. unfold securityKey in Hk.
        rewrite !lookup_insert_ne by (intros <-; tauto). reflexivity.
      * now split.
      * intros _ _ _. rewrite !lookup_insert_ne by discriminate.
        apply lookup_insert_eq.
    + rewrite (handleSecurity_invalid_type _ _ Hb Hc Hd Hbs).
      rewrite (bool_decide_eq_false_2 _ Hd), (bool_decide_eq_false_2 _ Hbs).
      eexists. cbn [fst snd]. split; [reflexivity|]. split; [|split].
      * intros k Hk. unfold securityKey in Hk.
        rewrite !lookup_insert_ne by (intros <-; tauto). reflexivity.
      * cbn. split; discriminate.
      * intros _ _ _. rewrite !lookup_insert_ne by discriminate.
        apply lookup_insert_eq.
  - rewrite (handleSecurity_false _ (JObject m) _ Hb eq_refl).
    eexists. cbn [fst snd]. split; [reflexivity|]. split; [|split].
    + intros k Hk. unfold securityKey in Hk.
      rewrite !lookup_insert_ne by (intros <-; tauto). reflexivity.
    + now split.
    + intros q [= <-] Hq. rewrite Hq in Hb. discriminate.
  - rewrite (handleSecurity_unparsable _ _ _ He Hb).
    exists m. cbn [fst snd]. split; [reflexivity|]. split; [|split].
    + auto.
    + split; discriminate.
    + intros q [= <-] Hq. rewrite Hq in Hb. discriminate.
Qed.

Lemma security_override_outcomes_witness :
  let p := {| Params.Enabled := "true"; Params.Username := "admin";
              Params.Password := ""; Params.Type_ := "basic" |} in
  exists m',
    fst (handleSecurityEndpointsParams (Some p) (JObject ∅)) = JObject m' /\
    snd (handleSecurityEndpointsParams (Some p) (JObject ∅)) <> Ok tt /\
    m' !! "endpointSecured" = Some (JBool true).
Proof.
  intros p.
  destruct (security_override_outcomes (Some p) ∅)
    as (m' & Hfst & _ & Hok & Hsec).
  exists m'. split; [exact Hfst|]. split.
  - intros H. apply Hok in H. discriminate.
  - apply (Hsec p); reflexivity.
Defined.

(** ** The filters of the catalog *)

Lemma upperhex_urlSafe c :
  urlSafe (Url.upperhex (Z.shiftr (b2z c) 4)) = true /\
  urlSafe (Url.upperhex (Z.land (b2z c) 15)) = true.
Proof.
  destruct c as [[] [] [] [] [] [] [] []]; split; vm_compute; reflexivity.
Qed.

Lemma escape_urlSafe s : forallb urlSafe (Url.escape s) = true.
Proof.
  induction s as [|c s IH]; [reflexivity|].
  cbn [Url.escape].
  destruct (byte_eqb c " "); [cbn [forallb]; now rewrite IH|].
  destruct (Url.shouldEscape c) eqn:Hc; cbn [forallb]; rewrite IH.
  - destruct (upperhex_urlSafe c) as [-> ->]. reflexivity.
  - unfold urlSafe. now rewrite Hc.
Qed.

Lemma QueryEscape_urlSafe s :
  forallb urlSafe (to_bytes (Url.QueryEscape s)) = true.
Proof. unfold Url.QueryEscape. rewrite to_of_bytes. apply escape_urlSafe. Qed.

(** X8. The catalog is only ever queried with an escaped filter: the
    filters of [getApiID] and [getApiProductID] consist of unreserved
    characters, percent signs and plus signs, so that two platforms whose
    catalogs agree on such filters give the same result for every name and
    version, whatever these contain. *)
Theorem catalog_is_queried_with_escaped_filters :
  forall P1 P2 : Platform,
    (forall token env q limit,
       forallb urlSafe (to_bytes q) = true ->
       @GetAPIListFromEnv P1 token env q limit
         = @GetAPIListFromEnv P2 token env q limit) ->
    (forall token env q limit,
       forallb urlSafe (to_bytes q) = true ->
       @GetAPIProductListFromEnv P1 token env q limit
         = @GetAPIProductListFromEnv P2 token env q limit) ->
    @DefaultApiProductType P1 = @DefaultApiProductType P2 ->
    forall token env name version,
      forallb urlSafe (to_bytes (apiQuery name version)) = true /\
      forallb urlSafe (to_bytes (@apiProductQuery P1 name version)) = true /\
      @getApiID P1 token env name version
        = @getApiID P2 token env name version /\
      @getApiProductID P1 name version env token
        = @getApiProductID P2 name version env token.
Proof.
  intros P1 P2 Hapi Hprod Htype token env name version.
  split; [apply QueryEscape_urlSafe|].
  split; [apply QueryEscape_urlSafe|].
  split.
  - unfold getApiID. now rewrite Hapi by apply QueryEscape_urlSafe.
  - unfold getApiProductID.
    rewrite Hprod by apply QueryEscape_urlSafe. now rewrite Htype.
Qed.

(** ** Further properties of the pipeline on every platform *)

Section PipelineCoverage.

Context {P : Platform}.

(** X9. The lookups that an update makes, beside the two that select the
    create and the update URL: a failure of the catalog is returned and
    nothing is uploaded or printed; a non-zero count with an empty list is
    an index out of range; and a first match without an identifier selects
    the create URL.  The same holds for API products. *)
Theorem dispatch_lookup_edge_cases :
  (forall accessOAuthToken adminEndpoint importEnvironment apiInfo apiFilePath
          preserveProvider,
     let dispatch :=
       ImportAPI_dispatch accessOAuthToken adminEndpoint importEnvironment
         apiInfo apiFilePath true preserveProvider in
     let answer :=
       GetAPIListFromEnv accessOAuthToken importEnvironment
         (apiQuery (V2.APIName (V2.Id apiInfo)) (V2.Version (V2.Id apiInfo)))
         "" in
     (forall err, answer = Err err -> dispatch = ([], Some err)) /\
     (forall count, count <> 0%Z -> answer = Ok (count, []) ->
        dispatch = ([], Some (RuntimePanic "index out of range"))) /\
     (forall count a rest, count <> 0%Z -> answer = Ok (count, a :: rest) ->
        Utils.ID a = "" ->
        dispatch
          = importAPI (createURL adminEndpoint preserveProvider) "POST"
              apiFilePath accessOAuthToken ∅)) /\
  (forall accessOAuthToken adminEndpoint importEnvironment apiProductInfo
          apiProductFilePath importAPIs importAPIsUpdate importAPIProductUpdate
          preserveProvider,
     importAPIsUpdate || importAPIProductUpdate = true ->
     let dispatch :=
       ImportAPIProduct_dispatch accessOAuthToken adminEndpoint
         importEnvironment apiProductInfo apiProductFilePath importAPIs
         importAPIsUpdate importAPIProductUpdate preserveProvider in
     let answer :=
       GetAPIProductListFromEnv accessOAuthToken importEnvironment
         (apiProductQuery
            (V2Product.APIProductName (V2Product.Id apiProductInfo))
            (V2Product.Version (V2Product.Id apiProductInfo)))
         "" in
     (forall err, answer = Err err -> dispatch = ([], Some err)) /\
     (forall count, count <> 0%Z -> answer = Ok (count, []) ->
        dispatch = ([], Some (RuntimePanic "index out of range"))) /\
     (forall count a rest, count <> 0%Z -> answer = Ok (count, a :: rest) ->
        Utils.ID a = "" ->
        dispatch
          = importAPIProduct
              (productURL adminEndpoint preserveProvider
                 (importAPIs || importAPIsUpdate) importAPIsUpdate false)
              "POST" apiProductFilePath accessOAuthToken ∅)).
Proof.
  split.
  - intros token admin env apiInfo file pp dispatch answer.
    subst dispatch answer. unfold ImportAPI_dispatch, getApiID, apiQuery.
    split; [|split].
    + intros err ->. reflexivity.
    + intros count Hc ->. apply Z.eqb_neq in Hc. now rewrite Hc.
    + intros count a rest Hc -> Hid. apply Z.eqb_neq in Hc. rewrite Hc.
      rewrite (bool_decide_eq_true_2 _ Hid). cbv zeta.
      now rewrite createURL_eq.
  - intros token admin env info file importAPIs importAPIsUpdate
      importAPIProductUpdate pp Hupd dispatch answer.
    subst dispatch answer. unfold ImportAPIProduct_dispatch, getApiProductID.
    rewrite Hupd. cbv zeta. rewrite apiProductQuery_eq.
    split; [|split].
    + intros err ->. reflexivity.
    + intros count Hc ->. apply Z.eqb_neq in Hc. now rewrite Hc.
    + intros count a rest Hc -> Hid. apply Z.eqb_neq in Hc. rewrite Hc.
      rewrite (bool_decide_eq_true_2 _ Hid).
      now rewrite <- productURL_eq.
Qed.

(** X10. An upload returns no error exactly when the transport has
    answered with the status 200 or 201, and it prints nothing exactly when
    the transport has failed.  The upload of an API and the upload of an
    API product return the same error. *)
Theorem upload_succeeds_iff_200_or_201 :
  forall endpoint httpMethod filePath token extraParams,
    let req := {| uri := endpoint; method := httpMethod;
                  params := extraParams; paramName := "file";
                  path := filePath; accessToken := token |} in
    let run := importAPI endpoint httpMethod filePath token extraParams in
    (snd run = None <->
     exists resp, Transport req = Ok resp /\
                  (StatusCode resp = 200%Z \/ StatusCode resp = 201%Z)) /\
    (fst run = [] <-> exists err, Transport req = Err err) /\
    snd (importAPIProduct endpoint httpMethod filePath token extraParams)
      = snd run.
Proof.
  intros endpoint httpMethod filePath token extraParams req run.
  subst req run. unfold importAPI, importAPIProduct, importWith.
  destruct (Transport _) as [resp|err].
  - unfold StatusCreated, StatusOK.
    destruct (StatusCode resp =? 201)%Z eqn:E1;
      [|destruct (StatusCode resp =? 200)%Z eqn:E2]; cbn [orb fst snd].
    + apply Z.eqb_eq in E1. repeat split; try discriminate; eauto.
      intros [err H]. discriminate.
    + apply Z.eqb_eq in E2. repeat split; try discriminate; eauto.
      intros [err H]. discriminate.
    + apply Z.eqb_neq in E1, E2.
      destruct (Body resp) as [body|err]; cbn [fst snd];
        (split; [split; [discriminate | intros (r & [= <-] & [H|H]); lia]|]);
        (split; [split; [discriminate | intros [e H]; discriminate] |
                 reflexivity]).
  - cbn [fst snd]. repeat split; try discriminate; eauto.
    intros (r & H & _). discriminate.
Qed.

(** ** The definition file *)

(** X11. Looking for the definition file never changes the file system.
    The file that is found is a regular file with the given base name and
    the extension [yaml] or [json]; the JSON file is only looked at when
    there is no regular YAML file, so that a YAML file that cannot be read
    or converted is an error even beside a good JSON file. *)
Theorem resolveYamlOrJson_prefers_yaml :
  forall filename fs,
    let yamlFp := filename +:+ ".yaml" in
    let jsonFp := filename +:+ ".json" in
    fst (resolveYamlOrJson filename fs) = fs /\
    (forall fn content,
       snd (resolveYamlOrJson filename fs) = Ok (fn, content) ->
       isFile fn fs = true /\
       ((fn = yamlFp /\
         exists y, ReadFile fn fs = Ok y /\ YamlToJson y = Ok content) \/
        (fn = jsonFp /\ isFile yamlFp fs = false /\
         ReadFile fn fs = Ok content))) /\
    (isFile yamlFp fs = true ->
     forall e,
       (ReadFile yamlFp fs = Err e \/
        exists y, ReadFile yamlFp fs = Ok y /\ YamlToJson y = Err e) ->
       snd (resolveYamlOrJson filename fs) = Err e) /\
    (isFile yamlFp fs = false -> isFile jsonFp fs = false ->
     snd (resolveYamlOrJson filename fs)
       = Err (errors_New (filename +:+ " was not found as a YAML or JSON"))).
Proof.
  intros filename fs yamlFp jsonFp.
  split; [apply readonly_resolveYamlOrJson|].
  unfold resolveYamlOrJson. fold yamlFp jsonFp.
  unfold bind, reading, lift, ret, fail.
  destruct (isFile yamlFp fs) eqn:Hy; [|destruct (isFile jsonFp fs) eqn:Hj].
  - split; [|split; [|discriminate]].
    + intros fn content H.
      destruct (ReadFile yamlFp fs) as [y|e] eqn:Hr; [|discriminate].
      destruct (YamlToJson y) as [j|e] eqn:Hconv; [|discriminate].
      cbn in H. injection H as <- <-. split; [exact Hy|]. left.
      split; [reflexivity|]. exists y. auto.
    + intros _ e [Hr | (y & Hr & Hc)]; rewrite Hr; [reflexivity|].
      now rewrite Hc.
  - split; [|split; [discriminate|discriminate]].
    intros fn content H.
    destruct (ReadFile jsonFp fs) as [j|e] eqn:Hr; [|discriminate].
    cbn in H. injection H as <- <-. split; [exact Hj|]. right. auto.
  - split; [discriminate|]. split; [discriminate|]. reflexivity.
Qed.

(** ** The fields that the merge keeps *)

Lemma mergeAPI_Ok_inv apiDirectory environmentParams fs fs' :
  mergeAPI apiDirectory environmentParams fs = (fs', Ok tt) ->
  exists r api0 m epd cfg merged api content,
    snd (resolveYamlOrJson
           (Filepath.Join [apiDirectory; "Meta-information"; "api"]) fs)
      = Ok r /\
    ParseJSON (snd r) = Ok api0 /\
    Gabs.as_map api0 = Some m /\
    ExtractAPIEndpointConfig (Bytes api0) = Ok epd /\
    Marshal (Params.Endpoints environmentParams) = Ok cfg /\
    MergeJSON epd cfg = Ok merged /\
    handleSecurityEndpointsParams (Params.Security environmentParams)
      (JObject
         (match Params.GatewayEnvironments environmentParams with
          | Some envs =>
            <["environments" := JArray (JString <$> envs)]>
              (<["endpointConfig" := JString merged]> m)
          | None => <["endpointConfig" := JString merged]> m
          end)) = (api, Ok tt) /\
    JsonToYaml (Bytes api) = Ok content /\
    WriteFile (Filepath.Join [apiDirectory; "Meta-information"; "api.yaml"])
      content fs = (fs', Ok tt).
Proof.
  unfold mergeAPI. intros H.
  apply bind_inv in H as [(e & _ & He) | (s1 & r & Hm & H)]; [discriminate|].
  pose proof (readonly_eq _ _ _ _ (readonly_resolveYamlOrJson _) Hm) as ->.
  assert (snd (resolveYamlOrJson
                 (Filepath.Join [apiDirectory; "Meta-information"; "api"]) fs)
          = Ok r) as Hres by now rewrite Hm.
  clear Hm.
  apply bind_inv in H as [(e & _ & He) | (s1 & api0 & Hm & H)]; [discriminate|].
  apply lift_inv in Hm as [-> Hparse].
  apply bind_inv in H as [(e & _ & He) | (s1 & epd & Hm & H)]; [discriminate|].
  apply lift_inv in Hm as [-> Hepd].
  apply bind_inv in H as [(e & _ & He) | (s1 & cfg & Hm & H)]; [discriminate|].
  apply lift_inv in Hm as [-> Hcfg].
  apply bind_inv in H as [(e & _ & He) | (s1 & merged & Hm & H)];
    [discriminate|].
  apply lift_inv in Hm as [-> Hmerged].
  apply bind_inv in H as [(e & _ & He) | (s1 & api1 & Hm & H)]; [discriminate|].
  apply on_Ok_inv in Hm as [-> Hset].
  apply (SetP_key_inv _ _ _ _ plain_endpointConfig) in Hset as (m & Hmap & ->).
  apply bind_inv in H as [(e & _ & He) | (s1 & api2 & Hm & H)]; [discriminate|].
  assert (s1 = fs /\
          api2 = JObject
                   (match Params.GatewayEnvironments environmentParams with
                    | Some envs =>
                      <["environments" := JArray (JString <$> envs)]>
                        (<["endpointConfig" := JString merged]> m)
                    | None => <["endpointConfig" := JString merged]> m
                    end)) as [-> ->].
  { destruct (Params.GatewayEnvironments environmentParams) as [envs|].
    - apply on_Ok_inv in Hm as [-> Hset].
      apply (SetP_key_inv _ _ _ _ plain_environments) in Hset
        as (m' & Hm' & ->).
      injection Hm' as <-. auto.
    - injection Hm as <- <-. auto. }
  clear Hm.
  apply bind_inv in H as [(e & _ & He) | (s1 & api3 & Hm & H)]; [discriminate|].
  apply on_Ok_inv in Hm as [-> Hsec].
  apply bind_inv in H as [(e & _ & He) | (s1 & content & Hm & H)];
    [discriminate|].
  apply lift_inv in Hm as [-> Hyaml].
  exists r, api0, m, epd, cfg, merged, api3, content. auto 10.
Qed.

(** X12. A successful merge writes the loaded definition with, at most,
    these fields changed: [endpointConfig], the four security fields and,
    when the parameters list gateway environments, [environments], which
    is then replaced by that list.  Every other field of the definition is
    written as it was loaded. *)
Theorem merge_keeps_other_fields :
  forall apiDirectory (environmentParams : Params.Environment EndpointData)
         fs fs',
    mergeAPI apiDirectory environmentParams fs = (fs', Ok tt) ->
    exists r api0 m m' content,
      snd (resolveYamlOrJson
             (Filepath.Join [apiDirectory; "Meta-information"; "api"]) fs)
        = Ok r /\
      ParseJSON (snd r) = Ok api0 /\
      Gabs.as_map api0 = Some m /\
      JsonToYaml (Bytes (JObject m')) = Ok content /\
      WriteFile (Filepath.Join [apiDirectory; "Meta-information"; "api.yaml"])
        content fs = (fs', Ok tt) /\
      (forall k, k <> "endpointConfig" -> k <> "environments" ->
                 ~ securityKey k -> m' !! k = m !! k) /\
      m' !! "environments"
        = match Params.GatewayEnvironments environmentParams with
          | Some envs => Some (JArray (JString <$> envs))
          | None => m !! "environments"
          end.
Proof.
  intros apiDirectory environmentParams fs fs' H.
  destruct (mergeAPI_Ok_inv _ _ _ _ H)
    as (r & api0 & m & epd & cfg & merged & api & content & Hres & Hparse &
        Hmap & _ & _ & _ & Hsec & Hyaml & Hwrite).
  destruct (handleSecurity_frame _ _ _ Hsec) as (m' & -> & Hframe).
  exists r, api0, m, m', content.
  repeat (split; [assumption|]).
  assert (~ securityKey "environments") as Henv.
  { unfold securityKey. intros [H1|[H1|[H1|H1]]]; discriminate H1. }
  split.
  - intros k Hk1 Hk2 Hk. rewrite (Hframe k Hk).
    destruct (Params.GatewayEnvironments environmentParams);
      now rewrite !lookup_insert_ne by congruence.
  - rewrite (Hframe _ Henv).
    destruct (Params.GatewayEnvironments environmentParams).
    + apply lookup_insert_eq.
    + now rewrite lookup_insert_ne by discriminate.
Qed.

(** ** The pre-processing of a definition *)

Lemma preProcessAPI_unresolved apiDirectory fs e :
  snd (resolveYamlOrJson
         (Filepath.Join [apiDirectory; "Meta-information"; "api"]) fs)
    = Err e ->
  preProcessAPI apiDirectory fs = (fs, Err e).
Proof.
  intros Hres. unfold preProcessAPI.
  destruct (resolveYamlOrJson
              (Filepath.Join [apiDirectory; "Meta-information"; "api"]) fs)
    as [fs1 r1] eqn:Hr.
  pose proof (readonly_eq _ _ _ _ (readonly_resolveYamlOrJson _) Hr) as ->.
  simpl in Hres. subst r1. now rewrite (bind_Err _ _ _ _ _ Hr).
Qed.

Lemma preProcessAPI_parsed apiDirectory fs r :
  snd (resolveYamlOrJson
         (Filepath.Join [apiDirectory; "Meta-information"; "api"]) fs)
    = Ok r ->
  (forall e, ParseJSON (snd r) = Err e ->
             preProcessAPI apiDirectory fs = (fs, Err e)) /\
  (forall api, ParseJSON (snd r) = Ok api ->
               Gabs.Exists ["endpointConfig"] api = true ->
               preProcessAPI apiDirectory fs = (fs, Ok tt)).
Proof.
  intros Hres.
  destruct (resolveYamlOrJson
              (Filepath.Join [apiDirectory; "Meta-information"; "api"]) fs)
    as [fs1 r1] eqn:Hr.
  pose proof (readonly_eq _ _ _ _ (readonly_resolveYamlOrJson _) Hr) as ->.
  simpl in Hres. subst r1. split.
  - intros e Hparse. unfold preProcessAPI.
    rewrite (bind_Ok _ _ _ _ _ Hr). cbv zeta.
    unfold bind at 1. unfold lift. now rewrite Hparse.
  - intros api Hparse Hex. unfold preProcessAPI.
    rewrite (bind_Ok _ _ _ _ _ Hr). cbv zeta.
    rewrite (bind_lift_Ok _ _ _ _ Hparse). rewrite Hex. reflexivity.
Qed.

Lemma Exists_key k (m : gmap string JSON) :
  Gabs.Exists [k] (JObject m) = bool_decide (is_Some (m !! k)).
Proof.
  unfold Gabs.Exists. rewrite Search_key. destruct (m !! k).
  - now rewrite bool_decide_eq_true_2 by eauto.
  - rewrite bool_decide_eq_false_2; [reflexivity|]. now intros [? ?].
Qed.

Lemma withoutLegacyUrl_object field (m : gmap string JSON) :
  withoutLegacyUrl field (JObject m) = JObject (delete field m).
Proof.
  unfold withoutLegacyUrl. rewrite Exists_key.
  destruct (m !! field) as [v|] eqn:Hf.
  - rewrite bool_decide_eq_true_2 by eauto.
    unfold deleteIgnoringError. cbn [Gabs.Delete]. now rewrite Hf.
  - rewrite bool_decide_eq_false_2 by now intros [? ?].
    now rewrite delete_id.
Qed.

(** X13. The pre-processing writes at most once, as its last step: a run
    leaves the file system as it was, or ends with the write of the
    definition file.  A definition that has an [endpointConfig] is left
    alone, with its legacy fields if it has any.  For a definition that is
    an object without [endpointConfig], the definition that is written has
    an [endpointConfig], has neither [productionUrl] nor [sandboxUrl], and
    has every other field as it was loaded. *)
Theorem preprocess_rewrites_only_legacy_definitions :
  forall apiDirectory fs,
    let apiPath := Filepath.Join [apiDirectory; "Meta-information"; "api"] in
    let yamlApiPath :=
      Filepath.Join [apiDirectory; "Meta-information"; "api.yaml"] in
    (forall fs' res,
       preProcessAPI apiDirectory fs = (fs', res) ->
       fs' = fs \/ exists content, WriteFile yamlApiPath content fs = (fs', res)) /\
    (forall r api,
       snd (resolveYamlOrJson apiPath fs) = Ok r ->
       ParseJSON (snd r) = Ok api ->
       Gabs.Exists ["endpointConfig"] api = true ->
       preProcessAPI apiDirectory fs = (fs, Ok tt)) /\
    (forall r m fs',
       snd (resolveYamlOrJson apiPath fs) = Ok r ->
       ParseJSON (snd r) = Ok (JObject m) ->
       m !! "endpointConfig" = None ->
       preProcessAPI apiDirectory fs = (fs', Ok tt) ->
       exists m' content,
         JsonToYaml (Bytes (JObject m')) = Ok content /\
         WriteFile yamlApiPath content fs = (fs', Ok tt) /\
         is_Some (m' !! "endpointConfig") /\
         m' !! "productionUrl" = None /\
         m' !! "sandboxUrl" = None /\
         forall k, k <> "endpointConfig" -> k <> "productionUrl" ->
                   k <> "sandboxUrl" -> m' !! k = m !! k).
Proof.
  intros apiDirectory fs apiPath yamlApiPath. split; [|split].
  - intros fs' res H.
    destruct (snd (resolveYamlOrJson apiPath fs)) as [r|e] eqn:Hres.
    2:{ rewrite (preProcessAPI_unresolved _ _ _ Hres) in H.
        injection H as <- _. now left. }
    destruct (preProcessAPI_parsed _ _ _ Hres) as [Herr Hskip].
    destruct (ParseJSON (snd r)) as [api|e] eqn:Hparse.
    2:{ rewrite (Herr _ eq_refl) in H. injection H as <- _. now left. }
    destruct (Gabs.Exists ["endpointConfig"] api) eqn:Hex.
    { rewrite (Hskip _ eq_refl Hex) in H. injection H as <- _. now left. }
    rewrite (preProcessAPI_legacy _ _ _ _ Hres Hparse Hex) in H.
    destruct (Gabs.SetP _ _ _) as [api'|e].
    2:{ injection H as <- _. now left. }
    destruct (JsonToYaml _) as [content|e].
    2:{ injection H as <- _. now left. }
    right. now exists content.
  - intros r api Hres Hparse Hex.
    exact (proj2 (preProcessAPI_parsed _ _ _ Hres) api Hparse Hex).
  - intros r m fs' Hres Hparse Hnone H.
    assert (Gabs.Exists ["endpointConfig"] (JObject m) = false) as Hex.
    { rewrite Exists_key, bool_decide_eq_false_2; [reflexivity|].
      rewrite Hnone. now intros [? ?]. }
    rewrite (preProcessAPI_legacy _ _ _ _ Hres Hparse Hex) in H.
    rewrite !withoutLegacyUrl_object in H.
    rewrite (Gabs_SetP_key _ _ (JObject _) _ plain_endpointConfig eq_refl)
      in H.
    destruct (JsonToYaml _) as [content|e] eqn:Hyaml; [|discriminate].
    eexists _, content. split; [exact Hyaml|]. split; [exact H|].
    split; [rewrite lookup_insert_eq; eauto|].
    split; [|split].
    + rewrite lookup_insert_ne by discriminate.
      rewrite lookup_delete_ne by discriminate. apply lookup_delete_eq.
    + rewrite lookup_insert_ne by discriminate. apply lookup_delete_eq.
    + intros k H1 H2 H3.
      rewrite lookup_insert_ne by congruence.
      now rewrite !lookup_delete_ne by congruence.
Qed.

End PipelineCoverage.

(** ** Sample runs of the further properties *)

(** X9, at a catalog whose only entry has no identifier. *)
Lemma dispatch_lookup_edge_cases_witness :
  let nameless := {| Utils.ID := ""; Utils.Name := "PizzaShackAPI";
                     Utils.Version := "1.0.0" |} in
  let P0 := samplePlatform [nameless] refusing in
  @ImportAPI_dispatch P0 "token" "https://apim:9443" "dev"
    (pizza "/pizzashack") "/tmp/apim/PizzaShackAPI.zip" true false
  = @importAPI P0 (createURL "https://apim:9443" false) "POST"
      "/tmp/apim/PizzaShackAPI.zip" "token" ∅.
Proof.
  intros nameless P0.
  apply (proj2 (proj2 (proj1 (@dispatch_lookup_edge_cases P0)
                         "token" "https://apim:9443" "dev"
                         (pizza "/pizzashack")
                         "/tmp/apim/PizzaShackAPI.zip" false))
           1%Z nameless []);
    [discriminate | reflexivity | reflexivity].
Defined.

(** X10, at a transport that answers 200. *)
Lemma upload_succeeds_iff_200_or_201_witness :
  let P0 := samplePlatform [] (answering 200 "200 OK") in
  snd (@importAPI P0 "https://apim:9443/import/api" "POST"
         "/tmp/apim/PizzaShackAPI.zip" "token" ∅) = None.
Proof.
  intros P0.
  apply (proj1 (@upload_succeeds_iff_200_or_201 P0
                  "https://apim:9443/import/api" "POST"
                  "/tmp/apim/PizzaShackAPI.zip" "token" ∅)).
  eexists. split; [reflexivity|]. left. reflexivity.
Defined.

(** X11, at a workspace with a YAML definition. *)
Lemma resolveYamlOrJson_prefers_yaml_witness :
  let P0 := samplePlatform [] refusing in
  let base := "/tmp/apim/PizzaShackAPI/Meta-information/api" in
  @isFile P0 (base +:+ ".yaml") (workspace "{}") = true.
Proof.
  intros P0 base.
  apply (proj1 (proj2 (@resolveYamlOrJson_prefers_yaml P0 base
                         (workspace "{}")))
           (base +:+ ".yaml") "{}").
  vm_compute. reflexivity.
Defined.

(** X12, at a merge of gateway environments into a definition with a
    description. *)
Lemma merge_keeps_other_fields_witness :
  let P0 := samplePlatform [] refusing in
  let env : Params.Environment string :=
    {| Params.Name := "dev"; Params.Endpoints := Some "{}";
       Params.Security := None;
       Params.GatewayEnvironments := Some ["Production"];
       Params.Certs := [] |} in
  exists m' : gmap string JSON,
    m' !! "environments" = Some (JArray [JString "Production"]) /\
    m' !! "productionUrl" = Some (JString "http://prod").
Proof.
  intros P0 env.
  destruct (@merge_keeps_other_fields P0 "/tmp/apim/PizzaShackAPI" env
              (workspace "legacy")
              (<["/tmp/apim/PizzaShackAPI/Meta-information/api.yaml" :=
                   "{...}"]> (workspace "legacy")))
    as (r & api0 & m & m' & content & Hres & Hparse & Hmap & _ & _ & Hkeep &
        Henv).
  { vm_compute. reflexivity. }
  exists m'. split; [exact Henv|].
  injection Hres as <-. injection Hparse as <-. injection Hmap as <-.
  rewrite Hkeep; [reflexivity | discriminate | discriminate |].
  unfold securityKey. intros [H|[H|[H|H]]]; discriminate H.
Defined.

(** X13, at a definition with a legacy production URL. *)
Lemma preprocess_rewrites_only_legacy_definitions_witness :
  let P0 := samplePlatform [] refusing in
  exists m' : gmap string JSON,
    is_Some (m' !! "endpointConfig") /\ m' !! "productionUrl" = None.
Proof.
  intros P0.
  destruct (proj2 (proj2 (@preprocess_rewrites_only_legacy_definitions P0
                            "/tmp/apim/PizzaShackAPI" (workspace "legacy")))
              ("/tmp/apim/PizzaShackAPI/Meta-information/api.yaml", "legacy")
              {[ "productionUrl" := JString "http://prod" ]}
              (<["/tmp/apim/PizzaShackAPI/Meta-information/api.yaml" :=
                   "{...}"]> (workspace "legacy")))
    as (m' & content & _ & _ & Hcfg & Hprod & _).
  { vm_compute. reflexivity. }
  { vm_compute. reflexivity. }
  { apply lookup_singleton_ne. discriminate. }
  { vm_compute. reflexivity. }
  exists m'. split; assumption.
Defined.

(** X8, at two platforms that differ by their transport. *)
Lemma catalog_is_queried_with_escaped_filters_witness :
  let P1 := samplePlatform [pizzaEntry] refusing in
  let P2 := samplePlatform [pizzaEntry] (answering 200 "200 OK") in
  @getApiID P1 "token" "dev" "Pizza Shack&co" "1.0.0"
    = @getApiID P2 "token" "dev" "Pizza Shack&co" "1.0.0".
Proof.
  intros P1 P2.
  apply (catalog_is_queried_with_escaped_filters P1 P2
           (fun _ _ _ _ _ => eq_refl) (fun _ _ _ _ _ => eq_refl) eq_refl
           "token" "dev" "Pizza Shack&co" "1.0.0").
Defined.

(** ** The artifact and its parameters on every platform *)

Lemma Join_first (a b : string) :
  a <> "" -> Filepath.Join [a; b] = Path.Clean (a +:+ "/" +:+ b).
Proof.
  intros Ha. cbn [Filepath.Join]. now rewrite (bool_decide_eq_false_2 _ Ha).
Qed.

Lemma splitLoop_cons sep fuel : forall s cur,
  exists piece pieces, Strings.splitLoop fuel s sep cur = piece :: pieces.
Proof.
  induction fuel as [|fuel IH]; intros s cur; [cbn; eauto|].
  destruct s as [|c t]; [cbn; eauto|].
  cbn [Strings.splitLoop]. destruct (prefixb sep (c :: t)); eauto.
Qed.

Lemma Split_slash_cons s : exists root more, Strings.Split s "/" = root :: more.
Proof.
  unfold Strings.Split. change (to_bytes "/") with [Path.slash].
  cbv beta iota.
  destruct (splitLoop_cons [Path.slash] (S (String.length s)) (to_bytes s) [])
    as (piece & pieces & ->).
  cbn [fmap list_fmap]. eauto.
Qed.

Section WorkspaceProperties.

Context {P : Platform} {H : Host P}.

Lemma Abs_IsAbs path fs p :
  (forall wd, Getwd fs = Ok wd -> IsAbs wd = true) ->
  Abs path fs = Ok p -> IsAbs p = true.
Proof.
  intros Hwd. unfold Abs. destruct (IsAbs path) eqn:Hp.
  - intros [= <-]. unfold IsAbs in *. now rewrite Clean_HasPrefix_slash.
  - destruct (Getwd fs) as [wd|e] eqn:Hg; [|discriminate].
    intros [= <-]. specialize (Hwd wd eq_refl). unfold IsAbs in *.
    assert (wd <> "") as Hne by now apply HasPrefix_not_empty.
    rewrite (bool_decide_eq_false_2 _ Hne), Clean_HasPrefix_slash.
    now rewrite HasPrefix_app.
Qed.

(** X14. The artifact is looked for under the export directory only when
    the given path is reported as missing; a path that exists, or whose
    state cannot be told, is resolved as it is.  The path that is returned
    is the absolute path of the one that was found, and it starts with a
    slash whenever the working directory does. *)
Theorem resolved_import_path_is_absolute :
  forall file defaultExportDirectory fs,
    (notExist file fs = None ->
     resolveImportFilePath file defaultExportDirectory fs = Abs file fs) /\
    (forall err err',
       notExist file fs = Some err ->
       notExist (Filepath.Join [defaultExportDirectory; file]) fs = Some err' ->
       resolveImportFilePath file defaultExportDirectory fs = Err err') /\
    (forall p,
       (forall wd, Getwd fs = Ok wd -> IsAbs wd = true) ->
       resolveImportFilePath file defaultExportDirectory fs = Ok p ->
       IsAbs p = true /\
       exists found,
         (found = file \/
          found = Filepath.Join [defaultExportDirectory; file] /\
          is_Some (notExist file fs)) /\
         notExist found fs = None /\
         Abs found fs = Ok p).
Proof.
  intros file dir fs. unfold resolveImportFilePath. split; [|split].
  - now intros ->.
  - intros err err' -> Hsec. cbv zeta. now rewrite Hsec.
  - intros p Hwd Hres.
    destruct (notExist file fs) as [err|] eqn:H1.
    + cbv zeta in Hres.
      destruct (notExist (Filepath.Join [dir; file]) fs) as [err'|] eqn:H2;
        [discriminate|].
      split; [exact (Abs_IsAbs _ _ _ Hwd Hres)|].
      exists (Filepath.Join [dir; file]). split; [right; eauto | auto].
    + split; [exact (Abs_IsAbs _ _ _ Hwd Hres)|].
      exists file. auto.
Qed.

(** X15. The parameters file that is found is a regular file.  A path
    given by the caller is used as it is or not at all; the default name
    is looked for in the import directory, then beside it, then in the
    working directory, and the working directory is not asked for when
    the file is found before. *)
Theorem parameters_file_is_a_regular_file :
  forall importPath paramPath fs,
    let here := Filepath.Join [importPath; ParamFileAPI] in
    let beside := Filepath.Join [Dir importPath; ParamFileAPI] in
    (forall p,
       resolveAPIParamsPath importPath paramPath fs = Ok p ->
       isFile p fs = true /\
       (paramPath <> ParamFileAPI -> p = paramPath) /\
       (paramPath = ParamFileAPI ->
        p = here \/ p = beside \/
        exists wd, Getwd fs = Ok wd /\
                   p = Filepath.Join [wd; ParamFileAPI])) /\
    (paramPath <> ParamFileAPI -> isFile paramPath fs = false ->
     resolveAPIParamsPath importPath paramPath fs
       = Err (errors_New ("could not find " +:+ paramPath))) /\
    (paramPath = ParamFileAPI -> isFile beside fs = true ->
     resolveAPIParamsPath importPath paramPath fs = Ok here \/
     resolveAPIParamsPath importPath paramPath fs = Ok beside).
Proof.
  intros importPath paramPath fs here beside.
  unfold resolveAPIParamsPath. fold here beside. split; [|split].
  - intros p Hres. destruct (bool_decide (paramPath = ParamFileAPI)) eqn:Hd.
    + apply bool_decide_eq_true_1 in Hd.
      assert (isFile p fs = true /\
              (p = here \/ p = beside \/
               exists wd, Getwd fs = Ok wd /\
                          p = Filepath.Join [wd; ParamFileAPI])) as [H1 H2].
      { destruct (Stat importPath fs) as [stat|e];
          [destruct (IsDir stat); [destruct (isFile here fs) eqn:Hh|]|].
        1:{ injection Hres as <-. auto. }
        all: destruct (isFile beside fs) eqn:Hb;
          [injection Hres as <-; auto|];
          destruct (Getwd fs) as [wd|e'] eqn:Hg; [|discriminate];
          cbv zeta in Hres;
          destruct (isFile (Filepath.Join [wd; ParamFileAPI]) fs) eqn:Hw;
          [|discriminate];
          injection Hres as <-; split; [exact Hw|]; right; right; eauto. }
      split; [exact H1|]. split; [congruence | auto].
    + apply bool_decide_eq_false_1 in Hd.
      destruct (isFile paramPath fs) eqn:Hf; [|discriminate].
      injection Hres as <-. split; [exact Hf|]. split; [auto | congruence].
  - intros Hne Hf. rewrite (bool_decide_eq_false_2 _ Hne). now rewrite Hf.
  - intros Heq Hb. rewrite (bool_decide_eq_true_2 _ Heq).
    destruct (Stat importPath fs) as [stat|e];
      [destruct (IsDir stat); [destruct (isFile here fs)|]|];
      rewrite ?Hb; auto.
Qed.

(** X16. In the import of an API, a parameters file that cannot be found
    is an error only for a path that the caller has given: with the
    default name, or with the empty path, the search may fail in any way
    and the import goes on without parameters and without touching the
    workspace.  When the file is found it is injected into the workspace,
    not into the artifact that was given. *)
Theorem missing_default_parameters_are_not_an_error :
  forall resolvedApiFilePath apiFilePath apiParamsPath importEnvironment fs,
    let inject :=
      ImportAPI_inject resolvedApiFilePath apiFilePath apiParamsPath
        importEnvironment fs in
    (forall e,
       resolveAPIParamsPath resolvedApiFilePath apiParamsPath fs = Err e ->
       (apiParamsPath = ParamFileAPI \/ apiParamsPath = "" ->
        inject = (fs, Ok [])) /\
       (apiParamsPath <> ParamFileAPI -> apiParamsPath <> "" ->
        inject = (fs, Err e))) /\
    (forall paramsPath,
       resolveAPIParamsPath resolvedApiFilePath apiParamsPath fs
         = Ok paramsPath ->
       paramsPath <> "" ->
       inject = injectParamsToAPI apiFilePath paramsPath importEnvironment fs).
Proof.
  intros resolved apiFilePath apiParamsPath env fs inject. subst inject.
  unfold ImportAPI_inject. split.
  - intros e ->. split.
    + intros [Hd | He].
      * now rewrite (bool_decide_eq_true_2 _ Hd).
      * rewrite (bool_decide_eq_true_2 (apiParamsPath = "") He).
        now rewrite andb_false_r.
    + intros Hd He.
      now rewrite (bool_decide_eq_false_2 _ Hd), (bool_decide_eq_false_2 _ He).
  - intros paramsPath -> Hne. now rewrite (bool_decide_eq_false_2 _ Hne).
Qed.

(** X17. A workspace is the copy of a directory, placed in the temporary
    directory under the base name of the artifact, or the root of an
    archive extracted into the temporary directory: the first element of
    the cleaned name of the first file.  An archive without files is
    rejected once it has been extracted, and the temporary directory is
    then what the extraction has left. *)
Theorem workspace_is_copied_or_extracted :
  forall file fs,
    (forall fs' dest,
       getTempApiDirectory file fs = (fs', Ok dest) ->
       exists fs1 tmpDir info,
         TempDir "" "apim" fs = (fs1, Ok tmpDir) /\
         Stat file fs1 = Ok info /\
         ((IsDir info = true /\
           dest = Filepath.Join [tmpDir; Base file] /\
           CopyDir file dest fs1 = (fs', Ok tt)) \/
          (IsDir info = false /\
           exists first files root more,
             Unzip file tmpDir fs1 = (fs', Ok (first :: files)) /\
             Strings.Split (Path.Clean (TrimPrefix first file)) "/"
               = root :: more /\
             dest = Filepath.Join [tmpDir; root]))) /\
    (forall fs1 tmpDir info fs2,
       TempDir "" "apim" fs = (fs1, Ok tmpDir) ->
       Stat file fs1 = Ok info -> IsDir info = false ->
       Unzip file tmpDir fs1 = (fs2, Ok []) ->
       getTempApiDirectory file fs
         = (fs2, Err (errors_New "invalid API archive"))).
Proof.
  intros file fs. unfold getTempApiDirectory. split.
  - intros fs' dest Hres.
    destruct (TempDir "" "apim" fs) as [fs1 [tmpDir|e]] eqn:Ht.
    2:{ cbv zeta in Hres. destruct (RemoveAll "" fs1). discriminate. }
    destruct (Stat file fs1) as [info|e] eqn:Hs; [|discriminate].
    exists fs1, tmpDir, info. split; [reflexivity|]. split; [exact Hs|].
    cbv zeta in Hres. destruct (IsDir info).
    + left. split; [reflexivity|].
      unfold bind, ret in Hres.
      destruct (CopyDir file _ fs1) as [fs2 [[]|e]] eqn:Hc; [|discriminate].
      injection Hres as <- <-. auto.
    + right. split; [reflexivity|].
      unfold extractArchive, bind in Hres.
      destruct (Unzip file tmpDir fs1) as [fs2 [files|e]] eqn:Hu;
        [|discriminate].
      destruct files as [|first files]; [discriminate|].
      destruct (Strings.Split _ "/") as [|root more] eqn:Hsplit;
        [discriminate|].
      injection Hres as <- <-. exists first, files, root, more. auto.
  - intros fs1 tmpDir info fs2 -> -> -> Hu.
    unfold extractArchive, bind. now rewrite Hu.
Qed.

(** ** Certificates *)

(** X18. The path of a certificate is the regular file of that name in
    the project directory when there is one.  Otherwise it is the cleaned
    path with the home directory expanded, which is returned without being
    looked for: the result is the same on every file system without the
    file in the project directory. *)
Theorem certificate_path_fallback_is_not_checked :
  forall importPath p,
    let certfile := Filepath.Join [importPath; p] in
    (forall fs, isFile certfile fs = true ->
                resolveCertPath importPath p fs = Ok certfile) /\
    (forall fs q,
       isFile certfile fs = false ->
       Expand (Path.Clean p) = Ok q -> q <> "" ->
       resolveCertPath importPath p fs = Ok q) /\
    (forall fs1 fs2,
       isFile certfile fs1 = false -> isFile certfile fs2 = false ->
       resolveCertPath importPath p fs1 = resolveCertPath importPath p fs2) /\
    (forall fs e,
       resolveCertPath importPath p fs = Err e ->
       Expand (Path.Clean p) = Err e \/ e = errors_New " not found").
Proof.
  intros importPath p certfile. unfold resolveCertPath. fold certfile.
  split; [|split; [|split]].
  - now intros fs ->.
  - intros fs q -> -> Hq. now rewrite (bool_decide_eq_false_2 _ Hq).
  - now intros fs1 fs2 -> ->.
  - intros fs e. destruct (isFile certfile fs); [discriminate|].
    destruct (Expand (Path.Clean p)) as [q|e'].
    + destruct (bool_decide (q = "")) eqn:Hq; [|discriminate].
      apply bool_decide_eq_true_1 in Hq. subst q.
      intros [= <-]. now right.
    + intros [= <-]. now left.
Qed.

Lemma encodeCertificates_inv importPath fs : forall rest certs certs',
  encodeCertificates importPath rest certs fs = Ok certs' ->
  exists new, certs' = certs ++ new /\
              Forall2 (encoded importPath fs) rest new.
Proof.
  induction rest as [|cert rest IH]; intros certs certs' Hres.
  - injection Hres as <-. exists []. now rewrite app_nil_r.
  - cbn [encodeCertificates] in Hres.
    destruct (resolveCertPath _ _ fs) as [p|e] eqn:Hp; [|discriminate].
    destruct (ReadFile p fs) as [pem|e] eqn:Hr; [|discriminate].
    destruct (Decode pem) as [block|] eqn:Hd; [|discriminate].
    cbv zeta in Hres. destruct (IH _ _ Hres) as (new & -> & Hall).
    exists (withCertificate (Base64Encode block) cert :: new).
    split; [now rewrite <- app_assoc|].
    constructor; [|exact Hall]. exists p, pem, block. auto.
Qed.

(** X19. The certificates file is written at most once, as the last step,
    and not at all without certificates.  After a success with
    certificates, the list that is written has one entry for each
    certificate of the parameters, in their order, with the same host
    name, alias and path, and with the encoded content of the first PEM
    block of the file that the path resolves to. *)
Theorem certificates_are_written_in_order :
  forall importPath (environment : Params.Environment EndpointData) fs,
    let fp := Filepath.Join [importPath; "Meta-information";
                             "endpoint_certificates.yaml"] in
    (Params.Certs environment = [] ->
     generateCertificates importPath environment fs = (fs, Ok tt)) /\
    (forall fs' res,
       generateCertificates importPath environment fs = (fs', res) ->
       fs' = fs \/ exists content, WriteFile fp content fs = (fs', res)) /\
    (forall fs',
       Params.Certs environment <> [] ->
       generateCertificates importPath environment fs = (fs', Ok tt) ->
       exists certs data yamlContent,
         Forall2 (encoded importPath fs) (Params.Certs environment) certs /\
         MarshalCerts certs = Ok data /\
         JsonToYaml data = Ok yamlContent /\
         WriteFile fp yamlContent fs = (fs', Ok tt)).
Proof.
  intros importPath environment fs fp. unfold generateCertificates.
  fold fp. split; [|split].
  - now intros ->.
  - intros fs' res Hres.
    destruct (length (Params.Certs environment) =? 0).
    { injection Hres as <- _. now left. }
    unfold bind, reading, lift in Hres.
    destruct (encodeCertificates _ _ _ fs) as [certs|e].
    2:{ injection Hres as <- _. now left. }
    destruct (MarshalCerts certs) as [data|e].
    2:{ injection Hres as <- _. now left. }
    destruct (JsonToYaml data) as [yamlContent|e].
    2:{ injection Hres as <- _. now left. }
    right. now exists yamlContent.
  - intros fs' Hne Hres.
    destruct (length (Params.Certs environment) =? 0) eqn:Hlen.
    { apply Nat.eqb_eq in Hlen. now apply length_zero_iff_nil in Hlen. }
    unfold bind, reading, lift in Hres.
    destruct (encodeCertificates _ _ _ fs) as [certs|e] eqn:Hcerts;
      [|discriminate].
    destruct (MarshalCerts certs) as [data|e] eqn:Hdata; [|discriminate].
    destruct (JsonToYaml data) as [yamlContent|e] eqn:Hyaml; [|discriminate].
    destruct (encodeCertificates_inv _ _ _ _ _ Hcerts) as (new & -> & Hall).
    exists new, data, yamlContent. auto.
Qed.

Lemma injectParamsToAPI_loaded importPath paramsPath importEnvironment fs
    apiParams :
  LoadApiParamsFromFile paramsPath fs = Ok apiParams ->
  injectParamsToAPI importPath paramsPath importEnvironment fs
  = match GetEnv apiParams importEnvironment with
    | Some envParams =>
      (mergeAPI importPath envParams ;;;
       generateCertificates importPath envParams ;;;
       ret []) fs
    | None =>
      (fs, Ok [Println "Using default values as the environment is not present in api_param.yaml file"])
    end.
Proof.
  intros Hload. unfold injectParamsToAPI. unfold bind at 1. unfold reading.
  rewrite Hload. now destruct (GetEnv apiParams importEnvironment).
Qed.

(** X20. The injection of the parameters prints its notice, and does
    nothing else, when the parameters have no entry for the environment.
    With an entry, the certificates are generated only after a successful
    merge; and when they fail after it, the merged definition is already
    written: the workspace is the one that the merge has left. *)
Theorem injection_merges_before_the_certificates :
  forall importPath paramsPath importEnvironment fs apiParams,
    LoadApiParamsFromFile paramsPath fs = Ok apiParams ->
    let inject := injectParamsToAPI importPath paramsPath importEnvironment fs in
    (GetEnv apiParams importEnvironment = None ->
     inject = (fs, Ok [Println "Using default values as the environment is not present in api_param.yaml file"])) /\
    (forall envParams,
       GetEnv apiParams importEnvironment = Some envParams ->
       (forall fs1 e,
          mergeAPI importPath envParams fs = (fs1, Err e) ->
          inject = (fs1, Err e)) /\
       (forall fs1 e,
          mergeAPI importPath envParams fs = (fs1, Ok tt) ->
          encodeCertificates importPath (Params.Certs envParams) [] fs1
            = Err e ->
          Params.Certs envParams <> [] ->
          inject = (fs1, Err e)) /\
       (forall fs1 fs2,
          mergeAPI importPath envParams fs = (fs1, Ok tt) ->
          generateCertificates importPath envParams fs1 = (fs2, Ok tt) ->
          inject = (fs2, Ok []))).
Proof.
  intros importPath paramsPath env fs apiParams Hload inject. subst inject.
  rewrite (injectParamsToAPI_loaded _ _ _ _ _ Hload). split.
  - now intros ->.
  - intros envParams ->. split; [|split].
    + intros fs1 e Hm. now rewrite (bind_Err _ _ _ _ _ Hm).
    + intros fs1 e Hm Hc Hne. rewrite (bind_Ok _ _ _ _ _ Hm).
      apply bind_Err. unfold generateCertificates.
      destruct (length (Params.Certs envParams) =? 0) eqn:Hlen.
      { apply Nat.eqb_eq in Hlen. now apply length_zero_iff_nil in Hlen. }
      unfold bind, reading. now rewrite Hc.
    + intros fs1 fs2 Hm Hg. rewrite (bind_Ok _ _ _ _ _ Hm).
      now rewrite (bind_Ok _ _ _ _ _ Hg).
Qed.

End WorkspaceProperties.

(** ** Sample runs on the sample host *)

(** X14, at an archive that is found in the export directory. *)
Lemma resolved_import_path_is_absolute_witness :
  let P0 := samplePlatform [] refusing in
  let H0 := sampleHost [] refusing in
  let fs : gmap string string := {[ "/exports/apis/PizzaShackAPI.zip" := "zip" ]} in
  @resolveImportFilePath P0 H0 "PizzaShackAPI.zip" "/exports/apis" fs
    = Ok "/exports/apis/PizzaShackAPI.zip" /\
  IsAbs "/exports/apis/PizzaShackAPI.zip" = true.
Proof.
  intros P0 H0 fs.
  assert (@resolveImportFilePath P0 H0 "PizzaShackAPI.zip" "/exports/apis" fs
          = Ok "/exports/apis/PizzaShackAPI.zip") as Hres
    by (vm_compute; reflexivity).
  split; [exact Hres|].
  apply (proj2 (proj2 (@resolved_import_path_is_absolute P0 H0
                         "PizzaShackAPI.zip" "/exports/apis" fs))
           "/exports/apis/PizzaShackAPI.zip");
    [|exact Hres].
  intros wd [= <-]. reflexivity.
Defined.

(** X15, at a parameters file given by the caller. *)
Lemma parameters_file_is_a_regular_file_witness :
  let P0 := samplePlatform [] refusing in
  let H0 := sampleHost [] refusing in
  let fs : gmap string string := {[ "/params/dev.yaml" := "dev" ]} in
  @isFile P0 "/params/dev.yaml" fs = true.
Proof.
  intros P0 H0 fs.
  apply (proj1 (@parameters_file_is_a_regular_file P0 H0
                  "/tmp/PizzaShackAPI" "/params/dev.yaml" fs)
           "/params/dev.yaml").
  vm_compute. reflexivity.
Defined.

(** X16, at a workspace without a parameters file. *)
Lemma missing_default_parameters_are_not_an_error_witness :
  let P0 := samplePlatform [] refusing in
  let H0 := sampleHost [] refusing in
  @ImportAPI_inject P0 H0 "/home/user/PizzaShackAPI" "/tmp/apim/PizzaShackAPI"
    "api_params.yaml" "dev" (workspace "{}")
  = (workspace "{}", Ok []).
Proof.
  intros P0 H0.
  refine (proj1 (proj1 (@missing_default_parameters_are_not_an_error P0 H0
                          "/home/user/PizzaShackAPI" "/tmp/apim/PizzaShackAPI"
                          "api_params.yaml" "dev" (workspace "{}"))
                   (errors_New _) _) (or_introl eq_refl)).
  vm_compute. reflexivity.
Defined.

(** X17, at an archive without files. *)
Lemma workspace_is_copied_or_extracted_witness :
  let P0 := samplePlatform [] refusing in
  let H0 := sampleHost [] refusing in
  let fs : gmap string string := {[ "/home/user/empty.zip" := "" ]} in
  @getTempApiDirectory P0 H0 "/home/user/empty.zip" fs
    = (<["/tmp/apim" := ""]> fs, Err (errors_New "invalid API archive")).
Proof.
  intros P0 H0 fs.
  apply (proj2 (@workspace_is_copied_or_extracted P0 H0
                  "/home/user/empty.zip" fs)
           (<["/tmp/apim" := ""]> fs) "/tmp/apim"
           {| IsDir := false; FileName := "/home/user/empty.zip" |}
           (<["/tmp/apim" := ""]> fs));
    vm_compute; reflexivity.
Defined.

(** X18, at a certificate that is not in the project directory. *)
Lemma certificate_path_fallback_is_not_checked_witness :
  let P0 := samplePlatform [] refusing in
  let H0 := sampleHost [] refusing in
  @resolveCertPath P0 H0 "/tmp/apim/PizzaShackAPI" "/etc/certs/../pizza.crt"
    (workspace "{}")
  = Ok "/etc/pizza.crt".
Proof.
  intros P0 H0.
  apply (proj1 (proj2 (@certificate_path_fallback_is_not_checked P0 H0
                         "/tmp/apim/PizzaShackAPI" "/etc/certs/../pizza.crt"))
           (workspace "{}") "/etc/pizza.crt");
    [vm_compute; reflexivity | vm_compute; reflexivity | discriminate].
Defined.

(** X19, at parameters without certificates, at a certificate that is
    not there, and at two certificates, one in the project and one given
    by an absolute path. *)
Lemma certificates_are_written_in_order_witness :
  let P0 := samplePlatform [] refusing in
  let H0 := sampleHost [] refusing in
  let env (certs : list Params.Cert) : Params.Environment string :=
    {| Params.Name := "dev"; Params.Endpoints := None;
       Params.Security := None; Params.GatewayEnvironments := None;
       Params.Certs := certs |} in
  let fp :=
    "/tmp/apim/PizzaShackAPI/Meta-information/endpoint_certificates.yaml" in
  let fs : gmap string string :=
    <["/tmp/apim/PizzaShackAPI/certs/a.crt" := "PEM-A"]>
      (<["/etc/ssl/b.crt" := "PEM-B"]> (workspace "{}")) in
  let a := sampleCert "certs/a.crt" in
  let b := sampleCert "/etc/ssl/b.crt" in
  @generateCertificates P0 H0 "/tmp/apim/PizzaShackAPI" (env []) fs
    = (fs, Ok tt) /\
  (@generateCertificates P0 H0 "/tmp/apim/PizzaShackAPI"
     (env [a; sampleCert "certs/missing.crt"; b]) fs
   = (fs, Err (ErrExternal "no such file or directory")) /\
   (fs = fs \/
    exists content,
      @WriteFile P0 fp content fs
      = (fs, Err (ErrExternal "no such file or directory")))) /\
  (exists certs data yamlContent,
     Forall2 (@encoded P0 H0 "/tmp/apim/PizzaShackAPI" fs) [a; b] certs /\
     @MarshalCerts P0 H0 certs = Ok data /\
     @JsonToYaml P0 data = Ok yamlContent /\
     @WriteFile P0 fp yamlContent fs = (<[fp := "PEM-A,PEM-B"]> fs, Ok tt)).
Proof.
  intros P0 H0 env fp fs a b. split; [|split].
  - exact (proj1 (@certificates_are_written_in_order P0 H0
                    "/tmp/apim/PizzaShackAPI" (env []) fs) eq_refl).
  - assert (@generateCertificates P0 H0 "/tmp/apim/PizzaShackAPI"
              (env [a; sampleCert "certs/missing.crt"; b]) fs
            = (fs, Err (ErrExternal "no such file or directory"))) as Hrun
      by (vm_compute; reflexivity).
    split; [exact Hrun|].
    exact (proj1 (proj2 (@certificates_are_written_in_order P0 H0
                           "/tmp/apim/PizzaShackAPI"
                           (env [a; sampleCert "certs/missing.crt"; b]) fs))
             _ _ Hrun).
  - assert (@generateCertificates P0 H0 "/tmp/apim/PizzaShackAPI"
              (env [a; b]) fs
            = (<[fp := "PEM-A,PEM-B"]> fs, Ok tt)) as Hrun
      by (vm_compute; reflexivity).
    exact (proj2 (proj2 (@certificates_are_written_in_order P0 H0
                           "/tmp/apim/PizzaShackAPI" (env [a; b]) fs))
             _ ltac:(discriminate) Hrun).
Defined.

(** X20, at parameters without the environment, at a definition that
    cannot be parsed, at a certificate that is not there, and at a
    certificate of the project. *)
Lemma injection_merges_before_the_certificates_witness :
  let P0 := samplePlatform [] refusing in
  let H0 := sampleHost [] refusing in
  let definition := "/tmp/apim/PizzaShackAPI/Meta-information/api.yaml" in
  let inject (fs : gmap string string) :=
    @injectParamsToAPI P0 H0 "/tmp/apim/PizzaShackAPI"
      "/home/user/api_params.yaml" "dev" fs in
  let params (certs : string) (fs : gmap string string)
      : gmap string string :=
    <["/home/user/api_params.yaml" := certs]> fs in
  let fs : gmap string string :=
    <["/tmp/apim/PizzaShackAPI/certs/a.crt" := "PEM-A"]> (workspace "{}") in
  inject (params "" fs)
    = (params "" fs,
       Ok [Println "Using default values as the environment is not present in api_param.yaml file"]) /\
  inject (params "certs/a.crt" (workspace "{"))
    = (params "certs/a.crt" (workspace "{"),
       Err (ErrExternal "unexpected end of JSON input")) /\
  inject (params "certs/missing.crt" fs)
    = (<[definition := "{...}"]> (params "certs/missing.crt" fs),
       Err (ErrExternal "no such file or directory")) /\
  inject (params "certs/a.crt" fs)
    = (<["/tmp/apim/PizzaShackAPI/Meta-information/endpoint_certificates.yaml"
         := "PEM-A"]>
         (<[definition := "{...}"]> (params "certs/a.crt" fs)),
       Ok []).
Proof.
  intros P0 H0 definition inject params fs.
  pose (env (certs : string) :=
          {| Params.Name := "dev"; Params.Endpoints := None;
             Params.Security := None; Params.GatewayEnvironments := None;
             Params.Certs := [sampleCert certs] |}
          : Params.Environment (@EndpointData P0)).
  pose (property (certs : string) (fs0 : gmap string string)
          (Hload : @LoadApiParamsFromFile P0 H0 "/home/user/api_params.yaml"
                     (params certs fs0) = Ok [env certs]) :=
          proj2 (@injection_merges_before_the_certificates P0 H0
                   "/tmp/apim/PizzaShackAPI" "/home/user/api_params.yaml"
                   "dev" (params certs fs0) [env certs] Hload)
            (env certs) eq_refl).
  split; [|split; [|split]].
  - assert (@LoadApiParamsFromFile P0 H0 "/home/user/api_params.yaml"
              (params "" fs) = Ok []) as Hload by (vm_compute; reflexivity).
    exact (proj1 (@injection_merges_before_the_certificates P0 H0
                    "/tmp/apim/PizzaShackAPI" "/home/user/api_params.yaml"
                    "dev" (params "" fs) [] Hload) eq_refl).
  - assert (@mergeAPI P0 "/tmp/apim/PizzaShackAPI" (env "certs/a.crt")
              (params "certs/a.crt" (workspace "{"))
            = (params "certs/a.crt" (workspace "{"),
               Err (ErrExternal "unexpected end of JSON input"))) as Hmerge
      by (vm_compute; reflexivity).
    exact (proj1 (property "certs/a.crt" (workspace "{")
                    ltac:(vm_compute; reflexivity)) _ _ Hmerge).
  - set (fs1 := <[definition := "{...}"]> (params "certs/missing.crt" fs)
                : gmap string string).
    assert (@mergeAPI P0 "/tmp/apim/PizzaShackAPI" (env "certs/missing.crt")
              (params "certs/missing.crt" fs) = (fs1, Ok tt)) as Hmerge
      by (vm_compute; reflexivity).
    assert (@encodeCertificates P0 H0 "/tmp/apim/PizzaShackAPI"
              (Params.Certs (env "certs/missing.crt")) [] fs1
            = Err (ErrExternal "no such file or directory")) as Hcert
      by (vm_compute; reflexivity).
    exact (proj1 (proj2 (property "certs/missing.crt" fs
                           ltac:(vm_compute; reflexivity)))
             fs1 _ Hmerge Hcert ltac:(discriminate)).
  - set (fs1 := <[definition := "{...}"]> (params "certs/a.crt" fs)
                : gmap string string).
    assert (@mergeAPI P0 "/tmp/apim/PizzaShackAPI" (env "certs/a.crt")
              (params "certs/a.crt" fs) = (fs1, Ok tt)) as Hmerge
      by (vm_compute; reflexivity).
    assert (@generateCertificates P0 H0 "/tmp/apim/PizzaShackAPI"
              (env "certs/a.crt") fs1
            = (<["/tmp/apim/PizzaShackAPI/Meta-information/endpoint_certificates.yaml"
                 := "PEM-A"]> fs1, Ok tt)) as Hcert
      by (vm_compute; reflexivity).
    exact (proj2 (proj2 (property "certs/a.crt" fs
                           ltac:(vm_compute; reflexivity)))
             fs1 _ Hmerge Hcert).
Defined.

(** ** Applications *)

Lemma append_empty_r s : s +:+ "" = s.
Proof.
  induction s as [|c s IH]; [reflexivity|].
  change (String c (s +:+ "") = String c s). now rewrite IH.
Qed.

Section ApplicationsProperties.

Variable MainConfigFilePath : string.
Variable GetDevPortalApplicationListEndpointOfEnv : string -> string -> string.
Variable AppendSlashToString : string -> string.
Variables HeaderAuthorization HeaderValueAuthBearerPrefix : string.
Variable InvokeGETRequestWithQueryParam :
  string -> string -> string -> gmap string string ->
  option Resty.Response * option error.
Variable InvokeDELETERequest :
  string -> gmap string string -> option Resty.Response * option error.
Variable AppList : Type.
Variable Count : AppList -> Z.
Variable ApplicationIDs : AppList -> list string.
Variable Unmarshal : string -> option AppList * option error.
Variable Errorf : string -> error.

(** X21. The deletion of an application looks its identifier up first.
    When the lookup is answered with the status 200 or 201 and the list
    that the decoding leaves has a count of zero, the application counts
    as not found, without an error and even when the answer could not be
    decoded; the deletion then goes on with the empty identifier, so that
    the DELETE request is sent to the address of the list of applications
    itself.  When the decoding leaves no list at all, as it does for the
    answer [null], reading the count is a nil dereference, and with a
    count that is not zero and an empty list the first identifier is out
    of range: both the lookup and the deletion panic.  An answer with any
    other status, or an undecodable answer with a count that is not zero,
    stops the process. *)
Theorem delete_of_an_unknown_application_targets_the_list :
  forall accessToken environment appName resp err,
    let endpoint :=
      GetDevPortalApplicationListEndpointOfEnv environment MainConfigFilePath in
    let headers : gmap string string :=
      {[ HeaderAuthorization :=
           HeaderValueAuthBearerPrefix +:+ " " +:+ accessToken ]} in
    let lookup :=
      getAppId MainConfigFilePath GetDevPortalApplicationListEndpointOfEnv
        HeaderAuthorization HeaderValueAuthBearerPrefix
        InvokeGETRequestWithQueryParam AppList Count ApplicationIDs Unmarshal
        Errorf accessToken environment appName in
    let delete :=
      DeleteApplication MainConfigFilePath
        GetDevPortalApplicationListEndpointOfEnv AppendSlashToString
        HeaderAuthorization HeaderValueAuthBearerPrefix
        InvokeGETRequestWithQueryParam InvokeDELETERequest AppList Count
        ApplicationIDs Unmarshal Errorf accessToken environment appName in
    (InvokeGETRequestWithQueryParam "query" appName endpoint headers
       = (None, err) ->
     lookup = Panics nilDereference /\ delete = Panics nilDereference) /\
    (InvokeGETRequestWithQueryParam "query" appName endpoint headers
       = (Some resp, err) ->
     (Resty.StatusCode resp = 200%Z \/ Resty.StatusCode resp = 201%Z ->
      (forall uerr,
         Unmarshal (Resty.Body resp) = (None, uerr) ->
         lookup = Panics nilDereference /\ delete = Panics nilDereference) /\
      (forall appData uerr,
         Unmarshal (Resty.Body resp) = (Some appData, uerr) ->
         (Count appData = 0%Z ->
          lookup = Returns ("", None) /\
          delete
            = match InvokeDELETERequest (AppendSlashToString endpoint)
                      headers with
              | (_, Some e) => Returns (None, Some e)
              | (r, None) => Returns (r, None)
              end) /\
         (Count appData <> 0%Z -> ApplicationIDs appData = [] ->
          lookup = Panics "index out of range" /\
          delete = Panics "index out of range") /\
         (forall e appId rest,
            Count appData <> 0%Z -> uerr = Some e ->
            ApplicationIDs appData = appId :: rest ->
            lookup = Returns (appId, Some e) /\
            delete = Exits "Error while getting App Id for deletion " e))) /\
     (Resty.StatusCode resp <> 200%Z -> Resty.StatusCode resp <> 201%Z ->
      exists e, lookup = Returns ("", Some e) /\
                delete = Exits "Error while getting App Id for deletion " e)).
Proof.
  intros accessToken environment appName resp err endpoint headers lookup
    delete.
  subst lookup delete. unfold DeleteApplication, getAppId.
  fold endpoint. fold headers. split.
  { intros ->. split; reflexivity. }
  intros Hget. rewrite Hget.
  unfold StatusOK, StatusCreated, StatusUnauthorized. split.
  - intros Hst.
    assert ((Resty.StatusCode resp =? 200)%Z || (Resty.StatusCode resp =? 201)%Z
            = true) as ->.
    { destruct Hst as [-> | ->]; reflexivity. }
    split.
    + intros uerr ->. split; reflexivity.
    + intros appData uerr ->. split; [|split].
      * intros ->. cbn [Z.eqb negb]. split; [reflexivity|].
        rewrite append_empty_r.
        destruct (InvokeDELETERequest _ _) as [r [e|]]; reflexivity.
      * intros Hc ->. apply Z.eqb_neq in Hc. rewrite Hc.
        split; reflexivity.
      * intros e appId rest Hc -> ->. apply Z.eqb_neq in Hc. rewrite Hc.
        split; reflexivity.
  - intros H200 H201. apply Z.eqb_neq in H200, H201. rewrite H200, H201.
    cbn [orb]. destruct (Resty.StatusCode resp =? 401)%Z; eauto.
Qed.

End ApplicationsProperties.

(** ** The export of an API product *)

Section ExportProperties.

Context {P : Platform} {H : Host P}.

Variable MainConfigFilePath : string.
Variable GetAdminEndpointOfEnv : string -> string -> string.
Variable AppendSlashToString : string -> string.
Variables HeaderAuthorization HeaderValueAuthBearerPrefix : string.
Variables HeaderAccept HeaderValueApplicationZip : string.
Variable DefaultApiProductVersion : string.
Variable InvokeGETRequest :
  string -> gmap string string -> option Resty.Response * option error.
Variable Mkdir : string -> M FS unit.
Variable ErrorText : error -> string.

(** X22. The export command touches the file system only after an answer
    with the status 200, and then only to create the directory of the
    environment, when it is reported as missing, and to write the body of
    the answer into the file named after the product and its version.  A
    version that is not given is the default version, in the request and
    in the name of the file.  A failure to get a token is printed and the
    command returns; it does not stop the process. *)
Theorem export_writes_only_after_200 :
  forall token exportDirectory environment name version provider format fs,
    let execute :=
      executeExportAPIProductCmd MainConfigFilePath GetAdminEndpointOfEnv
        AppendSlashToString HeaderAuthorization HeaderValueAuthBearerPrefix
        HeaderAccept HeaderValueApplicationZip DefaultApiProductVersion
        InvokeGETRequest Mkdir ErrorText token exportDirectory environment
        name in
    let response :=
      getExportApiProductResponse AppendSlashToString HeaderAuthorization
        HeaderValueAuthBearerPrefix HeaderAccept HeaderValueApplicationZip
        InvokeGETRequest in
    let run := execute version provider format fs in
    let location := Filepath.Join [exportDirectory; environment] in
    (execute "" provider format fs
     = execute DefaultApiProductVersion provider format fs) /\
    (forall e, token = Err e -> exists line, run = (fs, Returns [line])) /\
    (forall accessToken,
       token = Ok accessToken -> version <> "" ->
       forall resp,
         response name version provider format
           (GetAdminEndpointOfEnv environment MainConfigFilePath) accessToken
           = (Some resp, None) ->
         (Resty.StatusCode resp <> 200%Z -> fst run = fs) /\
         (Resty.StatusCode resp = 200%Z ->
          forall fs' out,
            run = (fs', Returns out) ->
            exists fs1,
              (fs1 = fs /\ notExist location fs = None \/
               Mkdir location fs = (fs1, Ok tt) /\
               is_Some (notExist location fs)) /\
              WriteFile
                (Filepath.Join [location; name +:+ "_" +:+ version +:+ ".zip"])
                (Resty.Body resp) fs1 = (fs', Ok tt))).
Proof.
  intros token exportDirectory environment name version provider format fs
    execute response run location.
  subst run execute response. unfold executeExportAPIProductCmd.
  split; [|split].
  - destruct token as [accessToken|e]; [|reflexivity].
    rewrite (bool_decide_eq_true_2 ("" = "") eq_refl).
    destruct (bool_decide (DefaultApiProductVersion = "")) eqn:Hd;
      [|reflexivity].
    apply bool_decide_eq_true_1 in Hd. now rewrite Hd.
  - intros e ->. eauto.
  - intros accessToken -> Hv resp Hresp.
    rewrite (bool_decide_eq_false_2 _ Hv). rewrite Hresp.
    fold location. unfold StatusOK, StatusInternalServerError. split.
    + intros Hst. apply Z.eqb_neq in Hst. rewrite Hst.
      now destruct (Resty.StatusCode resp =? 500)%Z.
    + intros -> fs' out Hrun. cbn [Z.eqb Pos.eqb] in Hrun.
      unfold WriteAPIProductToZip in Hrun.
      destruct (notExist location fs) as [e|] eqn:Hne.
      * destruct (Mkdir location fs) as [fs1 [[]|e']] eqn:Hmk; [|discriminate].
        destruct (WriteFile _ _ fs1) as [fs2 [[]|e']] eqn:Hw; [|discriminate].
        injection Hrun as <- _. exists fs1. split; [right; eauto | exact Hw].
      * destruct (WriteFile _ _ fs) as [fs2 [[]|e']] eqn:Hw; [|discriminate].
        injection Hrun as <- _. exists fs. split; [left; auto | exact Hw].
Qed.

End ExportProperties.

(** X21, at a lookup whose answer cannot be decoded and leaves an empty
    list, and at a lookup that is answered with [null]. *)
Lemma delete_of_an_unknown_application_targets_the_list_witness :
  let found (body : string) :=
    {| Resty.StatusCode := 200; Resty.Status := "200 OK";
       Resty.Body := body |} in
  let echo (url : string) :=
    {| Resty.StatusCode := 405; Resty.Status := "405 Method Not Allowed";
       Resty.Body := url |} in
  let decode (body : string) : option Z * option error :=
    if bool_decide (body = "null") then (None, None)
    else (Some 0%Z, Some (ErrExternal "unexpected end of JSON input")) in
  let delete (body : string) :=
    DeleteApplication "config.yaml"
      (fun _ _ => "https://apim:9443/applications")
      (fun s => s +:+ "/") "Authorization" "Bearer"
      (fun _ _ _ _ => (Some (found body), None))
      (fun url _ => (Some (echo url), None))
      Z (fun count => count) (fun _ => []) decode
      errors_New "token" "dev" "Unknown" in
  delete "{" = Returns (Some (echo "https://apim:9443/applications/"), None) /\
  delete "null" = Panics nilDereference.
Proof.
  intros found echo decode delete.
  pose (lookup (body : string) :=
          proj2 (delete_of_an_unknown_application_targets_the_list
                   "config.yaml"
                   (fun _ _ => "https://apim:9443/applications")
                   (fun s => s +:+ "/") "Authorization" "Bearer"
                   (fun _ _ _ _ => (Some (found body), None))
                   (fun url _ => (Some (echo url), None))
                   Z (fun count => count) (fun _ => []) decode
                   errors_New "token" "dev" "Unknown" (found body) None)
                eq_refl).
  split.
  - exact (proj2 (proj1 (proj2 (proj1 (lookup "{") (or_introl eq_refl))
                           0%Z (Some (ErrExternal
                                        "unexpected end of JSON input"))
                           eq_refl)
                    eq_refl)).
  - exact (proj2 (proj1 (proj1 (lookup "null") (or_introl eq_refl))
                    None eq_refl)).
Defined.

(** X22, at an answer with the status 500. *)
Lemma export_writes_only_after_200_witness :
  let P0 := samplePlatform [] refusing in
  let H0 := sampleHost [] refusing in
  let failed :=
    {| Resty.StatusCode := 500; Resty.Status := "500 Internal Server Error";
       Resty.Body := "out of memory" |} in
  fst (@executeExportAPIProductCmd P0 H0 "config.yaml"
         (fun _ _ => "https://apim:9443/admin") (fun s => s +:+ "/")
         "Authorization" "Bearer" "Accept" "application/zip" "1.0.0"
         (fun _ _ => (Some failed, None))
         (fun _ fs => (fs, Ok tt)) (fun _ => "error")
         (Ok "token") "/exports/api-products" "dev" "PizzaShackProduct"
         "2.0.0" "admin" "" (workspace "{}"))
  = workspace "{}".
Proof.
  intros P0 H0 failed.
  apply (proj1 (proj2 (proj2 (@export_writes_only_after_200 P0 H0
                                "config.yaml"
                                (fun _ _ => "https://apim:9443/admin")
                                (fun s => s +:+ "/")
                                "Authorization" "Bearer" "Accept"
                                "application/zip" "1.0.0"
                                (fun _ _ => (Some failed, None))
                                (fun _ fs => (fs, Ok tt)) (fun _ => "error")
                                (Ok "token") "/exports/api-products" "dev"
                                "PizzaShackProduct" "2.0.0" "admin" ""
                                (workspace "{}")))
                  "token" eq_refl ltac:(discriminate) failed eq_refl));
    discriminate.
Defined.

(** ** The import of an API, from the artifact to the upload *)

Section ImportProperties.

Context {P : Platform} {H : Host P}.






(** What the removal of a path leaves. *)
Section Cleanup.

Variable removed : string -> FS -> Prop.
Hypothesis RemoveAll_removed : forall p fs, removed p (fst (RemoveAll p fs)).

(** X24. Once the workspace is made, the import ends with its removal,
    whatever the stage that fails, unless the caller keeps the workspace;
    the import then leaves what its stages have left.  When the workspace
    cannot be made, after the temporary directory was created or not, the
    import returns the error and what was created so far is left
    behind. *)
Theorem workspace_is_removed_unless_kept :
  forall accessOAuthToken adminEndpoint importEnvironment importPath
         apiParamsPath importAPIUpdate preserveProvider fs resolvedApiFilePath,
    let import := ImportAPI accessOAuthToken adminEndpoint importEnvironment
                    importPath apiParamsPath importAPIUpdate preserveProvider in
    let stages := ImportAPI_workspace accessOAuthToken adminEndpoint
                    importEnvironment resolvedApiFilePath apiParamsPath in
    resolveImportFilePath importPath
      (Filepath.Join [ExportDirectory; ExportedApisDirName]) fs
      = Ok resolvedApiFilePath ->
    (forall fs1 tmpPath,
       getTempApiDirectory resolvedApiFilePath fs = (fs1, Ok tmpPath) ->
       removed tmpPath (fst (import false fs)) /\
       snd (import false fs)
         = snd (stages tmpPath importAPIUpdate preserveProvider false fs1) /\
       import true fs
         = stages tmpPath importAPIUpdate preserveProvider true fs1) /\
    (forall fs1 e importAPISkipCleanup,
       getTempApiDirectory resolvedApiFilePath fs = (fs1, Err e) ->
       import importAPISkipCleanup fs = (fs1, ([], Some e))).
Proof using RemoveAll_removed.
  intros token adminEndpoint env importPath apiParamsPath update preserve fs
    resolved import stages Hres.
  subst import stages. unfold ImportAPI. cbv zeta. rewrite Hres.
  unfold step. split.
  - intros fs1 tmpPath ->. split; [|split].
    + destruct (ImportAPI_workspace _ _ _ _ _ _ _ _ _ fs1) as [fsb res].
      pose proof (RemoveAll_removed tmpPath fsb) as Hrem.
      now destruct (RemoveAll tmpPath fsb).
    + destruct (ImportAPI_workspace _ _ _ _ _ _ _ _ _ fs1) as [fsb res].
      now destruct (RemoveAll tmpPath fsb).
    + now destruct (ImportAPI_workspace _ _ _ _ _ _ _ _ _ fs1).
  - now intros fs1 e skip ->.
Qed.

End Cleanup.

Lemma replaceEnvVariablesIn_skipped apiFilePath fs : forall replacePaths,
  (forall p, p ∈ replacePaths ->
     match Stat (Filepath.Join [apiFilePath; p]) fs with
     | Err err => IsNotExist err = true
     | Ok fi => IsDir fi = false /\ IsRegular fi = false
     end) ->
  replaceEnvVariablesIn replacePaths apiFilePath fs = (fs, Ok tt).
Proof.
  induction replacePaths as [|p rest IH]; intros Hall; [reflexivity|].
  cbn [replaceEnvVariablesIn].
  pose proof (Hall p ltac:(left)) as Hp.
  assert (replaceEnvVariablesIn rest apiFilePath fs = (fs, Ok tt)) as Hrest.
  { apply IH. intros q Hq. apply Hall. now right. }
  destruct (Stat (Filepath.Join [apiFilePath; p]) fs) as [fi|err].
  - destruct Hp as [-> ->]. unfold bind, ret. exact Hrest.
  - rewrite Hp. exact Hrest.
Qed.

(** X25. The substitution of the environment variables passes over the
    paths that are reported as missing and over the files that are
    neither directories nor regular files: when there is nothing else, it
    succeeds and leaves the workspace as it is.  A path whose state cannot
    be told for another reason ends it with that error, and the paths
    after it are not looked at. *)
Theorem substitution_passes_over_what_is_missing :
  forall apiFilePath fs,
    ((forall p, p ∈ EnvReplaceFilePaths ->
        match Stat (Filepath.Join [apiFilePath; p]) fs with
        | Err err => IsNotExist err = true
        | Ok fi => IsDir fi = false /\ IsRegular fi = false
        end) ->
     replaceEnvVariables apiFilePath fs = (fs, Ok tt)) /\
    (forall skipped p rest err,
       EnvReplaceFilePaths = skipped ++ p :: rest ->
       (forall q, q ∈ skipped ->
          match Stat (Filepath.Join [apiFilePath; q]) fs with
          | Err err => IsNotExist err = true
          | Ok fi => IsDir fi = false /\ IsRegular fi = false
          end) ->
       Stat (Filepath.Join [apiFilePath; p]) fs = Err err ->
       IsNotExist err = false ->
       replaceEnvVariables apiFilePath fs = (fs, Err err)).
Proof.
  intros apiFilePath fs. unfold replaceEnvVariables. split.
  - apply replaceEnvVariablesIn_skipped.
  - intros skipped p rest err -> Hskip Hstat Hne.
    induction skipped as [|q skipped IH].
    + cbn [app replaceEnvVariablesIn]. now rewrite Hstat, Hne.
    + cbn [app replaceEnvVariablesIn].
      pose proof (Hskip q ltac:(left)) as Hq.
      assert (replaceEnvVariablesIn (skipped ++ p :: rest) apiFilePath fs
              = (fs, Err err)) as Hrest.
      { apply IH. intros q' Hq'. apply Hskip. now right. }
      destruct (Stat (Filepath.Join [apiFilePath; q]) fs) as [fi|e].
      * destruct Hq as [-> ->]. unfold bind, ret. exact Hrest.
      * rewrite Hq. exact Hrest.
Qed.

Lemma preProcessDependentAPIsIn_skipped apisDirectoryPath importEnvironment fs :
  forall items printed,
    (forall item, item ∈ items ->
       let apiDirectoryPath := apisDirectoryPath +:+ "/" +:+ FileName item in
       replaceEnvVariables apiDirectoryPath fs = (fs, Ok tt) /\
       IsFileExist (apiDirectoryPath +:+ "/" +:+ ParamFileAPI) fs = false) ->
    preProcessDependentAPIsIn items apisDirectoryPath importEnvironment
      printed fs = (fs, (printed, None)).
Proof.
  induction items as [|item rest IH]; intros printed Hall; [reflexivity|].
  cbn [preProcessDependentAPIsIn]. cbv zeta. unfold step.
  destruct (Hall item ltac:(left)) as [-> ->].
  apply IH. intros item' Hin. apply Hall. now right.
Qed.

(** X26. The dependent APIs of a product are looked for in its [APIs]
    directory.  When the directory is reported as missing there is nothing
    to do; when it cannot be listed, the error is dropped and again
    nothing is done.  Each API takes its parameters from the file of the
    default name in its own directory only: when no API has such a file
    and the substitution changes nothing, the product is left as it is and
    nothing is printed.  For the first API, a substitution that fails
    ends the run with its error; after a successful substitution its own
    parameters file, when it is there, is injected into its directory, an
    error of the injection ends the run, and the run goes on with the
    APIs that are left. *)
Theorem dependent_apis_use_their_own_parameters :
  forall apiProductFilePath importEnvironment fs,
    let apisDirectoryPath := apiProductFilePath +:+ "/" +:+ "APIs" in
    let run := preProcessDependentAPIs apiProductFilePath importEnvironment fs in
    (is_Some (notExist apisDirectoryPath fs) -> run = (fs, ([], None))) /\
    (forall e, ReadDir apisDirectoryPath fs = Err e ->
               run = (fs, ([], None))) /\
    (forall items,
       notExist apisDirectoryPath fs = None ->
       ReadDir apisDirectoryPath fs = Ok items ->
       (forall item, item ∈ items ->
          let apiDirectoryPath :=
            apisDirectoryPath +:+ "/" +:+ FileName item in
          replaceEnvVariables apiDirectoryPath fs = (fs, Ok tt) /\
          IsFileExist (apiDirectoryPath +:+ "/" +:+ ParamFileAPI) fs = false) ->
       run = (fs, ([], None))) /\
    (forall item rest fs1 e,
       notExist apisDirectoryPath fs = None ->
       ReadDir apisDirectoryPath fs = Ok (item :: rest) ->
       replaceEnvVariables (apisDirectoryPath +:+ "/" +:+ FileName item) fs
         = (fs1, Err e) ->
       run = (fs1, ([], Some e))) /\
    (forall item rest fs1,
       notExist apisDirectoryPath fs = None ->
       ReadDir apisDirectoryPath fs = Ok (item :: rest) ->
       let apiDirectoryPath := apisDirectoryPath +:+ "/" +:+ FileName item in
       let paramsPath := apiDirectoryPath +:+ "/" +:+ ParamFileAPI in
       let inject :=
         injectParamsToAPI apiDirectoryPath paramsPath importEnvironment fs1 in
       replaceEnvVariables apiDirectoryPath fs = (fs1, Ok tt) ->
       (IsFileExist paramsPath fs1 = false ->
        run = preProcessDependentAPIsIn rest apisDirectoryPath
                importEnvironment [] fs1) /\
       (forall fs2 e,
          IsFileExist paramsPath fs1 = true ->
          inject = (fs2, Err e) ->
          run = (fs2, ([], Some e))) /\
       (forall fs2 out,
          IsFileExist paramsPath fs1 = true ->
          inject = (fs2, Ok out) ->
          run = preProcessDependentAPIsIn rest apisDirectoryPath
                  importEnvironment out fs2)).
Proof.
  intros apiProductFilePath env fs apisDirectoryPath run. subst run.
  unfold preProcessDependentAPIs. fold apisDirectoryPath.
  split; [|split; [|split; [|split]]].
  - now intros [e ->].
  - intros e ->. now destruct (notExist apisDirectoryPath fs).
  - intros items -> -> Hall. now apply preProcessDependentAPIsIn_skipped.
  - intros item rest fs1 e -> -> Hsub.
    cbn [preProcessDependentAPIsIn]. cbv zeta. unfold step. now rewrite Hsub.
  - intros item rest fs1 -> -> Hsub.
    cbn [preProcessDependentAPIsIn]. cbv zeta. unfold step. rewrite Hsub.
    split; [|split].
    + now intros ->.
    + intros fs2 e -> ->. reflexivity.
    + intros fs2 out -> ->. reflexivity.
Qed.

End ImportProperties.


(** X24, at the import of an archive with one file: its workspace is
    gone at the end. *)
Lemma workspace_is_removed_unless_kept_witness :
  let P0 := samplePlatform [] refusing in
  let H0 := sampleHost [] refusing in
  let fs : gmap string string := {[ "/home/user/PizzaShackAPI.zip" := "zip" ]} in
  fst (@ImportAPI P0 H0 "token" "https://apim:9443/admin" "dev"
         "/home/user/PizzaShackAPI.zip" "api_params.yaml" false false false fs)
    !! "/tmp/apim/PizzaShackAPI-1.0.0" = None.
Proof.
  intros P0 H0 fs.
  set (fs1 := <["/tmp/apim" := ""]> fs : gmap string string).
  assert (@resolveImportFilePath P0 H0 "/home/user/PizzaShackAPI.zip"
            (Filepath.Join [@ExportDirectory P0 H0; @ExportedApisDirName P0 H0])
            fs = Ok "/home/user/PizzaShackAPI.zip") as Hres
    by (vm_compute; reflexivity).
  assert (@getTempApiDirectory P0 H0 "/home/user/PizzaShackAPI.zip" fs
          = (fs1, Ok "/tmp/apim/PizzaShackAPI-1.0.0")) as Htmp
    by (vm_compute; reflexivity).
  exact (proj1 (proj1 (@workspace_is_removed_unless_kept P0 H0
                         (fun p (fs : gmap string string) => fs !! p = None)
                         (fun p fs => lookup_delete_eq fs p)
                         "token" "https://apim:9443/admin" "dev"
                         "/home/user/PizzaShackAPI.zip" "api_params.yaml"
                         false false fs "/home/user/PizzaShackAPI.zip" Hres)
                  fs1 "/tmp/apim/PizzaShackAPI-1.0.0" Htmp)).
Defined.

(** X25, at a workspace without the directories of the substitution. *)
Lemma substitution_passes_over_what_is_missing_witness :
  let P0 := samplePlatform [] refusing in
  let H0 := sampleHost [] refusing in
  @replaceEnvVariables P0 H0 "/tmp/apim/PizzaShackAPI" (workspace "{}")
    = (workspace "{}", Ok tt).
Proof.
  intros P0 H0.
  apply (proj1 (@substitution_passes_over_what_is_missing P0 H0
                  "/tmp/apim/PizzaShackAPI" (workspace "{}"))).
  intros p Hp.
  apply elem_of_cons in Hp as [-> | Hp]; [vm_compute; reflexivity|].
  apply elem_of_cons in Hp as [-> | Hp]; [vm_compute; reflexivity|].
  now apply elem_of_nil in Hp.
Defined.

(** X26, at a product without a directory of APIs, at two APIs without
    parameters, at an API whose files hold a variable that is not set,
    and at an API with parameters of its own, followed by one without. *)
Lemma dependent_apis_use_their_own_parameters_witness :
  let P0 := samplePlatform [] refusing in
  let H0 := sampleHost [] refusing in
  let run (fs : gmap string string) :=
    @preProcessDependentAPIs P0 H0 "/tmp/apim/PizzaShackProduct" "dev" fs in
  let apis (names : string) : gmap string string :=
    {[ "/tmp/apim/PizzaShackProduct/APIs" := names ]} in
  let unset : gmap string string :=
    <["/tmp/apim/PizzaShackProduct/APIs/PizzaShackAPI/Meta-information"
      := "${UNSET}"]> (apis "PizzaShackAPI,DonutAPI") in
  let own : gmap string string :=
    <["/tmp/apim/PizzaShackProduct/APIs/PizzaShackAPI/api_params.yaml"
      := "certs/a.crt"]>
      (<["/tmp/apim/PizzaShackProduct/APIs/PizzaShackAPI/certs/a.crt"
         := "PEM-A"]>
         (<["/tmp/apim/PizzaShackProduct/APIs/PizzaShackAPI/Meta-information/api.yaml"
            := "{}"]> (apis "PizzaShackAPI,DonutAPI"))) in
  run (workspace "{}") = (workspace "{}", ([], None)) /\
  run (apis "PizzaShackAPI,DonutAPI")
    = (apis "PizzaShackAPI,DonutAPI", ([], None)) /\
  run unset = (unset, ([], Some (ErrExternal "variable UNSET is not set"))) /\
  run own
    = (<["/tmp/apim/PizzaShackProduct/APIs/PizzaShackAPI/Meta-information/endpoint_certificates.yaml"
         := "PEM-A"]>
         (<["/tmp/apim/PizzaShackProduct/APIs/PizzaShackAPI/Meta-information/api.yaml"
            := "{...}"]> own),
       ([], None)).
Proof.
  intros P0 H0 run apis unset own.
  pose (pizzaDir := {| IsDir := true; FileName := "PizzaShackAPI" |}).
  pose (donutDir := {| IsDir := true; FileName := "DonutAPI" |}).
  pose (property :=
          @dependent_apis_use_their_own_parameters P0 H0
            "/tmp/apim/PizzaShackProduct" "dev").
  split; [|split; [|split]].
  - apply (proj1 (property (workspace "{}"))). vm_compute. eauto.
  - apply (proj1 (proj2 (proj2 (property (apis "PizzaShackAPI,DonutAPI"))))
             [pizzaDir; donutDir]);
      [vm_compute; reflexivity | vm_compute; reflexivity |].
    intros item Hin.
    apply elem_of_cons in Hin as [-> | Hin];
      [split; vm_compute; reflexivity|].
    apply elem_of_cons in Hin as [-> | Hin];
      [split; vm_compute; reflexivity|].
    now apply elem_of_nil in Hin.
  - apply (proj1 (proj2 (proj2 (proj2 (property unset))))
             pizzaDir [donutDir]);
      vm_compute; reflexivity.
  - set (fs2 :=
           <["/tmp/apim/PizzaShackProduct/APIs/PizzaShackAPI/Meta-information/endpoint_certificates.yaml"
             := "PEM-A"]>
             (<["/tmp/apim/PizzaShackProduct/APIs/PizzaShackAPI/Meta-information/api.yaml"
                := "{...}"]> own) : gmap string string).
    assert (@notExist P0 H0 "/tmp/apim/PizzaShackProduct/APIs" own = None)
      as Hdir by (vm_compute; reflexivity).
    assert (@ReadDir P0 H0 "/tmp/apim/PizzaShackProduct/APIs" own
            = Ok [pizzaDir; donutDir]) as Hlist by (vm_compute; reflexivity).
    assert (@replaceEnvVariables P0 H0
              "/tmp/apim/PizzaShackProduct/APIs/PizzaShackAPI" own
            = (own, Ok tt)) as Hsub by (vm_compute; reflexivity).
    assert (@IsFileExist P0 H0
              "/tmp/apim/PizzaShackProduct/APIs/PizzaShackAPI/api_params.yaml"
              own = true) as Hfile by (vm_compute; reflexivity).
    assert (@injectParamsToAPI P0 H0
              "/tmp/apim/PizzaShackProduct/APIs/PizzaShackAPI"
              "/tmp/apim/PizzaShackProduct/APIs/PizzaShackAPI/api_params.yaml"
              "dev" own = (fs2, Ok [])) as Hinject
      by (vm_compute; reflexivity).
    assert (@preProcessDependentAPIsIn P0 H0 [donutDir]
              "/tmp/apim/PizzaShackProduct/APIs" "dev" [] fs2
            = (fs2, ([], None))) as Hrest by (vm_compute; reflexivity).
    rewrite <- Hrest.
    exact (proj2 (proj2 (proj2 (proj2 (proj2 (proj2 (property own))))
                          pizzaDir [donutDir] own Hdir Hlist Hsub))
             fs2 [] Hfile Hinject).
Defined.
